(** * cellmaps_pipeline: the pipeline runners of [cellmaps_pipeline/runner.py]

    A shallow embedding of the three classes of [runner.py]
    ([SLURMPipelineRunner], [ProgrammaticPipelineRunner], [CellmapsPipeline])
    together with the Python primitives they rely on, followed by the
    properties of the orchestration layer.

    Python values are modelled as follows: [str] is [string], one
    character per code point (so the texts covered are those whose code
    points are below 256), [int] is [Z], [None]-able attributes are
    [option], lists are [list], an exception is a value of [exn] carried
    by [outcome]. *)

From Stdlib Require Import ZArith List String Ascii Bool Lia.
From Stdlib Require Import DecimalString DecimalZ DecimalPos.
Import ListNotations.

Open Scope string_scope.
Open Scope Z_scope.

(** ** Python primitives *)

Module Py.

(** The exceptions that the runners raise themselves, plus [OtherError]
    for whatever an external collaborator may raise. *)
Inductive exn : Type :=
| CellmapsPipelineError (msg : string)
| NotImplementedError (msg : string)
| TypeError
| IndexError
| OtherError (msg : string).

Inductive outcome (A : Type) : Type :=
| Ret (a : A)
| Raise (e : exn).
Arguments Ret {A} a.
Arguments Raise {A} e.

(** A value that is either [None] or an [int]: what [run()] of a runner
    hands back to the driver. *)
Inductive pyvalue : Type :=
| PyNone
| PyInt (z : Z).

Definition nl : string := String (ascii_of_nat 10) EmptyString.
Definition sep : ascii := "/"%char.

(** [str(i)] for an [int]. *)
Definition str (i : Z) : string := NilZero.string_of_int (Z.to_int i).

(** [s.startswith(c)] and [s.endswith(c)] for a one-character [c]. *)
Definition startswith (s : string) (c : ascii) : bool :=
  match s with
  | EmptyString => false
  | String a _ => Ascii.eqb a c
  end.

Fixpoint endswith (s : string) (c : ascii) : bool :=
  match s with
  | EmptyString => false
  | String a EmptyString => Ascii.eqb a c
  | String _ rest => endswith rest c
  end.

(** [os.path.join(a, b)] of [posixpath]: an absolute [b] replaces [a];
    a separator is inserted unless [a] is empty or already ends in one. *)
Definition join (a b : string) : string :=
  if startswith b sep then b
  else match a with
       | EmptyString => a ++ b
       | _ => if endswith a sep then a ++ b
              else a ++ String sep b
       end.

(** [l[i]] for a list: negative indices count from the end, anything
    outside [-len, len) raises [IndexError]. *)
Definition index {A : Type} (l : list A) (i : Z) : outcome A :=
  let len := Z.of_nat (List.length l) in
  let j := if i <? 0 then i + len else i in
  if (j <? 0) || (len <=? j) then Raise IndexError
  else match nth_error l (Z.to_nat j) with
       | Some x => Ret x
       | None => Raise IndexError
       end.

(** [sep.join(l)]. *)
Fixpoint sjoin (sp : string) (l : list string) : string :=
  match l with
  | [] => EmptyString
  | [x] => x
  | x :: rest => x ++ sp ++ sjoin sp rest
  end.

(** *** [repr] of a [str]

    The quote is a single quote unless the text holds a single quote and
    no double quote; the quote and the backslash are escaped, tab, line
    feed and carriage return get their letter escapes, and every other
    character that is not printable a two-digit hexadecimal escape: the
    control characters below 32, 127, the characters from 128 to 160
    (the second block of control characters and the no-break space) and
    173 (the soft hyphen).  All other characters are kept. *)
Definition squote : ascii := "'"%char.
Definition dquote : ascii := ascii_of_nat 34.
Definition backslash : ascii := ascii_of_nat 92.

Fixpoint contains (s : string) (c : ascii) : bool :=
  match s with
  | EmptyString => false
  | String a rest => Ascii.eqb a c || contains rest c
  end.

Definition hex_digit (n : nat) : ascii :=
  ascii_of_nat (if Nat.ltb n 10 then 48 + n else 87 + n).

(** [c.isprintable()] for a character below 256. *)
Definition isprintable (c : ascii) : bool :=
  let n := nat_of_ascii c in
  negb (Nat.ltb n 32 || Nat.eqb n 127 || (Nat.leb 128 n && Nat.leb n 160) || Nat.eqb n 173).

Definition repr_char (quote : ascii) (c : ascii) : string :=
  let n := nat_of_ascii c in
  if Ascii.eqb c quote || Ascii.eqb c backslash then String backslash (String c EmptyString)
  else if Nat.eqb n 9 then String backslash "t"
  else if Nat.eqb n 10 then String backslash "n"
  else if Nat.eqb n 13 then String backslash "r"
  else if negb (isprintable c) then
    String backslash (String "x" (String (hex_digit (Nat.div n 16))
                                    (String (hex_digit (Nat.modulo n 16)) EmptyString)))
  else String c EmptyString.

Fixpoint repr_body (quote : ascii) (s : string) : string :=
  match s with
  | EmptyString => EmptyString
  | String c rest => repr_char quote c ++ repr_body quote rest
  end.

Definition repr_str (s : string) : string :=
  let quote := if contains s squote && negb (contains s dquote) then dquote else squote in
  String quote (repr_body quote s ++ String quote EmptyString).

End Py.
Export Py.

(** ** External collaborators *)

(** [cellmaps_utils.constants]: the step directory names.  The module is not
    part of this repository, so the names are parameters of the
    development. *)
Module constants.
Class t : Type := {
  IMAGE_DOWNLOAD_STEP_DIR : string;
  PPI_DOWNLOAD_STEP_DIR : string;
  PPI_EMBEDDING_STEP_DIR : string;
  IMAGE_EMBEDDING_STEP_DIR : string;
  COEMBEDDING_STEP_DIR : string;
  HIERARCHY_STEP_DIR : string
}.
End constants.

(** An entry of [_image_coembed_tuples]:
    [(fold_val, image_embed_dir, co_embed_dir)]. *)
Definition tuple : Type := (Z * string * string)%type.
Definition tup0 (x : tuple) : Z := fst (fst x).
Definition tup1 (x : tuple) : string := snd (fst x).
Definition tup2 (x : tuple) : string := snd x.

(** [str(t)] of such a tuple: the [repr] of the components. *)
Definition str_tuple (x : tuple) : string :=
  "(" ++ str (tup0 x) ++ ", " ++ repr_str (tup1 x) ++ ", " ++ repr_str (tup2 x) ++ ")".

(** The stage workers, with the constructor arguments that the in-process
    runner computes for them.  [fake_gen] tells whether the fake generator
    (or downloader) was injected. *)
Inductive worker : Type :=
| CellmapsImageDownloader (outdir : string) (fake_gen : bool)
| CellmapsPPIDownloader (outdir : string)
| CellMapsPPIEmbedder (outdir inputdir : string)
| CellmapsImageEmbedder (outdir inputdir : string) (fold : Z) (fake_gen : bool)
| CellmapsCoEmbedder (outdir image_embeddingdir ppi_embeddingdir : string) (fake_gen : bool)
| CellmapsGenerateHierarchy (outdir : string) (inputdirs : list string).

(** What a runner does to the outside world, in order. *)
Inductive event : Type :=
| Warn (msg : string)                      (* warnings.warn(msg) *)
| LogError (msg : string)                  (* logger.error(msg) *)
| Invoke (w : worker) (r : outcome Z)      (* w built, w.run() called, r came back *)
| OpenW (path : string)                    (* open(path, 'w') *)
| FWrite (path : string) (text : string).  (* f.write(text) on the file at path *)

(** What the driver does around the runner. *)
Inductive driver_event : Type :=
| Makedirs (path : string) (mode : Z)
| WriteStart (outdir : string) (start_time : Z) (data : option string) (version : string)
| Strategy (e : event)
| WriteFinish (outdir : string) (start_time : Z) (status : pyvalue).

(** The host: file system, working directory, and the stage packages.
    [run_worker w fs] stands for building the collaborators of [w] from its
    inputs and calling [w.run()]; it may return any code, raise, and change
    the file system in any way.  Host I/O performed by the runners
    themselves ([os.makedirs], the marker writers, [open] for writing) is
    taken to succeed. *)
Class Host : Type := {
  FS : Type;
  abspath : string -> string;
  isdir : string -> FS -> bool;
  makedirs : string -> Z -> FS -> FS;
  write_task_start_json : string -> Z -> option string -> string -> FS -> FS;
  write_task_finish_json : string -> Z -> pyvalue -> FS -> FS;
  (* ImageGeneNodeAttributeGenerator(unique, samples) and the choice of the
     image URL generator, which read the two tables *)
  image_generators : option string -> option string -> option string -> string
                     -> FS -> outcome unit;
  run_worker : worker -> FS -> outcome Z * FS;
  (* cellmaps_pipeline.__version__ *)
  pipeline_version : string
}.

(** ** Script writing: output and exceptions *)

Definition W (A : Type) : Type := (outcome A * list event)%type.

Definition retW {A} (a : A) : W A := (Ret a, []).
Definition raiseW {A} (e : exn) : W A := (Raise e, []).
Definition bindW {A B} (c : W A) (k : A -> W B) : W B :=
  match c with
  | (Ret a, t1) => let '(r, t2) := k a in (r, (t1 ++ t2)%list)
  | (Raise e, t1) => (Raise e, t1)
  end.
Definition emitW (e : event) : W unit := (Ret tt, [e]).
Definition liftW {A} (o : outcome A) : W A := (o, []).

Declare Scope W_scope.
Delimit Scope W_scope with W.
Notation "x <- c ;; k" := (bindW c (fun x => k))
  (at level 61, c at next level, right associativity) : W_scope.
Notation "c ;; k" := (bindW c (fun _ => k))
  (at level 61, right associativity) : W_scope.

(** [with open(path, 'w') as f: body]: the file is a path; leaving the
    block, normally or not, closes it. *)
Definition with_open {A} (path : string) (body : string -> W A) : W A :=
  (emitW (OpenW path) ;; body path)%W.
Definition fwrite (f : string) (text : string) : W unit := emitW (FWrite f text).

(** [self._fake == True] / [self._fake is True] / truth of [self._fake]:
    the attribute is [None], [True] or [False]. *)
Definition is_True (fake : option bool) : bool :=
  match fake with
  | Some true => true
  | _ => false
  end.

(** ** [class PipelineRunner] *)

Module PipelineRunner.
Section PipelineRunner.
Context `{constants.t} `{Host}.

(** [__init__]: [os.path.abspath(None)] is a [TypeError]. *)
Definition __init__ (outdir : option string) : outcome string :=
  match outdir with
  | None => Raise TypeError
  | Some d => Ret (abspath d)
  end.

Definition image_embed_dir (_outdir : string) (fold_val : Z) : string :=
  join _outdir (constants.IMAGE_EMBEDDING_STEP_DIR ++ str fold_val).
Definition co_embed_dir (_outdir : string) (fold_val : Z) : string :=
  join _outdir (constants.COEMBEDDING_STEP_DIR ++ str fold_val).

Definition _get_image_coembed_tuples (_outdir : string) (fold : option (list Z))
  : outcome (list tuple) :=
  match fold with
  | None => Raise (CellmapsPipelineError "Fold cannot be None")
  | Some fold =>
      Ret (map (fun fold_val =>
                  (fold_val, image_embed_dir _outdir fold_val,
                    co_embed_dir _outdir fold_val)) fold)
  end.

Definition run : outcome pyvalue :=
  Raise (NotImplementedError "subclasses need to implement").

End PipelineRunner.
End PipelineRunner.

(** Exceptions alone, for the constructors. *)
Definition bindO {A B} (c : outcome A) (k : A -> outcome B) : outcome B :=
  match c with
  | Ret a => k a
  | Raise e => Raise e
  end.

Declare Scope O_scope.
Delimit Scope O_scope with O.
Notation "x <- c ;; k" := (bindO c (fun x => k))
  (at level 61, c at next level, right associativity) : O_scope.

(** ** [class SLURMPipelineRunner]: the batch-scheduler strategy *)

Module SLURMPipelineRunner.

Record t : Type := {
  _outdir : string;
  _cm4ai_apms : option string;
  _cm4ai_image : option string;
  _samples : option string;
  _unique : option string;
  _edgelist : option string;
  _baitlist : option string;
  _model_path : option string;
  _fake : option bool;
  _provenance : option string;
  _proteinatlasxml : option string;
  _ppi_cutoffs : option string;
  _input_data_dict : option string;
  _slurm_partition : option string;
  _slurm_account : option string;
  _image_dir : string;
  _ppi_dir : string;
  _ppi_embed_dir : string;
  _image_coembed_tuples : list tuple;
  _hierarchy_dir : string
}.

Section SLURMPipelineRunner.
Context `{constants.t} `{Host}.

Definition __init__ (outdir cm4ai_apms cm4ai_image samples unique edgelist
                       baitlist model_path proteinatlasxml ppi_cutoffs : option string)
  (fake : option bool) (provenance : option string) (fold : option (list Z))
  (input_data_dict slurm_partition slurm_account : option string) : outcome t :=
  (od <- PipelineRunner.__init__ outdir ;;
   tuples <- PipelineRunner._get_image_coembed_tuples od fold ;;
   Ret {| _outdir := od;
          _cm4ai_apms := cm4ai_apms;
          _cm4ai_image := cm4ai_image;
          _samples := samples;
          _unique := unique;
          _edgelist := edgelist;
          _baitlist := baitlist;
          _model_path := model_path;
          _fake := fake;
          _provenance := provenance;
          _proteinatlasxml := proteinatlasxml;
          _ppi_cutoffs := ppi_cutoffs;
          _input_data_dict := input_data_dict;
          _slurm_partition := slurm_partition;
          _slurm_account := slurm_account;
          _image_dir := join od constants.IMAGE_DOWNLOAD_STEP_DIR;
          _ppi_dir := join od constants.PPI_DOWNLOAD_STEP_DIR;
          _ppi_embed_dir := join od constants.PPI_EMBEDDING_STEP_DIR;
          _image_coembed_tuples := tuples;
          _hierarchy_dir := join od constants.HIERARCHY_STEP_DIR |})%O.

(** Default values of the resource directives. *)
Definition allocated_time : string := "4:00:00".
Definition mem : string := "32G".
Definition cpus_per_task : string := "4".

Definition _write_slurm_directives (self : t) (out : string) (job_name : string)
  : W unit :=
  (fwrite out ("#!/bin/bash" ++ nl ++ nl) ;;
   fwrite out ("#SBATCH --job-name=" ++ job_name ++ nl) ;;
   fwrite out ("#SBATCH --chdir=" ++ _outdir self ++ nl) ;;
   fwrite out "#SBATCH --output=%x.%j.out" ;;
   match _slurm_partition self with
   | Some p => fwrite out ("#SBATCH --partition=" ++ p ++ nl)
   | None => retW tt
   end ;;
   match _slurm_account self with
   | Some a => fwrite out ("#SBATCH --account=" ++ a ++ nl)
   | None => retW tt
   end ;;
   fwrite out ("#SBATCH --ntasks=1" ++ nl) ;;
   fwrite out ("#SBATCH --cpus-per-task=" ++ cpus_per_task ++ nl) ;;
   fwrite out ("#SBATCH --mem=" ++ mem ++ nl) ;;
   fwrite out ("#SBATCH --time=" ++ allocated_time ++ nl ++ nl) ;;
   fwrite out ("echo $SLURM_JOB_ID" ++ nl) ;;
   fwrite out ("echo $HOSTNAME" ++ nl))%W.

(** The [input_arg] of the two download scripts, then the provenance
    check. *)
Definition input_arg (self : t) : W string :=
  match _cm4ai_image self with
  | Some table => retW ("--cm4ai_table " ++ table)
  | None =>
      match _samples self, _unique self with
      | Some s, Some u => retW ("--samples " ++ s ++ " --unique " ++ u)
      | _, _ =>
          raiseW (CellmapsPipelineError
            "You must provide cm4ai_table parameter or samples and unque parameters.")
      end
  end.

Definition provenance_arg (self : t) : W string :=
  match _provenance self with
  | None => raiseW (CellmapsPipelineError "You must provide provenance parameter")
  | Some p => retW p
  end.

Definition _generate_download_images_command (self : t) : W string :=
  (with_open (join (_outdir self) "imagedownloadjob.sh") (fun f =>
     _write_slurm_directives self f "imagedownload" ;;
     arg <- input_arg self ;;
     prov <- provenance_arg self ;;
     fwrite f ("cellmaps_imagedownloadercmd.py " ++ _image_dir self ++
               "--provenance " ++ prov ++ " " ++ arg ++ nl) ;;
     fwrite f ("exit $?" ++ nl)) ;;
   retW "imagedownloadjob.sh")%W.

Definition _generate_download_ppi_command (self : t) : W string :=
  (with_open (join (_outdir self) "ppidownloadjob.sh") (fun f =>
     _write_slurm_directives self f "ppidownload" ;;
     arg <- input_arg self ;;
     prov <- provenance_arg self ;;
     fwrite f ("cellmaps_ppidownloadercmd.py " ++ _ppi_dir self ++
               " --provenance " ++ prov ++ " " ++ arg ++ nl) ;;
     fwrite f ("exit $?" ++ nl)) ;;
   retW "ppidownloadjob.sh")%W.

Definition _generate_embed_image_command (self : t) (fold : Z) : W string :=
  let filename := "imageembedjob" ++ str fold ++ ".sh" in
  (with_open (join (_outdir self) filename) (fun f =>
     _write_slurm_directives self f ("imageembed" ++ str fold) ;;
     let fake := if is_True (_fake self) then "--fake_embedder" else EmptyString in
     x <- liftW (index (_image_coembed_tuples self) (fold - 1)) ;;
     fwrite f ("cellmaps_image_embeddingcmd.py " ++ tup1 x ++
               " --fold " ++ str fold ++ " --inputdir " ++ _image_dir self ++
               " " ++ fake ++ " -vvvv" ++ nl) ;;
     fwrite f ("exit $?" ++ nl)) ;;
   retW filename)%W.

Definition _generate_embed_ppi_command (self : t) : W string :=
  (with_open (join (_outdir self) "ppiembedjob.sh") (fun f =>
     _write_slurm_directives self f "ppiembed" ;;
     let fake := if is_True (_fake self) then "--fake_embedder" else EmptyString in
     fwrite f ("cellmaps_ppi_embeddingcmd.py " ++ _ppi_embed_dir self ++
               " --inputdir " ++ _ppi_dir self ++ " " ++ fake ++ " -vvvv" ++ nl) ;;
     fwrite f ("exit $?" ++ nl)) ;;
   retW "ppiembedjob.sh")%W.

Definition _generate_coembed_command (self : t) (fold : Z) : W string :=
  let filename := "coembeddingjob" ++ str fold ++ ".sh" in
  (with_open (join (_outdir self) filename) (fun f =>
     _write_slurm_directives self f ("coembedding" ++ str fold) ;;
     let fake := if is_True (_fake self) then "--fake_embedding" else EmptyString in
     x <- liftW (index (_image_coembed_tuples self) (fold - 1)) ;;
     y <- liftW (index (_image_coembed_tuples self) (fold - 1)) ;;
     fwrite f ("cellmaps_coembeddingcmd.py " ++ tup2 x ++
               " --ppi_embeddingdir " ++ _ppi_embed_dir self ++
               " --image_embeddingdir " ++ tup1 y ++ " " ++ fake ++ " -vvvv" ++ nl) ;;
     fwrite f ("exit $?" ++ nl)) ;;
   retW filename)%W.

(** The loop over the tuples inside [_generate_hierarchy_command]. *)
Fixpoint write_coembedding_dirs (f : string) (tuples : list tuple) : W unit :=
  match tuples with
  | [] => retW tt
  | image_coembed_tuple :: rest =>
      (fwrite f (tup2 image_coembed_tuple ++ " ") ;;
       write_coembedding_dirs f rest)%W
  end.

Definition _generate_hierarchy_command (self : t) : W string :=
  (with_open (join (_outdir self) "hierarchyjob.sh") (fun f =>
     _write_slurm_directives self f "hierarchy" ;;
     fwrite f ("cellmaps_generate_hierarchycmd.py " ++ _hierarchy_dir self ++
               " --coembedding_dirs ") ;;
     write_coembedding_dirs f (_image_coembed_tuples self) ;;
     fwrite f ("-vvvv" ++ nl) ;;
     fwrite f ("exit $?" ++ nl)) ;;
   retW "hierarchyjob.sh")%W.

(** The name under which the driver script stores a fold's co-embedding
    job: ['f' + str(image_coembed_tuple) + '_coembed_job']. *)
Definition embed_job_name (image_coembed_tuple : tuple) : string :=
  "f" ++ str_tuple image_coembed_tuple ++ "_coembed_job".

(** The loop over the tuples inside [run]; [embed_job_names] is the list
    being appended to. *)
Fixpoint submit_folds (self : t) (f : string) (tuples : list tuple)
  (embed_job_names : list string) : W (list string) :=
  match tuples with
  | [] => retW embed_job_names
  | image_coembed_tuple :: rest =>
      let fold := tup0 image_coembed_tuple in
      (fwrite f ("# image embed" ++ nl) ;;
       script <- _generate_embed_image_command self fold ;;
       fwrite f ("image_embed_job" ++ str fold ++
                 "=$(sbatch --dependency=afterok:$image_download_job " ++
                 script ++ ")" ++ nl ++ nl) ;;
       fwrite f ("# fold" ++ str fold ++ " co-embedding" ++ nl) ;;
       script <- _generate_coembed_command self fold ;;
       fwrite f (embed_job_name image_coembed_tuple ++
                 "=$(sbatch --dependency=afterok:$image_embed_job" ++ str fold ++
                 " " ++ script) ;;
       submit_folds self f rest
         (embed_job_names ++ [("$" ++ embed_job_name image_coembed_tuple)%string])%list)%W
  end.

Definition slurmjobfile (self : t) : string :=
  join (_outdir self) "slurm_cellmaps_job.sh".

Definition run (self : t) : W pyvalue :=
  (with_open (slurmjobfile self) (fun f =>
     fwrite f ("#! /bin/bash" ++ nl ++ nl) ;;
     fwrite f ("# image download no dependencies" ++ nl) ;;
     script <- _generate_download_images_command self ;;
     fwrite f ("image_download_job=$(sbatch " ++ script ++ ")" ++ nl ++ nl) ;;
     fwrite f ("# ppi download no dependencies" ++ nl) ;;
     script <- _generate_download_ppi_command self ;;
     fwrite f ("ppi_download_job=$(sbatch " ++ script ++ ")" ++ nl ++ nl) ;;
     fwrite f ("# ppi embed" ++ nl) ;;
     script <- _generate_embed_ppi_command self ;;
     fwrite f ("ppi_embed_job=$(sbatch --dependency=afterok:$ppi_download_job " ++
               script ++ ")" ++ nl ++ nl) ;;
     embed_job_names <- submit_folds self f (_image_coembed_tuples self)
                          ["$ppi_embed_job"] ;;
     let dependency_str := sjoin ":" embed_job_names in
     fwrite f ("# hierarchy" ++ nl) ;;
     script <- _generate_hierarchy_command self ;;
     fwrite f ("hierarchy_job=$(sbatch --dependency=afterok:" ++ dependency_str ++
               " " ++ script ++ ")" ++ nl ++ nl)) ;;
   retW PyNone)%W.

End SLURMPipelineRunner.
End SLURMPipelineRunner.

(** ** In-process execution: file system, output and exceptions *)

Section Monad.
Context `{Host}.

Definition M (E A : Type) : Type := FS -> (outcome A * list E * FS)%type.

Definition retM {E A} (a : A) : M E A := fun fs => (Ret a, [], fs).
Definition raiseM {E A} (e : exn) : M E A := fun fs => (Raise e, [], fs).
Definition bindM {E A B} (c : M E A) (k : A -> M E B) : M E B :=
  fun fs =>
    match c fs with
    | (Ret a, t1, fs1) => let '(r, t2, fs2) := k a fs1 in (r, (t1 ++ t2)%list, fs2)
    | (Raise e, t1, fs1) => (Raise e, t1, fs1)
    end.
Definition emitM {E} (e : E) : M E unit := fun fs => (Ret tt, [e], fs).

(** [try: body finally: final], where [final] may look at how [body]
    ended; the outcome of [body] is kept unless [final] raises. *)
Definition try_finally {E A} (body : M E A) (final : outcome A -> M E unit) : M E A :=
  fun fs =>
    let '(r, t1, fs1) := body fs in
    let '(rf, t2, fs2) := final r fs1 in
    (match rf with
     | Ret _ => r
     | Raise e => Raise e
     end, (t1 ++ t2)%list, fs2).

(** The events of a runner, seen from the driver. *)
Definition lift_strategy {A} (c : M event A) : M driver_event A :=
  fun fs => let '(r, tr, fs1) := c fs in (r, map Strategy tr, fs1).

Definition os_path_isdir {E} (path : string) : M E bool :=
  fun fs => (Ret (isdir path fs), [], fs).
Definition warnings_warn (msg : string) : M event unit := emitM (Warn msg).
Definition logger_error (msg : string) : M event unit := emitM (LogError msg).

(** Build the image attribute generator and the image URL generator. *)
Definition build_image_generators (unique samples proteinatlasxml : option string)
  (image_dir : string) : M event unit :=
  fun fs => (image_generators unique samples proteinatlasxml image_dir fs, [], fs).

(** A runner whose [run()] returns an [int], as the driver sees it. *)
Definition as_runner (c : M event Z) : M event pyvalue :=
  fun fs =>
    let '(r, tr, fs1) := c fs in
    (match r with
     | Ret code => Ret (PyInt code)
     | Raise e => Raise e
     end, tr, fs1).

(** Build the worker and call its [run()]. *)
Definition invoke (w : worker) : M event Z :=
  fun fs => let '(r, fs1) := run_worker w fs in (r, [Invoke w r], fs1).

End Monad.

Declare Scope M_scope.
Delimit Scope M_scope with M.
Notation "x <- c ;; k" := (bindM c (fun x => k))
  (at level 61, c at next level, right associativity) : M_scope.
Notation "c ;; k" := (bindM c (fun _ => k))
  (at level 61, right associativity) : M_scope.

(** ** [class ProgrammaticPipelineRunner]: the in-process strategy *)

Module ProgrammaticPipelineRunner.

Record t : Type := {
  _outdir : string;
  _samples : option string;
  _unique : option string;
  _edgelist : option string;
  _baitlist : option string;
  _model_path : option string;
  _fake : option bool;
  _provenance : option string;
  _provenance_utils : string;
  _proteinatlasxml : option string;
  _ppi_cutoffs : option string;
  _input_data_dict : option string;
  _image_dir : string;
  _ppi_dir : string;
  _ppi_embed_dir : string;
  _image_coembed_tuples : list tuple;
  _hierarchy_dir : string
}.

Section ProgrammaticPipelineRunner.
Context `{constants.t} `{Host}.

Definition __init__ (outdir samples unique edgelist baitlist model_path
                       proteinatlasxml ppi_cutoffs : option string)
  (fake : option bool) (provenance : option string) (provenance_utils : string)
  (fold : option (list Z)) (input_data_dict : option string) : outcome t :=
  (od <- PipelineRunner.__init__ outdir ;;
   tuples <- PipelineRunner._get_image_coembed_tuples od fold ;;
   Ret {| _outdir := od;
          _samples := samples;
          _unique := unique;
          _edgelist := edgelist;
          _baitlist := baitlist;
          _model_path := model_path;
          _fake := fake;
          _provenance := provenance;
          _provenance_utils := provenance_utils;
          _proteinatlasxml := proteinatlasxml;
          _ppi_cutoffs := ppi_cutoffs;
          _input_data_dict := input_data_dict;
          _image_dir := join od constants.IMAGE_DOWNLOAD_STEP_DIR;
          _ppi_dir := join od constants.PPI_DOWNLOAD_STEP_DIR;
          _ppi_embed_dir := join od constants.PPI_EMBEDDING_STEP_DIR;
          _image_coembed_tuples := tuples;
          _hierarchy_dir := join od constants.HIERARCHY_STEP_DIR |})%O.

Definition _download_images (self : t) : M event Z :=
  (found <- os_path_isdir (_image_dir self) ;;
   if found : bool then
     warnings_warn "Found image dir, assuming we are good. skipping" ;;
     retM 0
   else
     build_image_generators (_unique self) (_samples self) (_proteinatlasxml self)
       (_image_dir self) ;;
     (if is_True (_fake self)
      then warnings_warn "FAKE IMAGES ARE BEING DOWNLOADED!!!!!"
      else retM tt) ;;
     invoke (CellmapsImageDownloader (_image_dir self) (is_True (_fake self))))%M.

Definition _download_ppi (self : t) : M event Z :=
  (found <- os_path_isdir (_ppi_dir self) ;;
   if found : bool then
     warnings_warn "Found ppi dir, assuming we are good. skipping" ;;
     retM 0
   else
     invoke (CellmapsPPIDownloader (_ppi_dir self)))%M.

Definition _embed_ppi (self : t) : M event Z :=
  (found <- os_path_isdir (_ppi_embed_dir self) ;;
   if found : bool then
     warnings_warn "Found ppi embedding dir, assuming we are good. skipping" ;;
     retM 0
   else
     invoke (CellMapsPPIEmbedder (_ppi_embed_dir self) (_ppi_dir self)))%M.

(** The loop of [_embed_image].  When the embedder fails, the argument of
    [logger.error] adds the fold, an [int], to a [str]: the evaluation
    raises [TypeError] before anything is logged or returned. *)
Fixpoint embed_image_loop (self : t) (tuples : list tuple) : M event Z :=
  match tuples with
  | [] => retM 0
  | image_coembed_tuple :: rest =>
      (found <- os_path_isdir (tup1 image_coembed_tuple) ;;
       if found : bool then
         warnings_warn ("Found image_embedding dir" ++ tup1 image_coembed_tuple ++
                        ", assuming we are good. skipping") ;;
         embed_image_loop self rest
       else
         retval <- invoke (CellmapsImageEmbedder (tup1 image_coembed_tuple)
                             (_image_dir self) (tup0 image_coembed_tuple)
                             (is_True (_fake self))) ;;
         if negb (retval =? 0) then raiseM TypeError
         else embed_image_loop self rest)%M
  end.

Definition _embed_image (self : t) : M event Z :=
  embed_image_loop self (_image_coembed_tuples self).

Fixpoint coembed_loop (self : t) (tuples : list tuple) : M event Z :=
  match tuples with
  | [] => retM 0
  | image_coembed_tuple :: rest =>
      (found <- os_path_isdir (tup2 image_coembed_tuple) ;;
       if found : bool then
         warnings_warn ("Found coembedding dir" ++ tup2 image_coembed_tuple ++
                        ", assuming we are good. skipping") ;;
         coembed_loop self rest
       else
         retval <- invoke (CellmapsCoEmbedder (tup2 image_coembed_tuple)
                             (tup1 image_coembed_tuple) (_ppi_embed_dir self)
                             (is_True (_fake self))) ;;
         if negb (retval =? 0) then
           logger_error ("Coembedding " ++ tup2 image_coembed_tuple ++
                         "using " ++ tup1 image_coembed_tuple ++
                         " had non zero exit code of: " ++ str retval) ;;
           retM retval
         else coembed_loop self rest)%M
  end.

Definition _coembed (self : t) : M event Z :=
  coembed_loop self (_image_coembed_tuples self).

Definition _hierarchy (self : t) : M event Z :=
  (found <- os_path_isdir (_hierarchy_dir self) ;;
   if found : bool then
     warnings_warn "Found hierarchy dir, assuming we are good. skipping" ;;
     retM 0
   else
     let coembed_dirs := map tup2 (_image_coembed_tuples self) in
     invoke (CellmapsGenerateHierarchy (_hierarchy_dir self) coembed_dirs))%M.

(** [if step() != 0: raise CellmapsPipelineError(msg)]. *)
Definition check (step : M event Z) (msg : string) : M event unit :=
  (code <- step ;;
   if negb (code =? 0) then raiseM (CellmapsPipelineError msg) else retM tt)%M.

Definition run (self : t) : M event Z :=
  (check (_download_images self) "Image download failed" ;;
   check (_download_ppi self) "PPI download failed" ;;
   check (_embed_ppi self) "PPI embed failed" ;;
   check (_embed_image self) "Image embed failed" ;;
   check (_coembed self) "Coembed failed" ;;
   check (_hierarchy self) "Hierarchy failed" ;;
   retM 0)%M.

End ProgrammaticPipelineRunner.
End ProgrammaticPipelineRunner.

(** ** [class CellmapsPipeline]: the driver *)

Module CellmapsPipeline.
Section CellmapsPipeline.
Context `{Host}.

Record t : Type := {
  _outdir : option string;
  _start_time : Z;
  _runner : M event pyvalue;
  _input_data_dict : option string
}.

(** [__init__]; [now] is the reading of [int(time.time())]. *)
Definition __init__ (now : Z) (outdir : option string) (runner : M event pyvalue)
  (input_data_dict : option string) : outcome t :=
  match outdir with
  | None => Raise (CellmapsPipelineError "outdir is None")
  | Some d =>
      Ret {| _outdir := Some (abspath d);
             _start_time := now;
             _runner := runner;
             _input_data_dict := input_data_dict |}
  end.

Definition os_makedirs (path : string) (mode : Z) : M driver_event unit :=
  fun fs => (Ret tt, [Makedirs path mode], makedirs path mode fs).

Definition logutils_write_task_start_json (outdir : string) (start_time : Z)
  (data : option string) (version : string) : M driver_event unit :=
  fun fs => (Ret tt, [WriteStart outdir start_time data version],
             write_task_start_json outdir start_time data version fs).

Definition logutils_write_task_finish_json (outdir : string) (start_time : Z)
  (status : pyvalue) : M driver_event unit :=
  fun fs => (Ret tt, [WriteFinish outdir start_time status],
             write_task_finish_json outdir start_time status fs).

(** The value of [exit_status] when the [finally] block runs: 99 unless
    the runner returned. *)
Definition exit_status (r : outcome pyvalue) : pyvalue :=
  match r with
  | Ret v => v
  | Raise _ => PyInt 99
  end.

Definition run (self : t) : M driver_event pyvalue :=
  match _outdir self with
  | None => raiseM (CellmapsPipelineError "outdir must be set")
  | Some outdir =>
      (found <- os_path_isdir outdir ;;
       (if found : bool then retM tt else os_makedirs outdir 493 (* 0o755 *)) ;;
       logutils_write_task_start_json outdir (_start_time self)
         (_input_data_dict self) pipeline_version ;;
       try_finally (lift_strategy (_runner self))
         (fun r => logutils_write_task_finish_json outdir (_start_time self)
                     (exit_status r)))%M
  end.

End CellmapsPipeline.
End CellmapsPipeline.

(** ** Observations on what a run did *)

(** Every worker invoked in [tr] returned 0. *)
Definition clean (tr : list event) : Prop :=
  forall w r, In (Invoke w r) tr -> r = Ret 0.

(** No worker is invoked in [tr]. *)
Definition quiet (tr : list event) : Prop :=
  forall w r, ~ In (Invoke w r) tr.

(** [w] is the first worker of [tr] that did not return 0, and the last
    worker invoked at all. *)
Definition failing (w : worker) (r : outcome Z) (tr : list event) : Prop :=
  r <> Ret 0 /\
  exists pre post, tr = (pre ++ Invoke w r :: post)%list /\ clean pre /\ quiet post.

Definition is_warning (e : event) : bool :=
  match e with
  | Warn _ => true
  | _ => false
  end.

Definition is_file_event (e : event) : bool :=
  match e with
  | OpenW _ | FWrite _ _ => true
  | _ => false
  end.

(** The files opened for writing, in order. *)
Fixpoint opened (tr : list event) : list string :=
  match tr with
  | [] => []
  | OpenW path :: rest => path :: opened rest
  | _ :: rest => opened rest
  end.

(** The texts written to [path], in order. *)
Fixpoint writes_to (path : string) (tr : list event) : list string :=
  match tr with
  | [] => []
  | FWrite p text :: rest =>
      if String.eqb p path then text :: writes_to path rest else writes_to path rest
  | _ :: rest => writes_to path rest
  end.

(** The statuses of the finish markers written, in order. *)
Fixpoint finish_markers (tr : list driver_event) : list pyvalue :=
  match tr with
  | [] => []
  | WriteFinish _ _ status :: rest => status :: finish_markers rest
  | _ :: rest => finish_markers rest
  end.

(** The message with which [ProgrammaticPipelineRunner.run] reports the
    step a worker belongs to. *)
Definition failure_label (w : worker) : string :=
  match w with
  | CellmapsImageDownloader _ _ => "Image download failed"
  | CellmapsPPIDownloader _ => "PPI download failed"
  | CellMapsPPIEmbedder _ _ => "PPI embed failed"
  | CellmapsImageEmbedder _ _ _ _ => "Image embed failed"
  | CellmapsCoEmbedder _ _ _ _ => "Coembed failed"
  | CellmapsGenerateHierarchy _ _ => "Hierarchy failed"
  end.

Definition is_image_embedder (w : worker) : bool :=
  match w with
  | CellmapsImageEmbedder _ _ _ _ => true
  | _ => false
  end.

Definition worker_outdir (w : worker) : string :=
  match w with
  | CellmapsImageDownloader o _ | CellmapsPPIDownloader o | CellMapsPPIEmbedder o _
  | CellmapsImageEmbedder o _ _ _ | CellmapsCoEmbedder o _ _ _
  | CellmapsGenerateHierarchy o _ => o
  end.

(** How a step of the in-process runner ends once worker [w] has come back
    with [r], not 0: an exception goes through, a code is returned, except
    by the image-embedding step, which raises [TypeError]. *)
Definition step_result (w : worker) (r : outcome Z) : outcome Z :=
  match r with
  | Raise e => Raise e
  | Ret c => if is_image_embedder w then Raise TypeError else Ret c
  end.

(** How [run] of the in-process runner ends in the same situation. *)
Definition run_result {A : Type} (w : worker) (r : outcome Z) : outcome A :=
  match r with
  | Raise e => Raise e
  | Ret c => if is_image_embedder w then Raise TypeError
             else Raise (CellmapsPipelineError (failure_label w))
  end.

(** The three ways a step reporting with [msg] can end: all workers
    returned 0 and so does the step; a worker of this step failed; nothing
    was invoked because the collaborators could not be built ([G]). *)
Definition step_ends {S : Type} (msg : string) (G : Prop)
  (x : outcome Z * list event * S) : Prop :=
  let '(res, tr, _) := x in
  (clean tr /\ res = Ret 0)
  \/ (exists w r, failing w r tr /\ failure_label w = msg /\ res = step_result w r)
  \/ (tr = [] /\ G /\ exists e, res = Raise e).

(** The same for a sequence of checked steps that returns [a]. *)
Definition run_ends {S A : Type} (a : A) (G : Prop)
  (x : outcome A * list event * S) : Prop :=
  let '(res, tr, _) := x in
  (clean tr /\ res = Ret a)
  \/ (exists w r, failing w r tr /\ res = run_result w r)
  \/ (tr = [] /\ G /\ exists e, res = Raise e).

(** The output paths of all stage instances of a runner. *)
Definition stage_outputs (image_dir ppi_dir ppi_embed_dir hierarchy_dir : string)
  (tuples : list tuple) : list string :=
  ([image_dir; ppi_dir; ppi_embed_dir; hierarchy_dir]
     ++ map tup1 tuples ++ map tup2 tuples)%list.

Definition is_digit (c : ascii) : bool :=
  let n := nat_of_ascii c in Nat.leb 48 n && Nat.leb n 57.

Fixpoint all_digits (s : string) : bool :=
  match s with
  | EmptyString => true
  | String c rest => is_digit c && all_digits rest
  end.

Fixpoint ends_in_digit (s : string) : bool :=
  match s with
  | EmptyString => false
  | String c EmptyString => is_digit c
  | String _ rest => ends_in_digit rest
  end.

(** What the step directory names must satisfy for the stage outputs to be
    told apart: relative names, none ending in a digit, the four names
    without a fold different from each other, and the two fold prefixes
    different from each other. *)
Definition distinct_step_dirs (C : constants.t) : Prop :=
  let singles := [constants.IMAGE_DOWNLOAD_STEP_DIR; constants.PPI_DOWNLOAD_STEP_DIR;
                  constants.PPI_EMBEDDING_STEP_DIR; constants.HIERARCHY_STEP_DIR] in
  let all := (singles ++ [constants.IMAGE_EMBEDDING_STEP_DIR;
                          constants.COEMBEDDING_STEP_DIR])%list in
  NoDup singles /\
  constants.IMAGE_EMBEDDING_STEP_DIR <> constants.COEMBEDDING_STEP_DIR /\
  Forall (fun n => startswith n sep = false) all /\
  Forall (fun n => ends_in_digit n = false) all.

(** What [join] puts between a directory and a relative name. *)
Definition glue (a : string) : string :=
  match a with
  | EmptyString => EmptyString
  | _ => if endswith a sep then EmptyString else String sep EmptyString
  end.

(** The inputs without which the download scripts cannot be written: a
    provenance file, and either the combined table or both the sample and
    the unique list. *)
Definition inputs_given (cm4ai_image samples unique provenance : option string) : Prop :=
  provenance <> None /\ (cm4ai_image <> None \/ (samples <> None /\ unique <> None)).

(** The fold list [[1, 2, ..., n]]. *)
Definition folds_upto (n : nat) : list Z := map Z.of_nat (seq 1 n).

(** ** Further observations *)

(** The workers invoked in [tr], in order. *)
Fixpoint invoked (tr : list event) : list worker :=
  match tr with
  | [] => []
  | Invoke w _ :: rest => w :: invoked rest
  | _ :: rest => invoked rest
  end.

(** The number of skip notices in [tr]: the warnings that start with
    [Found]. *)
Fixpoint skips (tr : list event) : nat :=
  match tr with
  | [] => 0
  | Warn msg :: rest => ((if prefix "Found" msg then 1 else 0) + skips rest)%nat
  | _ :: rest => skips rest
  end.

(** What the in-process runner still does once worker [w] has returned the
    code [c], not 0: the co-embedding step logs the failure, the other
    steps do nothing. *)
Definition after_failure (w : worker) (c : Z) : list event :=
  match w with
  | CellmapsCoEmbedder outdir image_embeddingdir _ _ =>
      [LogError ("Coembedding " ++ outdir ++ "using " ++ image_embeddingdir ++
                 " had non zero exit code of: " ++ str c)]
  | _ => []
  end.

(** In [tr], whatever follows a worker that returned a code other than 0
    is what [after_failure] tells. *)
Definition stops_after_failure (tr : list event) : Prop :=
  forall pre w c post,
    tr = (pre ++ Invoke w (Ret c) :: post)%list -> c <> 0 -> post = after_failure w c.

(** [l1] is [l2] with some elements left out, the order kept. *)
Inductive subseq {A : Type} : list A -> list A -> Prop :=
| subseq_nil : subseq [] []
| subseq_skip x l1 l2 : subseq l1 l2 -> subseq l1 (x :: l2)
| subseq_take x l1 l2 : subseq l1 l2 -> subseq (x :: l1) (x :: l2).

(** All workers that the in-process runner can invoke, in the order of its
    steps: the downloads, the PPI embedding, the image embedding of every
    fold, the co-embedding of every fold, the hierarchy. *)
Definition planned (self : ProgrammaticPipelineRunner.t) : list worker :=
  let fake := is_True (ProgrammaticPipelineRunner._fake self) in
  let tuples := ProgrammaticPipelineRunner._image_coembed_tuples self in
  ([CellmapsImageDownloader (ProgrammaticPipelineRunner._image_dir self) fake;
    CellmapsPPIDownloader (ProgrammaticPipelineRunner._ppi_dir self);
    CellMapsPPIEmbedder (ProgrammaticPipelineRunner._ppi_embed_dir self)
      (ProgrammaticPipelineRunner._ppi_dir self)]
     ++ map (fun x => CellmapsImageEmbedder (tup1 x)
                        (ProgrammaticPipelineRunner._image_dir self) (tup0 x) fake) tuples
     ++ map (fun x => CellmapsCoEmbedder (tup2 x) (tup1 x)
                        (ProgrammaticPipelineRunner._ppi_embed_dir self) fake) tuples
     ++ [CellmapsGenerateHierarchy (ProgrammaticPipelineRunner._hierarchy_dir self)
           (map tup2 tuples)])%list.

(** [fold - 1] is a valid index of a list of length [len]. *)
Definition in_range (len : nat) (fold : Z) : bool :=
  (- Z.of_nat len <=? fold - 1) && (fold - 1 <? Z.of_nat len).

(** The position that the index [fold - 1] denotes. *)
Definition position (len : nat) (fold : Z) : nat :=
  Z.to_nat (if fold - 1 <? 0 then fold - 1 + Z.of_nat len else fold - 1).

(** The names of the two scripts of a fold. *)
Definition fold_scripts (fold : Z) : list string :=
  ["imageembedjob" ++ str fold ++ ".sh"; "coembeddingjob" ++ str fold ++ ".sh"].

(** The names of all scripts for a list of folds, in the order in which
    [SLURMPipelineRunner.run] opens them. *)
Definition script_names (folds : list Z) : list string :=
  (["slurm_cellmaps_job.sh"; "imagedownloadjob.sh"; "ppidownloadjob.sh"; "ppiembedjob.sh"]
     ++ flat_map fold_scripts folds ++ ["hierarchyjob.sh"])%list.

(** The texts that the fold loop appends to [embed_job_names]. *)
Definition coembed_job_variables (tuples : list tuple) : list string :=
  map (fun x => "$" ++ SLURMPipelineRunner.embed_job_name x) tuples.

(** The text that the writes of [tr] put into the file [f]. *)
Fixpoint text_written (f : string) (tr : list event) : string :=
  match tr with
  | [] => EmptyString
  | FWrite p text :: rest =>
      if String.eqb p f then text ++ text_written f rest else text_written f rest
  | _ :: rest => text_written f rest
  end.

(** A script generator opens [f] once, writes to [f] only, and, when it
    returns, returns [name] after a last line that hands on the exit code
    of the command. *)
Definition writes_script (f name : string) (c : W string) : Prop :=
  (exists body, snd c = OpenW f :: body
                /\ Forall (fun e => exists text, e = FWrite f text) body)
  /\ (forall r, fst c = Ret r ->
        r = name /\ last (snd c) (OpenW f) = FWrite f ("exit $?" ++ nl)).

Section HostObservations.
Context `{Host}.

(** A computation invokes workers of [ws] only, in the order of [ws], and
    when it returns a value accepted by [ok] it has resolved every worker
    of [ws]: each was invoked or skipped with a notice. *)
Definition follows {A : Type} (ok : A -> Prop) (ws : list worker) (c : M event A) : Prop :=
  forall fs,
    let '(r, tr, _) := c fs in
    subseq (invoked tr) ws
    /\ (forall a, r = Ret a -> ok a ->
          (List.length (invoked tr) + skips tr)%nat = List.length ws).

(** The batch-scheduler runner as the [runner] of the driver;
    [write_files] is what opening and writing the scripts does to the file
    system. *)
Definition batch_runner (write_files : list event -> FS -> FS)
  (self : SLURMPipelineRunner.t) : M event pyvalue :=
  fun fs =>
    let '(r, tr) := SLURMPipelineRunner.run self in
    (r, tr, write_files tr fs).


End HostObservations.

(** ** A concrete host and configuration, for evaluation *)

Module Example.

(** Step directory names as [cellmaps_utils.constants] gives them.  That
    package is not part of this repository; the names are used for
    evaluation only, and every general statement holds for whatever the
    names are. *)
Definition names : constants.t :=
  {| constants.IMAGE_DOWNLOAD_STEP_DIR := "1.image_download";
     constants.PPI_DOWNLOAD_STEP_DIR := "1.ppi_download";
     constants.PPI_EMBEDDING_STEP_DIR := "2.ppi_embedding";
     constants.IMAGE_EMBEDDING_STEP_DIR := "2.image_embedding_fold";
     constants.COEMBEDDING_STEP_DIR := "3.coembedding_fold";
     constants.HIERARCHY_STEP_DIR := "4.hierarchy" |}.

(** A host whose file system is the list of existing directories, whose
    working directory is the root, and whose workers create their output
    directory and return the code that [code] assigns to them. *)
Definition host (code : worker -> outcome Z) : Host :=
  {| FS := list string;
     abspath := fun p => p;
     isdir := fun p fs => existsb (String.eqb p) fs;
     makedirs := fun p _ fs => p :: fs;
     write_task_start_json := fun _ _ _ _ fs => fs;
     write_task_finish_json := fun _ _ _ fs => fs;
     image_generators := fun _ _ _ _ _ => Ret tt;
     run_worker := fun w fs => (code w, worker_outdir w :: fs);
     pipeline_version := "0.0.1" |}.

Definition all_succeed (w : worker) : outcome Z := Ret 0.

(** The co-embedding of fold 1 returns 5, every other worker 0. *)
Definition coembed1_fails (w : worker) : outcome Z :=
  match w with
  | CellmapsCoEmbedder o _ _ _ =>
      if String.eqb o "/out/3.coembedding_fold1" then Ret 5 else Ret 0
  | _ => Ret 0
  end.

(** The PPI embedding raises, every other worker returns 0. *)
Definition ppi_embed_raises (w : worker) : outcome Z :=
  match w with
  | CellMapsPPIEmbedder _ _ => Raise (OtherError "edge list not found")
  | _ => Ret 0
  end.

(** The image embedding of fold 2 returns 3, every other worker 0. *)
Definition image_embed2_fails (w : worker) : outcome Z :=
  match w with
  | CellmapsImageEmbedder _ _ fold _ => if fold =? 2 then Ret 3 else Ret 0
  | _ => Ret 0
  end.

(** A host like [host all_succeed], but where the sample list cannot be
    read. *)
Definition unreadable_samples : Host :=
  {| FS := list string;
     abspath := fun p => p;
     isdir := fun p fs => existsb (String.eqb p) fs;
     makedirs := fun p _ fs => p :: fs;
     write_task_start_json := fun _ _ _ _ fs => fs;
     write_task_finish_json := fun _ _ _ fs => fs;
     image_generators := fun _ _ _ _ _ => Raise (OtherError "samples not readable");
     run_worker := fun w fs => (Ret 0, worker_outdir w :: fs);
     pipeline_version := "0.0.1" |}.

(** The PPI download returns 5, every other worker 0. *)
Definition ppi_download_fails (w : worker) : outcome Z :=
  match w with
  | CellmapsPPIDownloader _ => Ret 5
  | _ => Ret 0
  end.

(** The in-process runner for [/out] with the given folds. *)
Definition programmatic (H : Host) (fold : option (list Z))
  : outcome ProgrammaticPipelineRunner.t :=
  @ProgrammaticPipelineRunner.__init__ names H (Some "/out") (Some "samples.csv")
    (Some "unique.csv") (Some "edgelist.tsv") (Some "baitlist.tsv") None None None
    (Some true) (Some "prov.json") "ProvenanceUtil" fold None.

(** The batch-scheduler runner for [/out] with the given folds. *)
Definition slurm (H : Host) (fold : option (list Z)) : outcome SLURMPipelineRunner.t :=
  @SLURMPipelineRunner.__init__ names H (Some "/out") None (Some "table.tsv")
    None None None None None None None None (Some "prov.json") fold None None None.

(** A property of the runner that a constructor call builds. *)
Definition on_programmatic (H : Host) (fold : option (list Z))
  (P : ProgrammaticPipelineRunner.t -> Prop) : Prop :=
  match programmatic H fold with
  | Ret self => P self
  | Raise _ => False
  end.

Definition on_slurm (H : Host) (fold : option (list Z))
  (P : SLURMPipelineRunner.t -> Prop) : Prop :=
  match slurm H fold with
  | Ret self => P self
  | Raise _ => False
  end.

(** The output root once every stage for folds 1 and 2 has completed. *)
Definition populated : list string :=
  ["/out"; "/out/1.image_download"; "/out/1.ppi_download"; "/out/2.ppi_embedding";
   "/out/2.image_embedding_fold1"; "/out/3.coembedding_fold1";
   "/out/2.image_embedding_fold2"; "/out/3.coembedding_fold2"; "/out/4.hierarchy"].

(** Run a constructed object, or propagate the exception of its
    constructor. *)
Definition run_slurm (H : Host) (fold : option (list Z)) : W pyvalue :=
  match slurm H fold with
  | Ret self => SLURMPipelineRunner.run self
  | Raise e => (Raise e, [])
  end.

Definition run_programmatic (H : Host) (fold : option (list Z)) (fs : @FS H)
  : outcome Z * list event * @FS H :=
  match programmatic H fold with
  | Ret self => @ProgrammaticPipelineRunner.run H self fs
  | Raise e => (Raise e, [], fs)
  end.


(** The in-process runner as the [runner] of the driver. *)
Definition in_process_runner (H : Host) (fold : option (list Z)) : @M H event pyvalue :=
  as_runner (run_programmatic H fold).

(** The driver object that the constructor builds for [/out] at time
    [now] around the in-process runner. *)
Definition driver (H : Host) (now : Z) (fold : option (list Z)) : @CellmapsPipeline.t H :=
  {| CellmapsPipeline._outdir := Some "/out";
     CellmapsPipeline._start_time := now;
     CellmapsPipeline._runner := in_process_runner H fold;
     CellmapsPipeline._input_data_dict := None |}.

End Example.

(** * Properties *)

(** ** Construction of the runners *)

Section Construction.
Context `{constants.t} `{Host}.
Variables (d : string)
          (cm4ai_apms cm4ai_image samples unique edgelist baitlist model_path
             proteinatlasxml ppi_cutoffs provenance input_data_dict
             slurm_partition slurm_account : option string)
          (fake : option bool) (provenance_utils : string).

(** C5, as amended.  With an output root given, a null fold set makes the
    construction of either runner fail with
    [CellmapsPipelineError('Fold cannot be None')]; constructors are pure,
    so no stage has run.  An empty fold list is accepted: the runner is
    built, with no per-fold stage. *)
Theorem null_fold_rejected_empty_fold_accepted :
  ProgrammaticPipelineRunner.__init__ (Some d) samples unique edgelist baitlist
    model_path proteinatlasxml ppi_cutoffs fake provenance provenance_utils
    None input_data_dict
  = Raise (CellmapsPipelineError "Fold cannot be None")
  /\ SLURMPipelineRunner.__init__ (Some d) cm4ai_apms cm4ai_image samples unique
       edgelist baitlist model_path proteinatlasxml ppi_cutoffs fake provenance
       None input_data_dict slurm_partition slurm_account
     = Raise (CellmapsPipelineError "Fold cannot be None")
  /\ (exists self,
         ProgrammaticPipelineRunner.__init__ (Some d) samples unique edgelist
           baitlist model_path proteinatlasxml ppi_cutoffs fake provenance
           provenance_utils (Some []) input_data_dict = Ret self
         /\ ProgrammaticPipelineRunner._image_coembed_tuples self = [])
  /\ (exists self,
         SLURMPipelineRunner.__init__ (Some d) cm4ai_apms cm4ai_image samples
           unique edgelist baitlist model_path proteinatlasxml ppi_cutoffs fake
           provenance (Some []) input_data_dict slurm_partition slurm_account
         = Ret self
         /\ SLURMPipelineRunner._image_coembed_tuples self = []).
Proof.
  repeat split.
  - eexists; split; [reflexivity | reflexivity].
  - eexists; split; [reflexivity | reflexivity].
Qed.

End Construction.

(** C5 fails as stated: on the empty fold list both constructors return a
    runner instead of raising. *)
Lemma empty_fold_constructs :
  (exists self, Example.programmatic (Example.host Example.all_succeed) (Some []) = Ret self)
  /\ (exists self, Example.slurm (Example.host Example.all_succeed) (Some []) = Ret self)
  /\ forall e, Example.programmatic (Example.host Example.all_succeed) (Some []) <> Raise e.
Proof.
  split; [eexists; reflexivity | split; [eexists; reflexivity | ]].
  intros e; discriminate.
Qed.

(** ** The driver *)

Section Driver.
Context `{Host}.

Lemma finish_markers_app (t1 t2 : list driver_event) :
  finish_markers (t1 ++ t2) = (finish_markers t1 ++ finish_markers t2)%list.
Proof.
  induction t1 as [|e t1 IH]; [reflexivity|].
  destruct e; simpl; rewrite ?IH; reflexivity.
Qed.

Lemma finish_markers_strategy (tr : list event) :
  finish_markers (map Strategy tr) = [].
Proof.
  induction tr as [|e tr IH]; [reflexivity | exact IH].
Qed.



(** What [run()] does on a driver with output root [root]: possibly
    [os.makedirs], the start marker, the runner, the finish marker. *)
Lemma run_trace root now runner input_data_dict (fs : FS) :
  exists fs1 r rtr fs2 pre fs3,
    runner fs1 = (r, rtr, fs2)
    /\ CellmapsPipeline.run
         {| CellmapsPipeline._outdir := Some root;
            CellmapsPipeline._start_time := now;
            CellmapsPipeline._runner := runner;
            CellmapsPipeline._input_data_dict := input_data_dict |} fs
       = (r, (pre ++ map Strategy rtr
                ++ [WriteFinish root now (CellmapsPipeline.exit_status r)])%list, fs3)
    /\ finish_markers pre = [].
Proof.
  cbv [CellmapsPipeline.run CellmapsPipeline._outdir CellmapsPipeline._start_time
         CellmapsPipeline._runner CellmapsPipeline._input_data_dict
         bindM os_path_isdir try_finally lift_strategy retM
         CellmapsPipeline.os_makedirs CellmapsPipeline.logutils_write_task_start_json
         CellmapsPipeline.logutils_write_task_finish_json].
  destruct (isdir root fs) eqn:Hdir.
  - destruct (runner (write_task_start_json root now input_data_dict
                        pipeline_version fs)) as [[r rtr] fs2] eqn:Hrun.
    do 4 eexists.
    exists [WriteStart root now input_data_dict pipeline_version].
    eexists. split; [exact Hrun|]. split; reflexivity.
  - destruct (runner (write_task_start_json root now input_data_dict
                        pipeline_version (makedirs root 493 fs)))
      as [[r rtr] fs2] eqn:Hrun.
    do 4 eexists.
    exists [Makedirs root 493; WriteStart root now input_data_dict pipeline_version].
    eexists. split; [exact Hrun|]. split; reflexivity.
Qed.

End Driver.

(** ** The in-process strategy *)

Section Traces.

Lemma clean_nil : clean [].
Proof. intros w r []. Qed.

Lemma quiet_nil : quiet [].
Proof. intros w r []. Qed.

Lemma clean_app t1 t2 : clean t1 -> clean t2 -> clean (t1 ++ t2).
Proof.
  intros H1 H2 w r Hin. apply in_app_or in Hin as [Hin|Hin]; eauto.
Qed.

Lemma clean_warn msg tr : clean tr -> clean (Warn msg :: tr).
Proof.
  intros Hc w r [Heq|Hin]; [discriminate | eauto].
Qed.

Lemma clean_invoke_ok w tr : clean tr -> clean (Invoke w (Ret 0) :: tr).
Proof.
  intros Hc w' r [Heq|Hin]; [congruence | eauto].
Qed.

Lemma quiet_log msg : quiet [LogError msg].
Proof. intros w r [Heq|[]]; discriminate. Qed.

Lemma failing_here (pre post : list event) w r :
  r <> Ret 0 -> clean pre -> quiet post -> failing w r (pre ++ Invoke w r :: post).
Proof.
  intros Hr Hpre Hpost. split; [exact Hr|]. exists pre, post. auto.
Qed.

Lemma failing_app t1 tr w r : clean t1 -> failing w r tr -> failing w r (t1 ++ tr).
Proof.
  intros Hc [Hr (pre & post & -> & Hpre & Hpost)].
  rewrite app_assoc. apply failing_here; auto using clean_app.
Qed.

Lemma failing_in w r tr : failing w r tr -> In (Invoke w r) tr.
Proof.
  intros [_ (pre & post & -> & _)]. apply in_elt.
Qed.

Lemma failing_not_clean w r tr : failing w r tr -> ~ clean tr.
Proof.
  intros Hf Hc. destruct Hf as [Hr Hrest].
  apply Hr, (Hc w). apply failing_in. split; assumption.
Qed.

(** Two ways of cutting the same list at one element. *)
Lemma cut_twice {A} (pre post pre' post' : list A) x y :
  (pre ++ x :: post = pre' ++ y :: post')%list ->
  In y pre \/ (pre = pre' /\ x = y /\ post = post') \/ In y post.
Proof.
  revert pre'. induction pre as [|a pre IH]; intros [|a' pre'] Heq; simpl in Heq.
  - injection Heq as -> ->. auto.
  - injection Heq as -> ->. right; right. apply in_elt.
  - injection Heq as -> Heq. left; left; reflexivity.
  - injection Heq as -> Heq. destruct (IH _ Heq) as [Hin|[(-> & -> & ->)|Hin]].
    + left; right; exact Hin.
    + right; left; auto.
    + right; right; exact Hin.
Qed.

(** In a trace that stops at its first failure, the failing worker is the
    only one that can be found with a result other than 0. *)
Lemma failing_unique w r tr pre w' r' post :
  failing w r tr -> tr = (pre ++ Invoke w' r' :: post)%list -> r' <> Ret 0 ->
  w' = w /\ r' = r /\ quiet post.
Proof.
  intros [_ (p & q & -> & Hp & Hq)] Heq Hr'.
  destruct (cut_twice _ _ _ _ _ _ Heq) as [Hin|[(-> & Hinv & ->)|Hin]].
  - elim Hr'. exact (Hp _ _ Hin).
  - injection Hinv as -> ->. auto.
  - elim (Hq _ _ Hin).
Qed.

Lemma run_result_raises {A} w r : r <> Ret 0 -> exists e, @run_result A w r = Raise e.
Proof.
  intros _. destruct r as [c|e]; simpl; [|eauto].
  destruct (is_image_embedder w); eauto.
Qed.

End Traces.

Section InProcess.
Context `{constants.t} `{Host}.
Import ProgrammaticPipelineRunner.

Ltac step_unfold :=
  cbv [bindM os_path_isdir warnings_warn logger_error emitM retM raiseM invoke
         build_image_generators check].

(** A worker that is not the image embedder, invoked as the whole step. *)
Lemma invoke_ends w msg (fs : FS) :
  failure_label w = msg -> is_image_embedder w = false ->
  step_ends msg False (invoke w fs).
Proof.
  intros Hl Hw. unfold invoke. destruct (run_worker w fs) as [r fs1].
  unfold step_ends.
  destruct r as [c|e].
  - destruct (Z.eq_dec c 0) as [->|Hc].
    + left. split; [apply (clean_invoke_ok w []), clean_nil | reflexivity].
    + right; left. exists w, (Ret c). split; [|split; [exact Hl|]].
      * apply (failing_here [] []); [congruence | apply clean_nil | apply quiet_nil].
      * simpl. rewrite Hw. reflexivity.
  - right; left. exists w, (Raise e). split; [|split; [exact Hl|reflexivity]].
    apply (failing_here [] []); [discriminate | apply clean_nil | apply quiet_nil].
Qed.

(** A warning in front of a step does not change how it ends. *)
Lemma step_ends_warn msg warning (res : outcome Z) tr (fs : FS) :
  step_ends msg False (res, tr, fs) -> step_ends msg False (res, Warn warning :: tr, fs).
Proof.
  intros [[Hc Hr]|[(w & r & Hf & Hl & Hr)|(_ & [] & _)]].
  - left. auto using clean_warn.
  - right; left. exists w, r. split; [|split; [exact Hl | exact Hr]].
    apply (failing_app [Warn warning]); [apply clean_warn, clean_nil | exact Hf].
Qed.

Lemma step_ends_weaken msg (G : Prop) (x : outcome Z * list event * FS) :
  step_ends msg False x -> step_ends msg G x.
Proof.
  destruct x as [[res tr] fs]. intros [Hc|[Hf|(_ & [] & _)]]; [left|right; left]; auto.
Qed.

Lemma download_images_ends self (fs : FS) :
  step_ends "Image download failed"
    (image_generators (_unique self) (_samples self) (_proteinatlasxml self)
       (_image_dir self) fs <> Ret tt)
    (_download_images self fs).
Proof.
  unfold _download_images. step_unfold.
  destruct (isdir (_image_dir self) fs).
  - left. split; [apply clean_warn, clean_nil | reflexivity].
  - destruct (image_generators _ _ _ _ fs) as [[]|e] eqn:Hgen.
    + apply step_ends_weaken.
      pose proof (invoke_ends (CellmapsImageDownloader (_image_dir self)
                                 (is_True (_fake self)))
                    "Image download failed" fs eq_refl eq_refl) as Hinv.
      unfold invoke in Hinv.
      destruct (is_True (_fake self));
        destruct (run_worker _ fs) as [r fs1]; cbn [app].
      * apply step_ends_warn. exact Hinv.
      * exact Hinv.
    + right; right. split; [reflexivity|]. split; [discriminate | eauto].
Qed.

Lemma download_ppi_ends self (fs : FS) :
  step_ends "PPI download failed" False (_download_ppi self fs).
Proof.
  unfold _download_ppi. step_unfold.
  destruct (isdir (_ppi_dir self) fs).
  - left. split; [apply clean_warn, clean_nil | reflexivity].
  - pose proof (invoke_ends (CellmapsPPIDownloader (_ppi_dir self))
                  "PPI download failed" fs eq_refl eq_refl) as Hinv.
    unfold invoke in Hinv. destruct (run_worker _ fs) as [r fs1]. exact Hinv.
Qed.

Lemma embed_ppi_ends self (fs : FS) :
  step_ends "PPI embed failed" False (_embed_ppi self fs).
Proof.
  unfold _embed_ppi. step_unfold.
  destruct (isdir (_ppi_embed_dir self) fs).
  - left. split; [apply clean_warn, clean_nil | reflexivity].
  - pose proof (invoke_ends (CellMapsPPIEmbedder (_ppi_embed_dir self) (_ppi_dir self))
                  "PPI embed failed" fs eq_refl eq_refl) as Hinv.
    unfold invoke in Hinv. destruct (run_worker _ fs) as [r fs1]. exact Hinv.
Qed.

Lemma hierarchy_ends self (fs : FS) :
  step_ends "Hierarchy failed" False (_hierarchy self fs).
Proof.
  unfold _hierarchy. step_unfold.
  destruct (isdir (_hierarchy_dir self) fs).
  - left. split; [apply clean_warn, clean_nil | reflexivity].
  - pose proof (invoke_ends (CellmapsGenerateHierarchy (_hierarchy_dir self)
                               (map tup2 (_image_coembed_tuples self)))
                  "Hierarchy failed" fs eq_refl eq_refl) as Hinv.
    unfold invoke in Hinv. destruct (run_worker _ fs) as [r fs1]. exact Hinv.
Qed.

(** A worker that returned 0 in front of a step. *)
Lemma step_ends_invoke_ok msg w (res : outcome Z) tr (fs : FS) :
  step_ends msg False (res, tr, fs) ->
  step_ends msg False (res, Invoke w (Ret 0) :: tr, fs).
Proof.
  intros [[Hc Hr]|[(w' & r & Hf & Hl & Hr)|(_ & [] & _)]].
  - left. auto using clean_invoke_ok.
  - right; left. exists w', r. split; [|split; [exact Hl | exact Hr]].
    apply (failing_app [Invoke w (Ret 0)]); [apply clean_invoke_ok, clean_nil | exact Hf].
Qed.

Lemma embed_image_loop_ends self tuples (fs : FS) :
  step_ends "Image embed failed" False (embed_image_loop self tuples fs).
Proof.
  revert fs. induction tuples as [|x rest IH]; intros fs.
  - left. split; [apply clean_nil | reflexivity].
  - cbn [embed_image_loop]. step_unfold.
    destruct (isdir (tup1 x) fs).
    + specialize (IH fs). destruct (embed_image_loop self rest fs) as [[res tr] fs1].
      cbn [app]. apply step_ends_warn. exact IH.
    + destruct (run_worker _ fs) as [r fs1].
      destruct r as [c|e].
      * destruct (Z.eq_dec c 0) as [->|Hc].
        -- cbn [Z.eqb negb]. specialize (IH fs1).
           destruct (embed_image_loop self rest fs1) as [[res tr] fs2].
           cbn [app]. apply step_ends_invoke_ok. exact IH.
        -- apply Z.eqb_neq in Hc as Hc'. rewrite Hc'. cbn [negb app].
           right; left. exists (CellmapsImageEmbedder (tup1 x) (_image_dir self) (tup0 x) (is_True (_fake self))), (Ret c). split; [|split; [reflexivity|reflexivity]].
           apply (failing_here [] []); [congruence | apply clean_nil | apply quiet_nil].
      * right; left. exists (CellmapsImageEmbedder (tup1 x) (_image_dir self) (tup0 x) (is_True (_fake self))), (Raise e). split; [|split; [reflexivity|reflexivity]].
        apply (failing_here [] []); [discriminate | apply clean_nil | apply quiet_nil].
Qed.

Lemma coembed_loop_ends self tuples (fs : FS) :
  step_ends "Coembed failed" False (coembed_loop self tuples fs).
Proof.
  revert fs. induction tuples as [|x rest IH]; intros fs.
  - left. split; [apply clean_nil | reflexivity].
  - cbn [coembed_loop]. step_unfold.
    destruct (isdir (tup2 x) fs).
    + specialize (IH fs). destruct (coembed_loop self rest fs) as [[res tr] fs1].
      cbn [app]. apply step_ends_warn. exact IH.
    + destruct (run_worker _ fs) as [r fs1].
      destruct r as [c|e].
      * destruct (Z.eq_dec c 0) as [->|Hc].
        -- cbn [Z.eqb negb]. specialize (IH fs1).
           destruct (coembed_loop self rest fs1) as [[res tr] fs2].
           cbn [app]. apply step_ends_invoke_ok. exact IH.
        -- apply Z.eqb_neq in Hc as Hc'. rewrite Hc'. cbn [negb app].
           right; left. exists (CellmapsCoEmbedder (tup2 x) (tup1 x) (_ppi_embed_dir self) (is_True (_fake self))), (Ret c). split; [|split; [reflexivity|reflexivity]].
           apply (failing_here [] [_]); [congruence | apply clean_nil | apply quiet_log].
      * right; left. exists (CellmapsCoEmbedder (tup2 x) (tup1 x) (_ppi_embed_dir self) (is_True (_fake self))), (Raise e). split; [|split; [reflexivity|reflexivity]].
        apply (failing_here [] []); [discriminate | apply clean_nil | apply quiet_nil].
Qed.

(** A checked step: a code other than 0 becomes the exception that names
    the step. *)
Lemma check_ends msg (G : Prop) (step : M event Z) (fs : FS) :
  step_ends msg G (step fs) -> run_ends tt G (check step msg fs).
Proof.
  unfold check. step_unfold.
  destruct (step fs) as [[res tr] fs1].
  intros [[Hc ->]|[(w & r & Hf & Hl & ->)|(-> & HG & e & ->)]].
  - cbn [Z.eqb negb]. rewrite app_nil_r. left. auto.
  - pose proof Hf as [Hr _].
    destruct r as [c|e]; cbn [step_result run_result].
    + destruct (is_image_embedder w) eqn:Hw.
      * right; left. exists w, (Ret c). split; [exact Hf|].
        cbn [run_result]. rewrite Hw. reflexivity.
      * assert (Hc : (c =? 0) = false) by (apply Z.eqb_neq; congruence).
        rewrite Hc. cbn [negb]. rewrite app_nil_r, <- Hl.
        right; left. exists w, (Ret c). split; [exact Hf|].
        cbn [run_result]. rewrite Hw. reflexivity.
    + right; left. exists w, (Raise e). split; [exact Hf | reflexivity].
  - right; right. eauto.
Qed.

(** Sequencing: the rest runs only after a clean first part. *)
Lemma run_ends_bind {A} (a : A) (G : Prop) (c1 : M event unit) (c2 : M event A) (fs : FS) :
  run_ends tt G (c1 fs) -> (forall fs1, run_ends a False (c2 fs1)) ->
  run_ends a G (bindM c1 (fun _ => c2) fs).
Proof.
  unfold bindM. destruct (c1 fs) as [[r1 t1] fs1].
  intros [[Hc ->]|[(w & r & Hf & ->)|(-> & HG & e & ->)]] H2.
  - specialize (H2 fs1). destruct (c2 fs1) as [[r2 t2] fs2].
    destruct H2 as [[Hc2 ->]|[(w & r & Hf & ->)|(_ & [] & _)]].
    + left. auto using clean_app.
    + right; left. exists w, r. auto using failing_app.
  - destruct (run_result_raises (A:=unit) w r (proj1 Hf)) as [e He].
    rewrite He. right; left. exists w, r. split; [exact Hf|].
    destruct r as [c|e']; cbn [run_result] in *;
      [destruct (is_image_embedder w)|]; congruence.
  - right; right. eauto.
Qed.

Lemma run_ends_ret {A} (a : A) (fs : FS) : run_ends a False (retM (E:=event) a fs).
Proof. left. split; [apply clean_nil | reflexivity]. Qed.

(** How [run] ends, whatever the workers do. *)
Lemma run_ends_run self (fs : FS) :
  run_ends 0
    (image_generators (_unique self) (_samples self) (_proteinatlasxml self)
       (_image_dir self) fs <> Ret tt)
    (run self fs).
Proof.
  unfold run.
  apply run_ends_bind; [apply check_ends, download_images_ends|]. intros fs1.
  apply run_ends_bind; [apply check_ends, download_ppi_ends|]. intros fs2.
  apply run_ends_bind; [apply check_ends, embed_ppi_ends|]. intros fs3.
  apply run_ends_bind; [apply check_ends, embed_image_loop_ends|]. intros fs4.
  apply run_ends_bind; [apply check_ends, coembed_loop_ends|]. intros fs5.
  apply run_ends_bind; [apply check_ends, hierarchy_ends|]. intros fs6.
  apply run_ends_ret.
Qed.

End InProcess.

Section InProcessClaims.
Context `{constants.t} `{Host}.
Import ProgrammaticPipelineRunner.

(** C1, as amended.  [run()] of the in-process strategy returns 0 when
    the image generators could be built and every worker it invoked
    returned 0.  When a worker other than the image embedder returned a
    code [c] that is not 0, [run()] does not return [c]: it raises
    [CellmapsPipelineError] with the message that names the step of that
    worker. *)
Theorem in_process_result self (fs : FS) res tr fs1 :
  run self fs = (res, tr, fs1) ->
  ((forall w r, In (Invoke w r) tr -> r = Ret 0) ->
   image_generators (_unique self) (_samples self) (_proteinatlasxml self)
     (_image_dir self) fs = Ret tt ->
   res = Ret 0)
  /\ (forall w c, In (Invoke w (Ret c)) tr -> c <> 0 -> is_image_embedder w = false ->
        res = Raise (CellmapsPipelineError (failure_label w))).
Proof.
  intros Hrun. pose proof (run_ends_run self fs) as Hends.
  rewrite Hrun in Hends.
  destruct Hends as [[Hc ->]|[(w0 & r0 & Hf & ->)|(-> & HG & e & ->)]].
  - split; [reflexivity|].
    intros w c Hin Hne _. specialize (Hc _ _ Hin). congruence.
  - split.
    + intros Hall _. elim (failing_not_clean _ _ _ Hf). exact Hall.
    + intros w c Hin Hne Hw.
      apply in_split in Hin as (pre & post & Heq).
      destruct (failing_unique _ _ _ _ _ _ _ Hf Heq) as (-> & <- & _); [congruence|].
      cbn [run_result]. rewrite Hw. reflexivity.
  - split.
    + intros _ Hgen. elim HG. exact Hgen.
    + intros w c [].
Qed.

(** C3.  Once a worker has returned a code that is not 0, the in-process
    strategy invokes no other worker: nothing that follows it in the
    trace of [run()] is an invocation. *)
Theorem no_stage_after_failure self (fs : FS) res tr fs1 pre w c post :
  run self fs = (res, tr, fs1) ->
  tr = (pre ++ Invoke w (Ret c) :: post)%list ->
  c <> 0 ->
  forall w1 r1, ~ In (Invoke w1 r1) post.
Proof.
  intros Hrun Heq Hne. pose proof (run_ends_run self fs) as Hends.
  rewrite Hrun in Hends.
  destruct Hends as [[Hc _]|[(w0 & r0 & Hf & _)|(-> & _)]].
  - elim Hne. assert (Hin : In (Invoke w (Ret c)) tr) by (rewrite Heq; apply in_elt).
    specialize (Hc _ _ Hin). congruence.
  - destruct (failing_unique _ _ _ _ _ _ _ Hf Heq) as (_ & _ & Hq); [congruence|].
    exact Hq.
  - destruct pre; discriminate.
Qed.

Lemma bindM_ret {A B} (c : M event A) (k : A -> M event B) (fs fs1 fs2 : FS) a t1 r t2 :
  c fs = (Ret a, t1, fs1) -> k a fs1 = (r, t2, fs2) ->
  bindM c k fs = (r, (t1 ++ t2)%list, fs2).
Proof. intros H1 H2. unfold bindM. rewrite H1, H2. reflexivity. Qed.

Lemma check_ok (step : M event Z) msg (fs fs1 : FS) tr :
  step fs = (Ret 0, tr, fs1) -> check step msg fs = (Ret tt, tr, fs1).
Proof.
  intros Hs. unfold check.
  rewrite (bindM_ret _ _ _ _ _ _ _ _ _ Hs eq_refl). rewrite app_nil_r. reflexivity.
Qed.

Lemma embed_image_loop_skips self tuples (fs : FS) :
  Forall (fun x => isdir (tup1 x) fs = true) tuples ->
  exists tr, embed_image_loop self tuples fs = (Ret 0, tr, fs)
             /\ forallb is_warning tr = true /\ List.length tr = List.length tuples.
Proof.
  induction 1 as [|x rest Hx _ (tr & Hloop & Hw & Hlen)].
  - exists []. auto.
  - eexists (Warn _ :: tr). cbn [embed_image_loop].
    cbv [bindM os_path_isdir warnings_warn emitM]. rewrite Hx, Hloop.
    cbn [app forallb is_warning andb List.length]. auto.
Qed.

Lemma coembed_loop_skips self tuples (fs : FS) :
  Forall (fun x => isdir (tup2 x) fs = true) tuples ->
  exists tr, coembed_loop self tuples fs = (Ret 0, tr, fs)
             /\ forallb is_warning tr = true /\ List.length tr = List.length tuples.
Proof.
  induction 1 as [|x rest Hx _ (tr & Hloop & Hw & Hlen)].
  - exists []. auto.
  - eexists (Warn _ :: tr). cbn [coembed_loop].
    cbv [bindM os_path_isdir warnings_warn emitM]. rewrite Hx, Hloop.
    cbn [app forallb is_warning andb List.length]. auto.
Qed.

Ltac skip_step Hdir :=
  cbv [bindM os_path_isdir warnings_warn emitM retM]; rewrite Hdir; reflexivity.

(** C4.  A stage whose output path is a directory when the stage is
    resolved is skipped: the step warns, invokes no worker and counts as
    returning 0 (a fold's entry in the two loops is passed over with a
    warning).  Hence on an output root where every stage output exists,
    [run()] returns 0, leaves the file system as it is, invokes no
    worker, and emits one warning per stage and nothing else. *)
Theorem existing_output_is_skipped self (fs : FS) :
  (isdir (_image_dir self) fs = true ->
   _download_images self fs
   = (Ret 0, [Warn "Found image dir, assuming we are good. skipping"], fs))
  /\ (isdir (_ppi_dir self) fs = true ->
      _download_ppi self fs
      = (Ret 0, [Warn "Found ppi dir, assuming we are good. skipping"], fs))
  /\ (isdir (_ppi_embed_dir self) fs = true ->
      _embed_ppi self fs
      = (Ret 0, [Warn "Found ppi embedding dir, assuming we are good. skipping"], fs))
  /\ (isdir (_hierarchy_dir self) fs = true ->
      _hierarchy self fs
      = (Ret 0, [Warn "Found hierarchy dir, assuming we are good. skipping"], fs))
  /\ (forall x rest, isdir (tup1 x) fs = true ->
      embed_image_loop self (x :: rest) fs
      = let '(r, tr, fs1) := embed_image_loop self rest fs in
        (r, Warn ("Found image_embedding dir" ++ tup1 x ++
                  ", assuming we are good. skipping") :: tr, fs1))
  /\ (forall x rest, isdir (tup2 x) fs = true ->
      coembed_loop self (x :: rest) fs
      = let '(r, tr, fs1) := coembed_loop self rest fs in
        (r, Warn ("Found coembedding dir" ++ tup2 x ++
                  ", assuming we are good. skipping") :: tr, fs1))
  /\ (Forall (fun p => isdir p fs = true)
        (stage_outputs (_image_dir self) (_ppi_dir self) (_ppi_embed_dir self)
           (_hierarchy_dir self) (_image_coembed_tuples self)) ->
      exists tr, run self fs = (Ret 0, tr, fs)
                 /\ forallb is_warning tr = true
                 /\ quiet tr
                 /\ List.length tr = (4 + 2 * List.length (_image_coembed_tuples self))%nat).
Proof.
  assert (S1 : isdir (_image_dir self) fs = true ->
               _download_images self fs
               = (Ret 0, [Warn "Found image dir, assuming we are good. skipping"], fs))
    by (intros Hd; unfold _download_images; skip_step Hd).
  assert (S2 : isdir (_ppi_dir self) fs = true ->
               _download_ppi self fs
               = (Ret 0, [Warn "Found ppi dir, assuming we are good. skipping"], fs))
    by (intros Hd; unfold _download_ppi; skip_step Hd).
  assert (S3 : isdir (_ppi_embed_dir self) fs = true ->
               _embed_ppi self fs
               = (Ret 0, [Warn "Found ppi embedding dir, assuming we are good. skipping"], fs))
    by (intros Hd; unfold _embed_ppi; skip_step Hd).
  assert (S4 : isdir (_hierarchy_dir self) fs = true ->
               _hierarchy self fs
               = (Ret 0, [Warn "Found hierarchy dir, assuming we are good. skipping"], fs))
    by (intros Hd; unfold _hierarchy; skip_step Hd).
  repeat (split; [assumption|]).
  split; [|split].
  - intros x rest Hd. cbn [embed_image_loop].
    cbv [bindM os_path_isdir warnings_warn emitM]. rewrite Hd.
    destruct (embed_image_loop self rest fs) as [[r tr] fs1]. reflexivity.
  - intros x rest Hd. cbn [coembed_loop].
    cbv [bindM os_path_isdir warnings_warn emitM]. rewrite Hd.
    destruct (coembed_loop self rest fs) as [[r tr] fs1]. reflexivity.
  - intros Hall. unfold stage_outputs in Hall.
    apply Forall_app in Hall as [Hsingle Hfolds].
    apply Forall_app in Hfolds as [Himg Hco].
    rewrite Forall_map in Himg, Hco.
    inversion Hsingle as [|? ? D1 Hs1]; subst. inversion Hs1 as [|? ? D2 Hs2]; subst.
    inversion Hs2 as [|? ? D3 Hs3]; subst. inversion Hs3 as [|? ? D4 _]; subst.
    destruct (embed_image_loop_skips self _ fs Himg) as (t1 & L1 & W1 & N1).
    destruct (coembed_loop_skips self _ fs Hco) as (t2 & L2 & W2 & N2).
    eexists. split; [|split; [|split]].
    + unfold run, _embed_image, _coembed.
      eapply bindM_ret; [apply check_ok, S1, D1|].
      eapply bindM_ret; [apply check_ok, S2, D2|].
      eapply bindM_ret; [apply check_ok, S3, D3|].
      eapply bindM_ret; [apply check_ok, L1|].
      eapply bindM_ret; [apply check_ok, L2|].
      eapply bindM_ret; [apply check_ok, S4, D4|].
      reflexivity.
    + cbn [app forallb is_warning andb]. rewrite forallb_app, W1. cbn [andb].
      rewrite forallb_app, W2. reflexivity.
    + intros w r Hin. cbn [app] in Hin.
      assert (Hq : forall t, forallb is_warning t = true -> ~ In (Invoke w r) t).
      { intros t Ht Hi. rewrite forallb_forall in Ht. specialize (Ht _ Hi). discriminate. }
      repeat (destruct Hin as [Hin|Hin]; [discriminate|]).
      apply in_app_or in Hin as [Hin|Hin]; [exact (Hq _ W1 Hin)|].
      apply in_app_or in Hin as [Hin|Hin]; [exact (Hq _ W2 Hin)|].
      repeat (destruct Hin as [Hin|Hin]; [discriminate|]). exact Hin.
    + cbn [app List.length]. rewrite !List.length_app, N1, N2. cbn [List.length]. lia.
Qed.

End InProcessClaims.

Section DriverClaims.
Context `{Host}.

(** [run()] of the in-process strategy returns nothing but 0: a code of a
    stage is never handed back. *)
Lemma in_process_returns_only_zero self (fs : FS) c tr fs1 :
  ProgrammaticPipelineRunner.run self fs = (Ret c, tr, fs1) -> c = 0.
Proof.
  intros Hrun. pose proof (run_ends_run self fs) as Hends. rewrite Hrun in Hends.
  destruct Hends as [[_ Heq]|[(w & r & Hf & Heq)|(_ & _ & e & Heq)]].
  - congruence.
  - destruct (run_result_raises (A:=Z) w r (proj1 Hf)) as [e He]. congruence.
  - discriminate.
Qed.

(** C2.  For a driver built by the constructor, [run()] calls the runner
    once and writes the finish marker exactly once, as its last action,
    whether the runner returned 0, returned something else or raised.
    The outcome of [run()] is the outcome of the runner; the status in
    the marker is the value the runner returned, and 99, which is not the
    success code, when the runner raised.  With the in-process strategy as
    runner no code of a stage reaches the marker: its status is 0 when the
    strategy returned and 99 exactly when it raised. *)
Theorem finish_marker_written_once now outdir runner input_data_dict
  (self : CellmapsPipeline.t) (fs : FS) :
  CellmapsPipeline.__init__ now outdir runner input_data_dict = Ret self ->
  exists root fs1 r rtr fs2 tr fs3,
    CellmapsPipeline._outdir self = Some root
    /\ runner fs1 = (r, rtr, fs2)
    /\ CellmapsPipeline.run self fs = (r, tr, fs3)
    /\ finish_markers tr = [match r with Ret v => v | Raise _ => PyInt 99 end]
    /\ last tr (Strategy (Warn EmptyString))
       = WriteFinish root now (match r with Ret v => v | Raise _ => PyInt 99 end)
    /\ (forall e, r = Raise e -> finish_markers tr = [PyInt 99] /\ PyInt 99 <> PyInt 0)
    /\ (forall p, runner = as_runner (ProgrammaticPipelineRunner.run p) ->
        (r = Ret (PyInt 0) /\ finish_markers tr = [PyInt 0])
        \/ ((exists e, r = Raise e) /\ finish_markers tr = [PyInt 99])).
Proof.
  destruct outdir as [o|]; [|discriminate].
  intros [= <-].
  destruct (run_trace (abspath o) now runner input_data_dict fs)
    as (fs1 & r & rtr & fs2 & pre & fs3 & Hrun & Hdrv & Hpre).
  exists (abspath o), fs1, r, rtr, fs2.
  eexists; exists fs3.
  split; [reflexivity|]. split; [exact Hrun|]. split; [exact Hdrv|].
  assert (Hfm : finish_markers
                  (pre ++ map Strategy rtr
                     ++ [WriteFinish (abspath o) now (CellmapsPipeline.exit_status r)])
                = [CellmapsPipeline.exit_status r]).
  { rewrite !finish_markers_app, finish_markers_strategy, Hpre. reflexivity. }
  split; [exact Hfm|]. split; [|split].
  - rewrite app_assoc. apply last_last.
  - intros e ->. split; [exact Hfm | discriminate].
  - intros p ->. unfold as_runner in Hrun.
    destruct (ProgrammaticPipelineRunner.run p fs1) as [[rp tp] fp] eqn:Hp.
    injection Hrun as <- _ _. rewrite Hfm.
    destruct rp as [c|e].
    + left. rewrite (in_process_returns_only_zero _ _ _ _ _ Hp). auto.
    + right. eauto.
Qed.

End DriverClaims.

(** Expose the runner that a constructor call of [Example] builds. *)
Ltac build_runner :=
  cbv [Example.on_programmatic Example.on_slurm Example.run_programmatic Example.run_slurm];
  match goal with
  | |- context [Example.programmatic ?H ?fold] =>
      let s := eval vm_compute in (Example.programmatic H fold) in
      change (Example.programmatic H fold) with s
  | |- context [Example.slurm ?H ?fold] =>
      let s := eval vm_compute in (Example.slurm H fold) in
      change (Example.slurm H fold) with s
  end;
  cbv beta iota.

(** C1 fails as stated: the PPI download returns 5, yet the result of the
    in-process [run()] is not 5 but an exception. *)
Lemma stage_code_is_not_returned :
  let out := Example.run_programmatic (Example.host Example.ppi_download_fails)
               (Some [1; 2]) [] in
  In (Invoke (CellmapsPPIDownloader "/out/1.ppi_download") (Ret 5)) (snd (fst out))
  /\ fst (fst out) = Raise (CellmapsPipelineError "PPI download failed")
  /\ fst (fst out) <> Ret 5.
Proof.
  vm_compute. split; [auto 6 | split; [reflexivity | discriminate]].
Qed.

(** C1 at the same run: the theorem yields the exception that names the
    PPI download. *)
Lemma in_process_result_witness :
  Example.on_programmatic (Example.host Example.ppi_download_fails) (Some [1; 2])
    (fun self =>
       exists res tr fs1,
         @ProgrammaticPipelineRunner.run (Example.host Example.ppi_download_fails) self []
         = (res, tr, fs1)
         /\ In (Invoke (CellmapsPPIDownloader "/out/1.ppi_download") (Ret 5)) tr
         /\ res = Raise (CellmapsPipelineError "PPI download failed")).
Proof.
  build_runner.
  match goal with
  | |- context [@ProgrammaticPipelineRunner.run ?H ?s ?fs] =>
      destruct (@ProgrammaticPipelineRunner.run H s fs) as [[res tr] fs1] eqn:Hrun;
      pose proof (@in_process_result H s fs res tr fs1 Hrun) as [_ Hfail]
  end.
  exists res, tr, fs1. split; [reflexivity|].
  assert (Hin : In (Invoke (CellmapsPPIDownloader "/out/1.ppi_download") (Ret 5)) tr).
  { vm_compute in Hrun. injection Hrun as <- <- <-. simpl. auto. }
  split; [exact Hin|].
  apply (Hfail (CellmapsPPIDownloader "/out/1.ppi_download") 5 Hin); [lia | reflexivity].
Defined.

(** C3 at a concrete run with folds 1 and 2 where the co-embedding of
    fold 1 returns 5: only the error log follows, neither the co-embedding
    of fold 2 nor the hierarchy is invoked. *)
Lemma no_stage_after_failure_witness :
  Example.on_programmatic (Example.host Example.coembed1_fails) (Some [1; 2])
    (fun self =>
       exists pre post,
         snd (fst (@ProgrammaticPipelineRunner.run (Example.host Example.coembed1_fails)
                     self []))
         = (pre ++ Invoke (CellmapsCoEmbedder "/out/3.coembedding_fold1" "/out/2.image_embedding_fold1"
                             "/out/2.ppi_embedding" true) (Ret 5) :: post)%list
         /\ List.length pre = 6%nat
         /\ List.length post = 1%nat
         /\ forall w1 r1, ~ In (Invoke w1 r1) post).
Proof.
  build_runner.
  match goal with
  | |- context [@ProgrammaticPipelineRunner.run ?H ?s ?fs] =>
      destruct (@ProgrammaticPipelineRunner.run H s fs) as [[res tr] fs1] eqn:Hrun;
      pose proof (@no_stage_after_failure H s fs res tr fs1) as Hstop
  end.
  specialize (Hstop (firstn 6 tr) (CellmapsCoEmbedder "/out/3.coembedding_fold1"
                                     "/out/2.image_embedding_fold1" "/out/2.ppi_embedding" true)
                5 (skipn 7 tr) Hrun).
  exists (firstn 6 tr), (skipn 7 tr).
  assert (Htr : tr = (firstn 6 tr
                        ++ Invoke (CellmapsCoEmbedder "/out/3.coembedding_fold1"
                                     "/out/2.image_embedding_fold1" "/out/2.ppi_embedding" true)
                             (Ret 5) :: skipn 7 tr)%list).
  { vm_compute in Hrun. injection Hrun as <- <- <-. reflexivity. }
  split; [exact Htr|].
  split; [vm_compute in Hrun; injection Hrun as <- <- <-; reflexivity|].
  split; [vm_compute in Hrun; injection Hrun as <- <- <-; reflexivity|].
  apply Hstop; [exact Htr | lia].
Defined.

(** C4 on the populated output root: every step is skipped and [run()]
    returns 0. *)
Lemma existing_output_is_skipped_witness :
  Example.on_programmatic (Example.host Example.all_succeed) (Some [1; 2])
    (fun self =>
       @ProgrammaticPipelineRunner._download_images (Example.host Example.all_succeed)
         self Example.populated
       = (Ret 0, [Warn "Found image dir, assuming we are good. skipping"],
           Example.populated)
       /\ exists tr,
           @ProgrammaticPipelineRunner.run (Example.host Example.all_succeed)
             self Example.populated
           = (Ret 0, tr, Example.populated)
           /\ forallb is_warning tr = true
           /\ quiet tr
           /\ List.length tr = 8%nat).
Proof.
  build_runner.
  match goal with
  | |- context [@ProgrammaticPipelineRunner.run ?H ?s ?fs] =>
      pose proof (@existing_output_is_skipped H s fs)
        as (S1 & _ & _ & _ & _ & _ & Sall)
  end.
  split.
  - apply S1. reflexivity.
  - apply Sall. repeat constructor.
Defined.

(** ** Text: decimal numerals and joined paths *)

Section Text.

Lemma append_inj_l (a x y : string) : a ++ x = a ++ y -> x = y.
Proof.
  induction a as [|c a IH]; simpl; [auto|]. intros [= Heq]. auto.
Qed.

Lemma append_empty_r (a : string) : a ++ EmptyString = a.
Proof. induction a as [|c a IH]; simpl; congruence. Qed.

Lemma all_digits_uint d : all_digits (NilEmpty.string_of_uint d) = true.
Proof. induction d; simpl; auto. Qed.

(** [str] of a positive [int]: a non-empty run of digits. *)
Lemma str_positive f : 0 < f -> all_digits (str f) = true /\ str f <> EmptyString.
Proof.
  destruct f as [|p|p]; try lia. intros _. unfold str. cbn [Z.to_int NilZero.string_of_int].
  pose proof (Unsigned.to_uint_nonnil p) as Hnil.
  unfold NilZero.string_of_uint.
  destruct (Pos.to_uint p) eqn:Hp; try contradiction;
    (split; [apply (all_digits_uint (_ _)) | discriminate]).
Qed.

Lemma str_inj f g : str f = str g -> f = g.
Proof.
  unfold str. intros Heq. apply to_int_inj.
  assert (Hok : forall z, Z.to_int z <> Decimal.Pos Decimal.Nil
                          /\ Z.to_int z <> Decimal.Neg Decimal.Nil).
  { intros [|p|p]; simpl; split; try discriminate;
      intros [= Hp]; exact (Unsigned.to_uint_nonnil p Hp). }
  destruct (Hok f) as [Hf1 Hf2]. destruct (Hok g) as [Hg1 Hg2].
  pose proof (NilZero.isi _ Hf1 Hf2) as If. pose proof (NilZero.isi _ Hg1 Hg2) as Ig.
  rewrite Heq in If. congruence.
Qed.

Lemma all_digits_app_l (a b : string) : all_digits (a ++ b) = true -> all_digits a = true.
Proof.
  induction a as [|c a IH]; simpl; [auto|].
  intros Hd. apply andb_prop in Hd as [Hc Hrest]. rewrite Hc. simpl. auto.
Qed.

Lemma all_digits_ends (a : string) :
  all_digits a = true -> a <> EmptyString -> ends_in_digit a = true.
Proof.
  induction a as [|c a IH]; [congruence|]. simpl. intros Hd _.
  apply andb_prop in Hd as [Hc Hrest].
  destruct a as [|c1 a1]; [exact Hc|]. apply IH; [exact Hrest | discriminate].
Qed.

Lemma ends_in_digit_tail c (a : string) :
  ends_in_digit (String c a) = false -> ends_in_digit a = false.
Proof. destruct a; simpl; auto. Qed.

(** A name followed by digits ends in a digit. *)
Lemma ends_in_digit_app (a ds : string) :
  all_digits ds = true -> ds <> EmptyString -> ends_in_digit (a ++ ds) = true.
Proof.
  intros Hd Hne. induction a as [|c a IH]; simpl.
  - apply all_digits_ends; assumption.
  - destruct (a ++ ds) eqn:Happ; [|exact IH].
    destruct a; [simpl in Happ; congruence | discriminate].
Qed.

(** Digits appended to names that do not end in a digit can be told
    apart: the name is what is left once the trailing digits are removed. *)
Lemma digit_suffix_inj (a b ds es : string) :
  ends_in_digit a = false -> ends_in_digit b = false ->
  all_digits ds = true -> all_digits es = true ->
  a ++ ds = b ++ es -> a = b /\ ds = es.
Proof.
  revert b. induction a as [|c a IH]; intros [|c1 b] Ha Hb Hds Hes Heq; simpl in Heq.
  - auto.
  - subst ds. change (all_digits (String c1 b ++ es) = true) in Hds.
    apply all_digits_app_l in Hds.
    rewrite (all_digits_ends _ Hds) in Hb; discriminate.
  - subst es. change (all_digits (String c a ++ ds) = true) in Hes.
    apply all_digits_app_l in Hes.
    rewrite (all_digits_ends _ Hes) in Ha; discriminate.
  - injection Heq as <- Heq.
    destruct (IH b (ends_in_digit_tail _ _ Ha) (ends_in_digit_tail _ _ Hb) Hds Hes Heq)
      as [-> ->]. auto.
Qed.

Lemma append_assoc (a b c : string) : (a ++ b) ++ c = a ++ (b ++ c).
Proof. induction a as [|x a IH]; simpl; congruence. Qed.

Lemma join_relative (a b : string) :
  startswith b sep = false -> join a b = a ++ glue a ++ b.
Proof.
  intros Hb. unfold join, glue. rewrite Hb.
  destruct a as [|c a]; [reflexivity|].
  destruct (endswith (String c a) sep); [reflexivity|].
  reflexivity.
Qed.

Lemma join_inj (a b c : string) :
  startswith b sep = false -> startswith c sep = false -> join a b = join a c -> b = c.
Proof.
  intros Hb Hc. rewrite !join_relative by assumption.
  intros Heq. apply append_inj_l in Heq. apply append_inj_l in Heq. exact Heq.
Qed.

Lemma startswith_app (a b : string) c :
  startswith a c = false -> startswith b c = false -> startswith (a ++ b) c = false.
Proof. destruct a; simpl; auto. Qed.

Lemma startswith_digits (ds : string) :
  all_digits ds = true -> startswith ds sep = false.
Proof.
  destruct ds as [|c ds]; [reflexivity|]. simpl. intros Hd.
  apply andb_prop in Hd as [Hc _].
  destruct (Ascii.eqb_spec c sep) as [->|]; [discriminate | reflexivity].
Qed.

End Text.

(** ** Output paths of the stages *)

Section StagePaths.
Context `{constants.t} `{Host}.

(** The directory names of all stage instances, before they are joined to
    the output root. *)
Lemma stage_names_distinct (folds : list Z) :
  distinct_step_dirs _ -> NoDup folds -> Forall (fun f => 0 < f) folds ->
  let names := ([constants.IMAGE_DOWNLOAD_STEP_DIR; constants.PPI_DOWNLOAD_STEP_DIR;
                 constants.PPI_EMBEDDING_STEP_DIR; constants.HIERARCHY_STEP_DIR]
                  ++ map (fun f : Z => (constants.IMAGE_EMBEDDING_STEP_DIR ++ str f)%string) folds
                  ++ map (fun f : Z => (constants.COEMBEDDING_STEP_DIR ++ str f)%string) folds)%list in
  NoDup names /\ Forall (fun n => startswith n sep = false) names.
Proof.
  intros (Hsingles & Hne & Hrel & Hnodigit) Hnd Hpos names.
  rewrite Forall_forall in Hpos.
  apply Forall_app in Hrel as [Hrel_s Hrel_f]. apply Forall_app in Hnodigit as [Hnd_s Hnd_f].
  inversion Hrel_f as [|? ? Ri Hrel_c]; subst. inversion Hrel_c as [|? ? Rc _]; subst.
  inversion Hnd_f as [|? ? Di Hnd_c]; subst. inversion Hnd_c as [|? ? Dc _]; subst.
  assert (Hinj : forall prefix, NoDup (map (fun f : Z => prefix ++ str f) folds)).
  { intros prefix. apply NoDup_map_NoDup_ForallPairs; [|exact Hnd].
    intros f g _ _ Heq. apply str_inj, (append_inj_l prefix). exact Heq. }
  assert (Hfold_digit : forall prefix n,
             In n (map (fun f : Z => prefix ++ str f) folds) -> ends_in_digit n = true).
  { intros prefix n Hin. apply in_map_iff in Hin as (f & <- & Hf).
    destruct (str_positive f (Hpos f Hf)). apply ends_in_digit_app; assumption. }
  split.
  - apply NoDup_app; [exact Hsingles | apply NoDup_app; [apply Hinj | apply Hinj |] |].
    + intros n Hi Hc. apply in_map_iff in Hi as (f & <- & Hf).
      apply in_map_iff in Hc as (g & Heq & Hg).
      destruct (str_positive f (Hpos f Hf)) as [Df _].
      destruct (str_positive g (Hpos g Hg)) as [Dg _].
      destruct (digit_suffix_inj _ _ _ _ Dc Di Dg Df Heq) as [Heq' _]. auto.
    + intros n Hs Hf. rewrite Forall_forall in Hnd_s. specialize (Hnd_s n Hs).
      apply in_app_or in Hf as [Hf|Hf]; apply Hfold_digit in Hf; congruence.
  - apply Forall_app; split; [exact Hrel_s|].
    apply Forall_app; split; apply Forall_forall; intros n Hin;
      apply in_map_iff in Hin as (f & <- & Hf);
      destruct (str_positive f (Hpos f Hf)) as [Df _];
      apply startswith_app; auto using startswith_digits.
Qed.

Lemma stage_paths_distinct (root : string) (folds : list Z) :
  distinct_step_dirs _ -> NoDup folds -> Forall (fun f => 0 < f) folds ->
  NoDup (stage_outputs (join root constants.IMAGE_DOWNLOAD_STEP_DIR)
           (join root constants.PPI_DOWNLOAD_STEP_DIR)
           (join root constants.PPI_EMBEDDING_STEP_DIR)
           (join root constants.HIERARCHY_STEP_DIR)
           (map (fun fold_val => (fold_val, PipelineRunner.image_embed_dir root fold_val,
                                   PipelineRunner.co_embed_dir root fold_val)) folds)).
Proof.
  intros Hc Hnd Hpos.
  destruct (stage_names_distinct folds Hc Hnd Hpos) as [Hnames Hrel].
  match goal with
  | |- NoDup ?paths =>
      replace paths with
        (map (join root)
           ([constants.IMAGE_DOWNLOAD_STEP_DIR; constants.PPI_DOWNLOAD_STEP_DIR;
             constants.PPI_EMBEDDING_STEP_DIR; constants.HIERARCHY_STEP_DIR]
              ++ map (fun f : Z => (constants.IMAGE_EMBEDDING_STEP_DIR ++ str f)%string) folds
              ++ map (fun f : Z => (constants.COEMBEDDING_STEP_DIR ++ str f)%string) folds)%list)
  end.
  - apply NoDup_map_NoDup_ForallPairs; [|exact Hnames].
    intros a b Ha Hb Heq. rewrite Forall_forall in Hrel.
    apply (join_inj root); auto.
  - unfold stage_outputs. rewrite !map_app, !map_map. reflexivity.
Qed.

Variables (d : string)
          (cm4ai_apms cm4ai_image samples unique edgelist baitlist model_path
             proteinatlasxml ppi_cutoffs provenance input_data_dict
             slurm_partition slurm_account : option string)
          (fake : option bool) (provenance_utils : string).

(** C9.  With step directory names that are relative, do not end in a
    digit and differ from each other, and for any list of distinct positive
    folds, both runners are built and the output paths of their stage
    instances (image download, PPI download, PPI embedding, hierarchy, and
    each fold's image embedding and co-embedding) are pairwise distinct. *)
Theorem stage_outputs_distinct (folds : list Z) :
  distinct_step_dirs _ -> NoDup folds -> Forall (fun f => 0 < f) folds ->
  (exists self,
      SLURMPipelineRunner.__init__ (Some d) cm4ai_apms cm4ai_image samples unique
        edgelist baitlist model_path proteinatlasxml ppi_cutoffs fake provenance
        (Some folds) input_data_dict slurm_partition slurm_account = Ret self
      /\ NoDup (stage_outputs (SLURMPipelineRunner._image_dir self)
                  (SLURMPipelineRunner._ppi_dir self)
                  (SLURMPipelineRunner._ppi_embed_dir self)
                  (SLURMPipelineRunner._hierarchy_dir self)
                  (SLURMPipelineRunner._image_coembed_tuples self)))
  /\ (exists self,
         ProgrammaticPipelineRunner.__init__ (Some d) samples unique edgelist baitlist
           model_path proteinatlasxml ppi_cutoffs fake provenance provenance_utils
           (Some folds) input_data_dict = Ret self
         /\ NoDup (stage_outputs (ProgrammaticPipelineRunner._image_dir self)
                     (ProgrammaticPipelineRunner._ppi_dir self)
                     (ProgrammaticPipelineRunner._ppi_embed_dir self)
                     (ProgrammaticPipelineRunner._hierarchy_dir self)
                     (ProgrammaticPipelineRunner._image_coembed_tuples self))).
Proof.
  intros Hc Hnd Hpos.
  split; (eexists; split; [reflexivity|]); cbn; apply stage_paths_distinct; assumption.
Qed.

End StagePaths.

(** C9 at the step directory names of [cellmaps_utils], for [/out] and the
    folds 1 and 2. *)
Lemma stage_outputs_distinct_witness :
  distinct_step_dirs Example.names
  /\ Example.on_slurm (Example.host Example.all_succeed) (Some [1; 2])
       (fun self =>
          NoDup (stage_outputs (SLURMPipelineRunner._image_dir self)
                   (SLURMPipelineRunner._ppi_dir self)
                   (SLURMPipelineRunner._ppi_embed_dir self)
                   (SLURMPipelineRunner._hierarchy_dir self)
                   (SLURMPipelineRunner._image_coembed_tuples self))).
Proof.
  assert (Hnames : distinct_step_dirs Example.names).
  { unfold distinct_step_dirs. split; [|split; [|split]].
    - repeat constructor; simpl; intuition discriminate.
    - discriminate.
    - repeat constructor.
    - repeat constructor. }
  split; [exact Hnames|].
  destruct (@stage_outputs_distinct Example.names (Example.host Example.all_succeed)
              "/out" None (Some "table.tsv") None None None None None None None
              (Some "prov.json") None None None None "ProvenanceUtil" [1; 2] Hnames)
    as [(self & Hself & Hdistinct) _].
  - repeat constructor; simpl; intuition lia.
  - repeat constructor.
  - unfold Example.on_slurm, Example.slurm. rewrite Hself. exact Hdistinct.
Defined.

(** ** The batch-scheduler strategy *)

Section ScriptGeneration.
Context `{constants.t} `{Host}.
Import SLURMPipelineRunner.

Lemma bindW_ret {A B} (c : W A) (k : A -> W B) a t1 :
  c = (Ret a, t1) -> bindW c k = (fst (k a), (t1 ++ snd (k a))%list).
Proof. intros ->. unfold bindW. destruct (k a). reflexivity. Qed.

Lemma bindW_raise {A B} (c : W A) (k : A -> W B) e t1 :
  c = (Raise e, t1) -> bindW c k = (Raise e, t1).
Proof. intros ->. reflexivity. Qed.

(** The resource directives are always written in full. *)
Lemma write_slurm_directives_ret self out job_name :
  _write_slurm_directives self out job_name
  = (Ret tt, snd (_write_slurm_directives self out job_name)).
Proof.
  unfold _write_slurm_directives.
  destruct (_slurm_partition self), (_slurm_account self); reflexivity.
Qed.

(** [l[i]] either yields an element or raises [IndexError]. *)
Lemma index_cases {A} (l : list A) i :
  (exists x, index l i = Ret x) \/ index l i = Raise IndexError.
Proof.
  unfold index.
  destruct ((_ <? 0) || (_ <=? _)); [right; reflexivity|].
  destruct (nth_error l _); [left; eauto | right; reflexivity].
Qed.

Lemma index_out_of_range {A} (l : list A) i :
  Z.of_nat (List.length l) <= i -> index l i = Raise IndexError.
Proof.
  intros Hi. unfold index.
  assert (H1 : (i <? 0) = false) by (apply Z.ltb_ge; lia). rewrite H1.
  assert (H2 : (Z.of_nat (List.length l) <=? i) = true) by (apply Z.leb_le; lia).
  rewrite H1, H2. reflexivity.
Qed.

(** In the tuple list of [[1, ..., n]], position [k - 1] holds fold [k]. *)
Lemma index_folds_upto {A} (g : Z -> A) n k :
  1 <= k <= Z.of_nat n -> index (map g (folds_upto n)) (k - 1) = Ret (g k).
Proof.
  intros Hk. unfold index, folds_upto. rewrite !length_map, length_seq.
  assert (H1 : (k - 1 <? 0) = false) by (apply Z.ltb_ge; lia). rewrite H1.
  assert (H2 : (Z.of_nat n <=? k - 1) = false) by (apply Z.leb_gt; lia).
  rewrite H1, H2. cbn [orb].
  rewrite !nth_error_map, nth_error_seq.
  assert (H3 : Nat.ltb (Z.to_nat (k - 1)) n = true) by (apply Nat.ltb_lt; lia).
  rewrite H3. cbn [option_map]. do 2 f_equal. lia.
Qed.

(** The image-embedding script of a fold whose tuple is found. *)
Lemma generate_embed_image_found self fold x :
  index (_image_coembed_tuples self) (fold - 1) = Ret x ->
  let f := join (_outdir self) ("imageembedjob" ++ str fold ++ ".sh") in
  _generate_embed_image_command self fold
  = (Ret ("imageembedjob" ++ str fold ++ ".sh"),
     (OpenW f :: snd (_write_slurm_directives self f ("imageembed" ++ str fold))
        ++ [FWrite f ("cellmaps_image_embeddingcmd.py " ++ tup1 x ++
                      " --fold " ++ str fold ++ " --inputdir " ++ _image_dir self ++
                      " " ++ (if is_True (_fake self) then "--fake_embedder"
                              else EmptyString) ++ " -vvvv" ++ nl);
            FWrite f ("exit $?" ++ nl)])%list).
Proof.
  intros Hx f. unfold _generate_embed_image_command, with_open. fold f.
  cbv [bindW emitW fwrite retW liftW]. rewrite Hx.
  rewrite (write_slurm_directives_ret self f). cbn [app fst snd].
  rewrite app_nil_r. reflexivity.
Qed.

(** The same script when the index is out of range: the file is opened,
    the directives are written, the command line is not. *)
Lemma generate_embed_image_missing self fold :
  index (_image_coembed_tuples self) (fold - 1) = Raise IndexError ->
  let f := join (_outdir self) ("imageembedjob" ++ str fold ++ ".sh") in
  _generate_embed_image_command self fold
  = (Raise IndexError,
     OpenW f :: snd (_write_slurm_directives self f ("imageembed" ++ str fold))).
Proof.
  intros Hx f. unfold _generate_embed_image_command, with_open. fold f.
  cbv [bindW emitW fwrite retW liftW]. rewrite Hx.
  rewrite (write_slurm_directives_ret self f). cbn [app fst snd].
  rewrite app_nil_r. reflexivity.
Qed.

Lemma generate_coembed_found self fold x :
  index (_image_coembed_tuples self) (fold - 1) = Ret x ->
  let f := join (_outdir self) ("coembeddingjob" ++ str fold ++ ".sh") in
  _generate_coembed_command self fold
  = (Ret ("coembeddingjob" ++ str fold ++ ".sh"),
     (OpenW f :: snd (_write_slurm_directives self f ("coembedding" ++ str fold))
        ++ [FWrite f ("cellmaps_coembeddingcmd.py " ++ tup2 x ++
                      " --ppi_embeddingdir " ++ _ppi_embed_dir self ++
                      " --image_embeddingdir " ++ tup1 x ++
                      " " ++ (if is_True (_fake self) then "--fake_embedding"
                              else EmptyString) ++ " -vvvv" ++ nl);
            FWrite f ("exit $?" ++ nl)])%list).
Proof.
  intros Hx f. unfold _generate_coembed_command, with_open. fold f.
  cbv [bindW emitW fwrite retW liftW]. rewrite Hx.
  rewrite (write_slurm_directives_ret self f). cbn [app fst snd].
  rewrite app_nil_r. reflexivity.
Qed.

Lemma generate_coembed_missing self fold :
  index (_image_coembed_tuples self) (fold - 1) = Raise IndexError ->
  let f := join (_outdir self) ("coembeddingjob" ++ str fold ++ ".sh") in
  _generate_coembed_command self fold
  = (Raise IndexError,
     OpenW f :: snd (_write_slurm_directives self f ("coembedding" ++ str fold))).
Proof.
  intros Hx f. unfold _generate_coembed_command, with_open. fold f.
  cbv [bindW emitW fwrite retW liftW]. rewrite Hx.
  rewrite (write_slurm_directives_ret self f). cbn [app fst snd].
  rewrite app_nil_r. reflexivity.
Qed.

End ScriptGeneration.

Section ScriptRun.
Context `{constants.t} `{Host}.
Import SLURMPipelineRunner.

Lemma fst_bindW_ret {A B} (c : W A) (k : A -> W B) a t1 :
  c = (Ret a, t1) -> fst (bindW c k) = fst (k a).
Proof. intros Hc. rewrite (bindW_ret _ _ _ _ Hc). reflexivity. Qed.

Lemma fst_bindW_raise {A B} (c : W A) (k : A -> W B) e :
  fst c = Raise e -> fst (bindW c k) = Raise e.
Proof. destruct c as [r t1]. simpl. intros ->. reflexivity. Qed.

Lemma fwrite_ret f text : fwrite f text = (Ret tt, [FWrite f text]).
Proof. reflexivity. Qed.

Lemma input_arg_ret self :
  inputs_given (_cm4ai_image self) (_samples self) (_unique self) (_provenance self) ->
  (exists arg, input_arg self = (Ret arg, [])) /\ (exists p, provenance_arg self = (Ret p, [])).
Proof.
  intros [Hp Hin]. unfold input_arg, provenance_arg. split.
  - destruct (_cm4ai_image self); [eexists; reflexivity|].
    destruct Hin as [Hin|[Hs Hu]]; [congruence|].
    destruct (_samples self); [|congruence]. destruct (_unique self); [|congruence].
    eexists; reflexivity.
  - destruct (_provenance self); [eexists; reflexivity | congruence].
Qed.

Lemma generate_download_images_ret self :
  inputs_given (_cm4ai_image self) (_samples self) (_unique self) (_provenance self) ->
  exists tr, _generate_download_images_command self = (Ret "imagedownloadjob.sh", tr).
Proof.
  intros Hin. destruct (input_arg_ret self Hin) as [[arg Harg] [p Hp]].
  unfold _generate_download_images_command, with_open.
  cbv [bindW emitW fwrite retW]. rewrite write_slurm_directives_ret, Harg, Hp.
  eexists; reflexivity.
Qed.

Lemma generate_download_ppi_ret self :
  inputs_given (_cm4ai_image self) (_samples self) (_unique self) (_provenance self) ->
  exists tr, _generate_download_ppi_command self = (Ret "ppidownloadjob.sh", tr).
Proof.
  intros Hin. destruct (input_arg_ret self Hin) as [[arg Harg] [p Hp]].
  unfold _generate_download_ppi_command, with_open.
  cbv [bindW emitW fwrite retW]. rewrite write_slurm_directives_ret, Harg, Hp.
  eexists; reflexivity.
Qed.

Lemma generate_embed_ppi_ret self :
  exists tr, _generate_embed_ppi_command self = (Ret "ppiembedjob.sh", tr).
Proof.
  unfold _generate_embed_ppi_command, with_open.
  cbv [bindW emitW fwrite retW]. rewrite write_slurm_directives_ret.
  eexists; reflexivity.
Qed.

(** The fold loop of [run] stops with [IndexError] as soon as it meets a
    fold beyond the length of the tuple list. *)
Lemma submit_folds_raises self f tuples names :
  (exists x, In x tuples
             /\ Z.of_nat (List.length (_image_coembed_tuples self)) < tup0 x) ->
  fst (submit_folds self f tuples names) = Raise IndexError.
Proof.
  revert names. induction tuples as [|x rest IH]; intros names (bad & Hin & Hbad).
  - destruct Hin.
  - cbn [submit_folds].
    rewrite (fst_bindW_ret _ _ _ _ (fwrite_ret _ _)).
    destruct (index_cases (_image_coembed_tuples self) (tup0 x - 1)) as [[y Hy]|Hmiss].
    + rewrite (fst_bindW_ret _ _ _ _ (generate_embed_image_found self _ _ Hy)).
      rewrite (fst_bindW_ret _ _ _ _ (fwrite_ret _ _)).
      rewrite (fst_bindW_ret _ _ _ _ (fwrite_ret _ _)).
      rewrite (fst_bindW_ret _ _ _ _ (generate_coembed_found self _ _ Hy)).
      rewrite (fst_bindW_ret _ _ _ _ (fwrite_ret _ _)).
      apply IH. exists bad. split; [|exact Hbad].
      destruct Hin as [<-|Hin]; [|exact Hin].
      rewrite index_out_of_range in Hy by lia. discriminate.
    + apply fst_bindW_raise.
      rewrite (generate_embed_image_missing self _ Hmiss). reflexivity.
Qed.

Lemma run_raises_index_error self :
  inputs_given (_cm4ai_image self) (_samples self) (_unique self) (_provenance self) ->
  (exists x, In x (_image_coembed_tuples self)
             /\ Z.of_nat (List.length (_image_coembed_tuples self)) < tup0 x) ->
  fst (run self) = Raise IndexError.
Proof.
  intros Hin Hbad. unfold run, with_open.
  destruct (generate_download_images_ret self Hin) as [t1 H1].
  destruct (generate_download_ppi_ret self Hin) as [t2 H2].
  destruct (generate_embed_ppi_ret self) as [t3 H3].
  apply fst_bindW_raise.
  rewrite (fst_bindW_ret _ _ tt [OpenW (slurmjobfile self)] eq_refl).
  rewrite (fst_bindW_ret _ _ _ _ (fwrite_ret _ _)).
  rewrite (fst_bindW_ret _ _ _ _ (fwrite_ret _ _)).
  rewrite (fst_bindW_ret _ _ _ _ H1).
  rewrite (fst_bindW_ret _ _ _ _ (fwrite_ret _ _)).
  rewrite (fst_bindW_ret _ _ _ _ (fwrite_ret _ _)).
  rewrite (fst_bindW_ret _ _ _ _ H2).
  rewrite (fst_bindW_ret _ _ _ _ (fwrite_ret _ _)).
  rewrite (fst_bindW_ret _ _ _ _ (fwrite_ret _ _)).
  rewrite (fst_bindW_ret _ _ _ _ H3).
  rewrite (fst_bindW_ret _ _ _ _ (fwrite_ret _ _)).
  apply fst_bindW_raise. apply submit_folds_raises. exact Hbad.
Qed.

Variables (d : string)
          (cm4ai_apms cm4ai_image samples unique edgelist baitlist model_path
             proteinatlasxml ppi_cutoffs provenance input_data_dict
             slurm_partition slurm_account : option string)
          (fake : option bool).

(** C10.  The per-fold script generators index the tuple list at
    [fold - 1].  For the fold list [[1, ..., n]] position [k - 1] holds the
    tuple of fold [k], and the image-embedding and co-embedding scripts of
    fold [k] name that fold's own directories.  For a fold list with an
    identifier greater than its length, the two generators raise
    [IndexError] at that fold after the file has been opened and the
    directives written, without writing the command line, and [run()]
    (given the inputs of the download scripts) ends with [IndexError]. *)
Theorem fold_indexing :
  (forall (n : nat) (k : Z), 1 <= k <= Z.of_nat n ->
     exists self,
       __init__ (Some d) cm4ai_apms cm4ai_image samples unique edgelist baitlist
         model_path proteinatlasxml ppi_cutoffs fake provenance (Some (folds_upto n))
         input_data_dict slurm_partition slurm_account = Ret self
       /\ let own_image := PipelineRunner.image_embed_dir (abspath d) k in
          let own_coembed := PipelineRunner.co_embed_dir (abspath d) k in
          let fi := join (abspath d) ("imageembedjob" ++ str k ++ ".sh") in
          let fc := join (abspath d) ("coembeddingjob" ++ str k ++ ".sh") in
          index (_image_coembed_tuples self) (k - 1) = Ret (k, own_image, own_coembed)
          /\ _generate_embed_image_command self k
             = (Ret ("imageembedjob" ++ str k ++ ".sh"),
                (OpenW fi :: snd (_write_slurm_directives self fi ("imageembed" ++ str k))
                   ++ [FWrite fi ("cellmaps_image_embeddingcmd.py " ++ own_image ++
                                  " --fold " ++ str k ++ " --inputdir " ++
                                  _image_dir self ++ " " ++
                                  (if is_True fake then "--fake_embedder" else EmptyString)
                                  ++ " -vvvv" ++ nl);
                       FWrite fi ("exit $?" ++ nl)])%list)
          /\ _generate_coembed_command self k
             = (Ret ("coembeddingjob" ++ str k ++ ".sh"),
                (OpenW fc :: snd (_write_slurm_directives self fc ("coembedding" ++ str k))
                   ++ [FWrite fc ("cellmaps_coembeddingcmd.py " ++ own_coembed ++
                                  " --ppi_embeddingdir " ++ _ppi_embed_dir self ++
                                  " --image_embeddingdir " ++ own_image ++ " " ++
                                  (if is_True fake then "--fake_embedding" else EmptyString)
                                  ++ " -vvvv" ++ nl);
                       FWrite fc ("exit $?" ++ nl)])%list))
  /\ (forall (folds : list Z) (f : Z), In f folds -> Z.of_nat (List.length folds) < f ->
        exists self,
          __init__ (Some d) cm4ai_apms cm4ai_image samples unique edgelist baitlist
            model_path proteinatlasxml ppi_cutoffs fake provenance (Some folds)
            input_data_dict slurm_partition slurm_account = Ret self
          /\ let fi := join (abspath d) ("imageembedjob" ++ str f ++ ".sh") in
             let fc := join (abspath d) ("coembeddingjob" ++ str f ++ ".sh") in
             index (_image_coembed_tuples self) (f - 1) = Raise IndexError
             /\ _generate_embed_image_command self f
                = (Raise IndexError,
                   OpenW fi :: snd (_write_slurm_directives self fi ("imageembed" ++ str f)))
             /\ _generate_coembed_command self f
                = (Raise IndexError,
                   OpenW fc :: snd (_write_slurm_directives self fc ("coembedding" ++ str f)))
             /\ (inputs_given cm4ai_image samples unique provenance ->
                 fst (run self) = Raise IndexError)).
Proof.
  split.
  - intros n k Hk. eexists. split; [reflexivity|].
    intros own_image own_coembed fi fc.
    cbn [_image_coembed_tuples _outdir _image_dir _ppi_embed_dir _fake].
    assert (Hidx : index (map (fun fold_val =>
                                 (fold_val, PipelineRunner.image_embed_dir (abspath d) fold_val,
                                   PipelineRunner.co_embed_dir (abspath d) fold_val))
                            (folds_upto n)) (k - 1) = Ret (k, own_image, own_coembed))
      by (exact (index_folds_upto
                   (fun fold_val =>
                      (fold_val, PipelineRunner.image_embed_dir (abspath d) fold_val,
                        PipelineRunner.co_embed_dir (abspath d) fold_val)) n k Hk)).
    split; [exact Hidx|]. split.
    + match goal with
      | |- _generate_embed_image_command ?s _ = _ =>
          exact (generate_embed_image_found s k _ Hidx)
      end.
    + match goal with
      | |- _generate_coembed_command ?s _ = _ =>
          exact (generate_coembed_found s k _ Hidx)
      end.
  - intros folds f Hin Hf. eexists. split; [reflexivity|].
    intros fi fc.
    cbn [_image_coembed_tuples _outdir].
    assert (Hidx : index (map (fun fold_val =>
                                 (fold_val, PipelineRunner.image_embed_dir (abspath d) fold_val,
                                   PipelineRunner.co_embed_dir (abspath d) fold_val))
                            folds) (f - 1) = Raise IndexError)
      by (apply index_out_of_range; rewrite length_map; lia).
    split; [exact Hidx|]. split; [|split].
    + match goal with
      | |- _generate_embed_image_command ?s _ = _ =>
          exact (generate_embed_image_missing s f Hidx)
      end.
    + match goal with
      | |- _generate_coembed_command ?s _ = _ =>
          exact (generate_coembed_missing s f Hidx)
      end.
    + intros Hgiven. apply run_raises_index_error; [exact Hgiven|].
      cbn [_image_coembed_tuples]. rewrite length_map.
      eexists. split; [apply in_map; exact Hin | exact Hf].
Qed.

End ScriptRun.

Section TwoFolds.
Context `{constants.t} `{Host}.
Import SLURMPipelineRunner.

Variables (d : string)
          (cm4ai_apms cm4ai_image samples unique edgelist baitlist model_path
             proteinatlasxml ppi_cutoffs provenance input_data_dict
             slurm_partition slurm_account : option string)
          (fake : option bool).






End TwoFolds.

Section DownloadScripts.
Context `{constants.t} `{Host}.
Import SLURMPipelineRunner.

(** The command lines of the two download scripts, side by side: the PPI
    script puts a blank between the output directory and [--provenance],
    the image script does not. *)
Lemma download_command_lines self arg p :
  input_arg self = (Ret arg, []) -> provenance_arg self = (Ret p, []) ->
  let fi := join (_outdir self) "imagedownloadjob.sh" in
  let fp := join (_outdir self) "ppidownloadjob.sh" in
  _generate_download_images_command self
  = (Ret "imagedownloadjob.sh",
     (OpenW fi :: snd (_write_slurm_directives self fi "imagedownload")
        ++ [FWrite fi ("cellmaps_imagedownloadercmd.py " ++ _image_dir self ++
                       "--provenance " ++ p ++ " " ++ arg ++ nl);
            FWrite fi ("exit $?" ++ nl)])%list)
  /\ _generate_download_ppi_command self
     = (Ret "ppidownloadjob.sh",
        (OpenW fp :: snd (_write_slurm_directives self fp "ppidownload")
           ++ [FWrite fp ("cellmaps_ppidownloadercmd.py " ++ _ppi_dir self ++
                          " --provenance " ++ p ++ " " ++ arg ++ nl);
               FWrite fp ("exit $?" ++ nl)])%list).
Proof.
  intros Harg Hp fi fp. split.
  - unfold _generate_download_images_command, with_open. fold fi.
    cbv [bindW emitW fwrite retW]. rewrite Harg, Hp.
    rewrite (write_slurm_directives_ret self fi). cbn [app fst snd].
    rewrite app_nil_r. reflexivity.
  - unfold _generate_download_ppi_command, with_open. fold fp.
    cbv [bindW emitW fwrite retW]. rewrite Harg, Hp.
    rewrite (write_slurm_directives_ret self fp). cbn [app fst snd].
    rewrite app_nil_r. reflexivity.
Qed.

End DownloadScripts.

(** C8 is violated by the image-download script.  For the output root
    [/out], the table [table.tsv] and the provenance file [prov.json], the
    command line written to [imagedownloadjob.sh] runs the output directory
    and [--provenance] together, whereas the one written to
    [ppidownloadjob.sh] separates them. *)
Theorem image_download_command_lacks_separator :
  let tr := snd (Example.run_slurm (Example.host Example.all_succeed) (Some [1])) in
  In ("cellmaps_imagedownloadercmd.py /out/1.image_download--provenance prov.json --cm4ai_table table.tsv"
        ++ nl) (writes_to "/out/imagedownloadjob.sh" tr)
  /\ In ("cellmaps_ppidownloadercmd.py /out/1.ppi_download --provenance prov.json --cm4ai_table table.tsv"
           ++ nl) (writes_to "/out/ppidownloadjob.sh" tr).
Proof.
  vm_compute. split; repeat (first [left; reflexivity | right]).
Qed.



(** C10 at the example configuration: fold 2 of [[1, 2, 3]] finds its own
    tuple; the fold list [[2]] makes [run()] end with [IndexError]. *)
Lemma fold_indexing_witness :
  Example.on_slurm (Example.host Example.all_succeed) (Some (folds_upto 3))
    (fun self =>
       index (SLURMPipelineRunner._image_coembed_tuples self) (2 - 1)
       = Ret (2, "/out/2.image_embedding_fold2", "/out/3.coembedding_fold2"))
  /\ fst (Example.run_slurm (Example.host Example.all_succeed) (Some [2])) = Raise IndexError.
Proof.
  destruct (@fold_indexing Example.names (Example.host Example.all_succeed)
              "/out" None (Some "table.tsv") None None None None None None None
              (Some "prov.json") None None None None) as [Hown Hbeyond].
  split.
  - destruct (Hown 3%nat 2 ltac:(lia)) as (self & Hself & Hidx & _).
    unfold Example.on_slurm, Example.slurm. rewrite Hself. exact Hidx.
  - destruct (Hbeyond [2] 2 (or_introl eq_refl) ltac:(simpl; lia))
      as (self & Hself & _ & _ & _ & Hrun).
    unfold Example.run_slurm, Example.slurm. rewrite Hself.
    apply Hrun. split; [discriminate | left; discriminate].
Defined.

(** C2 at a concrete run: the PPI download returns 5, so the in-process
    runner raises and the marker holds 99. *)
Lemma finish_marker_written_once_witness :
  let H := Example.host Example.ppi_download_fails in
  let self := Example.driver H 1700000000 (Some [1]) in
  exists root fs1 r rtr fs2 tr fs3,
    CellmapsPipeline._outdir self = Some root
    /\ Example.in_process_runner H (Some [1]) fs1 = (r, rtr, fs2)
    /\ CellmapsPipeline.run self [] = (r, tr, fs3)
    /\ finish_markers tr = [match r with Ret v => v | Raise _ => PyInt 99 end]
    /\ tr = [Makedirs "/out" 493; WriteStart "/out" 1700000000 None "0.0.1";
             Strategy (Warn "FAKE IMAGES ARE BEING DOWNLOADED!!!!!");
             Strategy (Invoke (CellmapsImageDownloader "/out/1.image_download" true) (Ret 0));
             Strategy (Invoke (CellmapsPPIDownloader "/out/1.ppi_download") (Ret 5));
             WriteFinish "/out" 1700000000 (PyInt 99)].
Proof.
  intros H self.
  destruct (@finish_marker_written_once H 1700000000 (Some "/out")
              (Example.in_process_runner H (Some [1])) None self [] eq_refl)
    as (root & fs1 & r & rtr & fs2 & tr & fs3 & Hroot & Hrunner & Hrun & Hmarkers & _).
  exists root, fs1, r, rtr, fs2, tr, fs3.
  repeat (split; [assumption|]).
  vm_compute in Hrun. injection Hrun as _ <- _. reflexivity.
Defined.

(** * Further properties *)

(** ** The in-process strategy: which workers run, and in which order *)

Section Plan.
Context `{Host}.
Import ProgrammaticPipelineRunner.

Lemma subseq_nil_l {A} (l : list A) : subseq [] l.
Proof. induction l; constructor; assumption. Qed.

Lemma subseq_refl {A} (l : list A) : subseq l l.
Proof. induction l; constructor; assumption. Qed.

Lemma subseq_app {A} (a b c d : list A) :
  subseq a b -> subseq c d -> subseq (a ++ c) (b ++ d).
Proof.
  intros Hab Hcd. induction Hab; simpl; [exact Hcd | |]; constructor; assumption.
Qed.

Lemma invoked_app t1 t2 : invoked (t1 ++ t2) = (invoked t1 ++ invoked t2)%list.
Proof.
  induction t1 as [|e t1 IH]; [reflexivity|]. destruct e; simpl; rewrite ?IH; reflexivity.
Qed.

Lemma skips_app t1 t2 : skips (t1 ++ t2) = (skips t1 + skips t2)%nat.
Proof.
  induction t1 as [|e t1 IH]; [reflexivity|]. destruct e; simpl; rewrite ?IH; lia.
Qed.

(** Sequencing, when every value of the first part is acceptable. *)
Lemma follows_bind {A B} (ok : B -> Prop) ws1 ws2 (c : M event A) (k : A -> M event B) :
  follows (fun _ => True) ws1 c -> (forall a, follows ok ws2 (k a)) ->
  follows ok (ws1 ++ ws2) (bindM c k).
Proof.
  intros Hc Hk fs. unfold bindM. specialize (Hc fs).
  destruct (c fs) as [[r1 t1] fs1]. destruct Hc as [Hs1 Hn1].
  destruct r1 as [a|e].
  - specialize (Hk a fs1). destruct (k a fs1) as [[r2 t2] fs2]. destruct Hk as [Hs2 Hn2].
    rewrite invoked_app, skips_app, !length_app. split; [apply subseq_app; assumption|].
    intros b Hb Hok. specialize (Hn1 a eq_refl I). specialize (Hn2 b Hb Hok). lia.
  - split; [|discriminate]. rewrite <- (app_nil_r (invoked t1)).
    apply subseq_app; [assumption | apply subseq_nil_l].
Qed.

Ltac solve_subseq := first [apply subseq_refl | apply subseq_nil_l].

(** A step that checks its output directory and otherwise invokes [w]. *)
Lemma follows_skip_or_invoke dir notice w :
  prefix "Found" notice = true ->
  follows (eq 0) [w]
    (bindM (os_path_isdir dir)
       (fun found : bool => if found then bindM (warnings_warn notice) (fun _ => retM 0)
                            else invoke w)).
Proof.
  intros Hnotice fs. cbv [bindM os_path_isdir warnings_warn emitM retM invoke].
  destruct (isdir dir fs).
  - cbn [app invoked skips]. rewrite Hnotice. split; [solve_subseq | reflexivity].
  - destruct (run_worker w fs) as [r fs1]. cbn [app invoked skips].
    split; [solve_subseq | reflexivity].
Qed.

Lemma follows_download_images self :
  follows (eq 0)
    [CellmapsImageDownloader (_image_dir self) (is_True (_fake self))]
    (_download_images self).
Proof.
  intros fs. unfold _download_images.
  cbv [bindM os_path_isdir warnings_warn emitM retM invoke build_image_generators].
  destruct (isdir (_image_dir self) fs).
  - cbn. split; [solve_subseq | reflexivity].
  - destruct (image_generators _ _ _ _ fs) as [[]|e].
    + destruct (is_True (_fake self)); destruct (run_worker _ fs) as [r fs1];
        cbn; (split; [solve_subseq | reflexivity]).
    + cbn. split; [solve_subseq | discriminate].
Qed.

Lemma follows_embed_image_loop self tuples :
  follows (eq 0)
    (map (fun x => CellmapsImageEmbedder (tup1 x) (_image_dir self) (tup0 x)
                     (is_True (_fake self))) tuples)
    (embed_image_loop self tuples).
Proof.
  induction tuples as [|x rest IH]; intros fs.
  - cbn. split; [constructor | reflexivity].
  - cbn [embed_image_loop map].
    cbv [bindM os_path_isdir warnings_warn emitM retM raiseM invoke].
    destruct (isdir (tup1 x) fs).
    + specialize (IH fs). destruct (embed_image_loop self rest fs) as [[r tr] fs1].
      destruct IH as [Hs Hn]. cbn [app invoked skips prefix List.length].
      split; [apply subseq_skip; exact Hs|].
      intros a Ha Hok. specialize (Hn a Ha Hok). simpl. lia.
    + destruct (run_worker _ fs) as [r fs1]. destruct r as [c|e].
      * destruct (c =? 0); cbn [negb].
        -- specialize (IH fs1). destruct (embed_image_loop self rest fs1) as [[r tr] fs2].
           destruct IH as [Hs Hn]. cbn [app invoked skips List.length].
           split; [apply subseq_take; exact Hs|].
           intros a Ha Hok. specialize (Hn a Ha Hok). lia.
        -- cbn [app invoked]. split; [|discriminate].
           apply subseq_take, subseq_nil_l.
      * cbn [invoked]. split; [|discriminate]. apply subseq_take, subseq_nil_l.
Qed.

Lemma follows_coembed_loop self tuples :
  follows (eq 0)
    (map (fun x => CellmapsCoEmbedder (tup2 x) (tup1 x) (_ppi_embed_dir self)
                     (is_True (_fake self))) tuples)
    (coembed_loop self tuples).
Proof.
  induction tuples as [|x rest IH]; intros fs.
  - cbn. split; [constructor | reflexivity].
  - cbn [coembed_loop map].
    cbv [bindM os_path_isdir warnings_warn logger_error emitM retM raiseM invoke].
    destruct (isdir (tup2 x) fs).
    + specialize (IH fs). destruct (coembed_loop self rest fs) as [[r tr] fs1].
      destruct IH as [Hs Hn]. cbn [app invoked skips prefix List.length].
      split; [apply subseq_skip; exact Hs|].
      intros a Ha Hok. specialize (Hn a Ha Hok). simpl. lia.
    + destruct (run_worker _ fs) as [r fs1]. destruct r as [c|e].
      * destruct (Z.eqb_spec c 0) as [->|Hc]; cbn [negb].
        -- specialize (IH fs1). destruct (coembed_loop self rest fs1) as [[r tr] fs2].
           destruct IH as [Hs Hn]. cbn [app invoked skips List.length].
           split; [apply subseq_take; exact Hs|].
           intros a Ha Hok. specialize (Hn a Ha Hok). lia.
        -- cbn [app invoked]. split; [apply subseq_take, subseq_nil_l|].
           intros a [= <-] Hok. congruence.
      * cbn [invoked]. split; [|discriminate]. apply subseq_take, subseq_nil_l.
Qed.

Lemma follows_check ws (step : M event Z) msg :
  follows (eq 0) ws step -> follows (fun _ => True) ws (check step msg).
Proof.
  intros Hstep fs. unfold check. cbv [bindM retM raiseM]. specialize (Hstep fs).
  destruct (step fs) as [[r tr] fs1]. destruct Hstep as [Hs Hn].
  destruct r as [c|e]; [|split; [exact Hs | discriminate]].
  destruct (Z.eqb_spec c 0) as [->|Hc]; cbn [negb]; rewrite app_nil_r.
  - split; [exact Hs|]. intros _ _ _. apply (Hn 0); reflexivity.
  - split; [exact Hs | discriminate].
Qed.

Lemma follows_run self : follows (fun _ => True) (planned self) (run self).
Proof.
  unfold run, planned.
  change (follows (fun _ : Z => True)
            ([CellmapsImageDownloader (_image_dir self) (is_True (_fake self))]
               ++ [CellmapsPPIDownloader (_ppi_dir self)]
               ++ [CellMapsPPIEmbedder (_ppi_embed_dir self) (_ppi_dir self)]
               ++ map (fun x => CellmapsImageEmbedder (tup1 x) (_image_dir self) (tup0 x)
                                  (is_True (_fake self))) (_image_coembed_tuples self)
               ++ map (fun x => CellmapsCoEmbedder (tup2 x) (tup1 x) (_ppi_embed_dir self)
                                  (is_True (_fake self))) (_image_coembed_tuples self)
               ++ [CellmapsGenerateHierarchy (_hierarchy_dir self)
                     (map tup2 (_image_coembed_tuples self))] ++ [])%list
            (run self)).
  unfold run.
  apply follows_bind; [apply follows_check, follows_download_images|]. intros _.
  apply follows_bind; [apply follows_check, follows_skip_or_invoke; reflexivity|]. intros _.
  apply follows_bind; [apply follows_check, follows_skip_or_invoke; reflexivity|]. intros _.
  apply follows_bind; [apply follows_check, follows_embed_image_loop|]. intros _.
  apply follows_bind; [apply follows_check, follows_coembed_loop|]. intros _.
  apply follows_bind; [apply follows_check, follows_skip_or_invoke; reflexivity|]. intros _.
  intros fs. cbn. split; [constructor | reflexivity].
Qed.

(** X1.  Whatever the workers do and whatever exists on disk, the workers
    that [run()] invokes are workers of the plan, in the order of the plan
    and none more often than the plan lists it: downloads, PPI embedding,
    image embedding of the folds, co-embedding of the folds, hierarchy. *)
Theorem invocations_follow_plan self (fs : FS) :
  subseq (invoked (snd (fst (run self fs)))) (planned self).
Proof.
  pose proof (follows_run self fs) as Hf.
  destruct (run self fs) as [[r tr] fs1]. exact (proj1 Hf).
Qed.

(** X2.  When [run()] returns, every stage has been resolved: the number
    of workers invoked plus the number of skip notices is the number of
    stages, four plus two per fold. *)
Theorem success_resolves_every_stage self (fs : FS) code tr fs1 :
  run self fs = (Ret code, tr, fs1) ->
  (List.length (invoked tr) + skips tr)%nat
  = (4 + 2 * List.length (_image_coembed_tuples self))%nat.
Proof.
  intros Hrun. pose proof (follows_run self fs) as Hf. rewrite Hrun in Hf.
  destruct Hf as [_ Hn]. rewrite (Hn code eq_refl I).
  unfold planned. cbn [app List.length]. rewrite !length_app, !length_map.
  cbn [List.length]. lia.
Qed.

End Plan.

(** ** The in-process strategy: how failures end the run *)

Section Failures.
Context `{Host}.
Import ProgrammaticPipelineRunner.

(** X3.  An exception raised by a worker is the exception that [run()]
    raises: no stage catches it or replaces it by its own. *)
Theorem worker_exception_propagates self (fs : FS) res tr fs1 w e :
  run self fs = (res, tr, fs1) -> In (Invoke w (Raise e)) tr -> res = Raise e.
Proof.
  intros Hrun Hin.
  pose proof (run_ends_run self fs) as Hends. rewrite Hrun in Hends.
  destruct Hends as [[Hc _]|[(w0 & r0 & Hf & ->)|(-> & _)]].
  - specialize (Hc _ _ Hin). discriminate.
  - apply in_split in Hin as (pre & post & Heq).
    destruct (failing_unique _ _ _ _ _ _ _ Hf Heq) as (_ & <- & _); [discriminate|].
    reflexivity.
  - destruct Hin.
Qed.

(** X15.  When the image directory is missing and building the image
    generators from the sample and unique lists raises, [run()] raises
    that exception at once: no worker has been invoked and no warning
    given, also with [fake] set. *)
Theorem generator_exception_precedes_every_stage self (fs : FS) e :
  isdir (_image_dir self) fs = false ->
  image_generators (_unique self) (_samples self) (_proteinatlasxml self)
    (_image_dir self) fs = Raise e ->
  fst (run self fs) = (Raise e, []).
Proof.
  intros Hdir Hgen. unfold run, check, _download_images.
  cbv [bindM os_path_isdir build_image_generators]. rewrite Hdir, Hgen. reflexivity.
Qed.

(** X4.  When the image embedder of a fold returns a code other than 0,
    [run()] raises [TypeError]: the message for the log adds the fold, an
    [int], to a [str].  Neither the code nor the exception that names the
    image-embedding step is the result. *)
Theorem image_embed_failure_is_type_error self (fs : FS) res tr fs1 w c :
  run self fs = (res, tr, fs1) ->
  In (Invoke w (Ret c)) tr -> c <> 0 -> is_image_embedder w = true ->
  res = Raise TypeError.
Proof.
  intros Hrun Hin Hc Hw.
  pose proof (run_ends_run self fs) as Hends. rewrite Hrun in Hends.
  destruct Hends as [[Hclean _]|[(w0 & r0 & Hf & ->)|(-> & _)]].
  - specialize (Hclean _ _ Hin). congruence.
  - apply in_split in Hin as (pre & post & Heq).
    destruct (failing_unique _ _ _ _ _ _ _ Hf Heq) as (-> & <- & _); [congruence|].
    cbn [run_result]. rewrite Hw. reflexivity.
  - destruct Hin.
Qed.

Lemma stops_nil : stops_after_failure [].
Proof. intros [|? ?] w c post Heq; discriminate. Qed.

(** An event that is not a failing invocation, in front of a trace. *)
Lemma stops_cons e tr :
  (forall w c, e = Invoke w (Ret c) -> c = 0) ->
  stops_after_failure tr -> stops_after_failure (e :: tr).
Proof.
  intros He Htr [|e0 pre] w c post Heq Hc.
  - injection Heq as -> _. elim Hc. eauto.
  - injection Heq as _ Heq. eauto.
Qed.

(** A failing invocation, followed by what is due, as the whole trace. *)
Lemma stops_here w r :
  stops_after_failure
    (Invoke w r :: match r with Ret c => after_failure w c | Raise _ => [] end).
Proof.
  intros [|e0 pre] w0 c post Heq Hc.
  - injection Heq as -> -> <-. reflexivity.
  - injection Heq as _ Heq. destruct r as [c0|e].
    + destruct w; cbn [after_failure] in Heq;
        try (destruct pre; discriminate).
      destruct pre as [|e1 pre]; [discriminate|]. destruct pre; discriminate.
    + destruct pre; discriminate.
Qed.

(** Cutting a concatenation at one element. *)
Lemma app_cut {A} (t1 t2 pre post : list A) x :
  (t1 ++ t2 = pre ++ x :: post)%list ->
  (exists m, t1 = pre ++ x :: m)%list \/ (exists m, pre = t1 ++ m /\ t2 = m ++ x :: post)%list.
Proof.
  revert pre. induction t1 as [|a t1 IH]; intros pre Heq.
  - right. exists pre. split; [reflexivity | exact Heq].
  - destruct pre as [|b pre]; simpl in Heq; injection Heq as -> Heq.
    + left. exists t1. reflexivity.
    + destruct (IH _ Heq) as [[m ->]|(m & -> & ->)].
      * left. exists m. reflexivity.
      * right. exists m. split; reflexivity.
Qed.

Lemma stops_app t1 t2 :
  clean t1 -> stops_after_failure t2 -> stops_after_failure (t1 ++ t2).
Proof.
  intros Hclean H2 pre w c post Heq Hc.
  destruct (app_cut _ _ _ _ _ Heq) as [[m ->]|(m & -> & ->)].
  - elim Hc. assert (Hin : In (Invoke w (Ret c)) (pre ++ Invoke w (Ret c) :: m))
      by apply in_elt.
    specialize (Hclean _ _ Hin). congruence.
  - eapply H2; [reflexivity | exact Hc].
Qed.

Ltac not_failing := intros ? ? Heq; first [discriminate | injection Heq as _ <-; reflexivity].

Lemma stops_skip_or_invoke dir notice w (fs : FS) :
  after_failure w = (fun _ => []) ->
  stops_after_failure
    (snd (fst (bindM (os_path_isdir dir)
                 (fun found : bool =>
                    if found then bindM (warnings_warn notice) (fun _ => retM 0)
                    else invoke w) fs))).
Proof.
  intros Hw. cbv [bindM os_path_isdir warnings_warn emitM retM invoke].
  destruct (isdir dir fs).
  - cbn. apply stops_cons; [not_failing | apply stops_nil].
  - destruct (run_worker w fs) as [r fs1]. cbn [app fst snd].
    pose proof (stops_here w r) as Hs. rewrite Hw in Hs. destruct r; exact Hs.
Qed.

Lemma stops_download_images self (fs : FS) :
  stops_after_failure (snd (fst (_download_images self fs))).
Proof.
  unfold _download_images.
  cbv [bindM os_path_isdir warnings_warn emitM retM invoke build_image_generators].
  destruct (isdir (_image_dir self) fs).
  - cbn. apply stops_cons; [not_failing | apply stops_nil].
  - destruct (image_generators _ _ _ _ fs) as [[]|e]; [|apply stops_nil].
    destruct (is_True (_fake self)); destruct (run_worker _ fs) as [r fs1];
      cbn [app fst snd];
      pose proof (stops_here (CellmapsImageDownloader (_image_dir self) true) r) as Ht;
      pose proof (stops_here (CellmapsImageDownloader (_image_dir self) false) r) as Hf;
      cbn [after_failure] in Ht, Hf.
    + apply stops_cons; [not_failing | destruct r; exact Ht].
    + destruct r; exact Hf.
Qed.

Lemma stops_embed_image_loop self tuples (fs : FS) :
  stops_after_failure (snd (fst (embed_image_loop self tuples fs))).
Proof.
  revert fs. induction tuples as [|x rest IH]; intros fs; [apply stops_nil|].
  cbn [embed_image_loop].
  cbv [bindM os_path_isdir warnings_warn emitM retM raiseM invoke].
  destruct (isdir (tup1 x) fs).
  - specialize (IH fs). destruct (embed_image_loop self rest fs) as [[r tr] fs1].
    cbn [app fst snd] in *. apply stops_cons; [not_failing | exact IH].
  - destruct (run_worker _ fs) as [r fs1]. destruct r as [c|e].
    + destruct (Z.eqb_spec c 0) as [->|Hc]; cbn [negb].
      * specialize (IH fs1). destruct (embed_image_loop self rest fs1) as [[r tr] fs2].
        cbn [app fst snd] in *. apply stops_cons; [not_failing | exact IH].
      * cbn [app fst snd].
        exact (stops_here (CellmapsImageEmbedder (tup1 x) (_image_dir self) (tup0 x)
                             (is_True (_fake self))) (Ret c)).
    + cbn [fst snd].
      exact (stops_here (CellmapsImageEmbedder (tup1 x) (_image_dir self) (tup0 x)
                           (is_True (_fake self))) (Raise e)).
Qed.

Lemma stops_coembed_loop self tuples (fs : FS) :
  stops_after_failure (snd (fst (coembed_loop self tuples fs))).
Proof.
  revert fs. induction tuples as [|x rest IH]; intros fs; [apply stops_nil|].
  cbn [coembed_loop].
  cbv [bindM os_path_isdir warnings_warn logger_error emitM retM raiseM invoke].
  destruct (isdir (tup2 x) fs).
  - specialize (IH fs). destruct (coembed_loop self rest fs) as [[r tr] fs1].
    cbn [app fst snd] in *. apply stops_cons; [not_failing | exact IH].
  - destruct (run_worker _ fs) as [r fs1]. destruct r as [c|e].
    + destruct (Z.eqb_spec c 0) as [->|Hc]; cbn [negb].
      * specialize (IH fs1). destruct (coembed_loop self rest fs1) as [[r tr] fs2].
        cbn [app fst snd] in *. apply stops_cons; [not_failing | exact IH].
      * cbn [app fst snd].
        exact (stops_here (CellmapsCoEmbedder (tup2 x) (tup1 x) (_ppi_embed_dir self)
                             (is_True (_fake self))) (Ret c)).
    + cbn [fst snd].
      exact (stops_here (CellmapsCoEmbedder (tup2 x) (tup1 x) (_ppi_embed_dir self)
                           (is_True (_fake self))) (Raise e)).
Qed.

(** A checked step leaves the trace of the step as it is. *)
Lemma check_trace (step : M event Z) msg (fs : FS) :
  snd (fst (check step msg fs)) = snd (fst (step fs)).
Proof.
  unfold check. cbv [bindM retM raiseM]. destruct (step fs) as [[r tr] fs1].
  destruct r as [c|e]; [|reflexivity].
  destruct (negb (c =? 0)); cbn [fst snd]; apply app_nil_r.
Qed.

Lemma stops_bind {A} (G : Prop) (c1 : M event unit) (c2 : M event A) (fs : FS) :
  run_ends tt G (c1 fs) ->
  stops_after_failure (snd (fst (c1 fs))) ->
  (forall fs1, stops_after_failure (snd (fst (c2 fs1)))) ->
  stops_after_failure (snd (fst (bindM c1 (fun _ => c2) fs))).
Proof.
  unfold bindM. destruct (c1 fs) as [[r1 t1] fs1]. cbn [fst snd].
  intros Hends H1 H2. destruct r1 as [[]|e]; [|exact H1].
  specialize (H2 fs1). destruct (c2 fs1) as [[r2 t2] fs2]. cbn [fst snd] in *.
  apply stops_app; [|exact H2].
  destruct Hends as [[Hc _]|[(w & r & Hf & Hr)|(_ & _ & e & He)]];
    [exact Hc | | discriminate].
  destruct (run_result_raises (A:=unit) w r (proj1 Hf)) as [e He]. congruence.
Qed.

(** X5.  In the trace of [run()], a worker that returned a code other than
    0 is followed by nothing, except for a co-embedding, which is followed
    by one error log that holds the two directories and the code; that log
    is the only place where the code survives. *)
Theorem failure_ends_the_trace self (fs : FS) :
  stops_after_failure (snd (fst (run self fs))).
Proof.
  unfold run.
  apply (stops_bind
           (image_generators (_unique self) (_samples self) (_proteinatlasxml self)
              (_image_dir self) fs <> Ret tt));
    [apply check_ends, download_images_ends
    | rewrite check_trace; apply stops_download_images |]. intros fs1.
  apply (stops_bind False);
    [apply check_ends, download_ppi_ends
    | rewrite check_trace; apply stops_skip_or_invoke; reflexivity |]. intros fs2.
  apply (stops_bind False);
    [apply check_ends, embed_ppi_ends
    | rewrite check_trace; apply stops_skip_or_invoke; reflexivity |]. intros fs3.
  apply (stops_bind False);
    [apply check_ends, embed_image_loop_ends
    | rewrite check_trace; apply stops_embed_image_loop |]. intros fs4.
  apply (stops_bind False);
    [apply check_ends, coembed_loop_ends
    | rewrite check_trace; apply stops_coembed_loop |]. intros fs5.
  apply (stops_bind False);
    [apply check_ends, hierarchy_ends
    | rewrite check_trace; apply stops_skip_or_invoke; reflexivity |]. intros fs6.
  apply stops_nil.
Qed.

End Failures.

(** ** The batch-scheduler strategy: the script generators *)

Section Generators.
Import SLURMPipelineRunner.

Lemma index_in_range {A} (l : list A) fold :
  in_range (List.length l) fold = true ->
  exists x, nth_error l (position (List.length l) fold) = Some x
            /\ index l (fold - 1) = Ret x.
Proof.
  unfold in_range, position, index. intros Hr.
  apply andb_prop in Hr as [Hlo Hhi]. apply Z.leb_le in Hlo. apply Z.ltb_lt in Hhi.
  set (j := if fold - 1 <? 0 then fold - 1 + Z.of_nat (List.length l) else fold - 1).
  assert (Hj : 0 <= j < Z.of_nat (List.length l))
    by (subst j; destruct (Z.ltb_spec (fold - 1) 0); lia).
  assert (H1 : (j <? 0) = false) by (apply Z.ltb_ge; lia).
  assert (H2 : (Z.of_nat (List.length l) <=? j) = false) by (apply Z.leb_gt; lia).
  rewrite H1, H2. cbn [orb].
  destruct (nth_error l (Z.to_nat j)) as [x|] eqn:Hnth; [eauto|].
  apply nth_error_None in Hnth. lia.
Qed.

Lemma index_not_in_range {A} (l : list A) fold :
  in_range (List.length l) fold = false -> index l (fold - 1) = Raise IndexError.
Proof.
  unfold in_range, index. intros Hr.
  apply andb_false_iff in Hr as [Hlo|Hhi].
  - apply Z.leb_gt in Hlo.
    assert (H1 : (fold - 1 <? 0) = true) by (apply Z.ltb_lt; lia). rewrite H1.
    assert (H2 : (fold - 1 + Z.of_nat (List.length l) <? 0) = true) by (apply Z.ltb_lt; lia).
    rewrite H2. reflexivity.
  - apply Z.ltb_ge in Hhi.
    assert (H1 : (fold - 1 <? 0) = false) by (apply Z.ltb_ge; lia). rewrite H1.
    assert (H2 : (Z.of_nat (List.length l) <=? fold - 1) = true) by (apply Z.leb_le; lia).
    rewrite H1, H2. reflexivity.
Qed.

(** The directives are written to the file handed over, and nowhere
    else. *)
Lemma directives_only_write self out job_name :
  Forall (fun e => exists text, e = FWrite out text)
    (snd (_write_slurm_directives self out job_name)).
Proof.
  unfold _write_slurm_directives.
  destruct (_slurm_partition self), (_slurm_account self); cbn;
    repeat (constructor; [eexists; reflexivity|]); constructor.
Qed.

Lemma last_two {A} (x : A) l a b d : last (x :: l ++ [a; b]) d = b.
Proof.
  change (x :: l ++ [a; b])%list with ((x :: l) ++ [a; b])%list.
  change [a; b] with ([a] ++ [b])%list. rewrite app_assoc. apply last_last.
Qed.

(** The two shapes of a generator's output: the directives followed by the
    command line and the exit line, or the directives alone when the
    generator raised. *)
Lemma writes_script_done f name self job_name cmd :
  writes_script f name
    (Ret name, (OpenW f :: snd (_write_slurm_directives self f job_name)
                  ++ [FWrite f cmd; FWrite f ("exit $?" ++ nl)])%list).
Proof.
  split; cbn [fst snd].
  - eexists. split; [reflexivity|]. apply Forall_app. split.
    + apply directives_only_write.
    + repeat constructor; eexists; reflexivity.
  - intros n [= <-]. split; [reflexivity | apply last_two].
Qed.

Lemma writes_script_aborted f name self job_name e :
  writes_script f name
    (Raise e, OpenW f :: snd (_write_slurm_directives self f job_name)).
Proof.
  split; cbn [fst snd].
  - eexists. split; [reflexivity | apply directives_only_write].
  - discriminate.
Qed.

Ltac script_shape := first [apply writes_script_aborted | apply writes_script_done].

Lemma write_coembedding_dirs_ret f tuples :
  write_coembedding_dirs f tuples
  = (Ret tt, map (fun x => FWrite f (tup2 x ++ " ")) tuples).
Proof.
  induction tuples as [|x rest IH]; [reflexivity|].
  cbn [write_coembedding_dirs map]. cbv [bindW fwrite emitW]. rewrite IH. reflexivity.
Qed.

Lemma download_images_script self :
  writes_script (join (_outdir self) "imagedownloadjob.sh") "imagedownloadjob.sh"
    (_generate_download_images_command self).
Proof.
  unfold _generate_download_images_command, with_open.
  cbv [bindW emitW fwrite retW]. rewrite write_slurm_directives_ret.
  unfold input_arg, provenance_arg, raiseW, retW.
  destruct (_cm4ai_image self), (_samples self), (_unique self), (_provenance self);
    cbn [app fst snd]; rewrite ?app_nil_r; script_shape.
Qed.

Lemma download_ppi_script self :
  writes_script (join (_outdir self) "ppidownloadjob.sh") "ppidownloadjob.sh"
    (_generate_download_ppi_command self).
Proof.
  unfold _generate_download_ppi_command, with_open.
  cbv [bindW emitW fwrite retW]. rewrite write_slurm_directives_ret.
  unfold input_arg, provenance_arg, raiseW, retW.
  destruct (_cm4ai_image self), (_samples self), (_unique self), (_provenance self);
    cbn [app fst snd]; rewrite ?app_nil_r; script_shape.
Qed.

Lemma embed_ppi_script self :
  writes_script (join (_outdir self) "ppiembedjob.sh") "ppiembedjob.sh"
    (_generate_embed_ppi_command self).
Proof.
  unfold _generate_embed_ppi_command, with_open.
  cbv [bindW emitW fwrite retW]. rewrite write_slurm_directives_ret.
  cbn [app fst snd]. rewrite ?app_nil_r. script_shape.
Qed.

Lemma embed_image_script self fold :
  writes_script (join (_outdir self) ("imageembedjob" ++ str fold ++ ".sh"))
    ("imageembedjob" ++ str fold ++ ".sh")
    (_generate_embed_image_command self fold).
Proof.
  destruct (index_cases (_image_coembed_tuples self) (fold - 1)) as [[x Hx]|Hx].
  - rewrite (generate_embed_image_found self fold x Hx). script_shape.
  - rewrite (generate_embed_image_missing self fold Hx). script_shape.
Qed.

Lemma coembed_script self fold :
  writes_script (join (_outdir self) ("coembeddingjob" ++ str fold ++ ".sh"))
    ("coembeddingjob" ++ str fold ++ ".sh")
    (_generate_coembed_command self fold).
Proof.
  destruct (index_cases (_image_coembed_tuples self) (fold - 1)) as [[x Hx]|Hx].
  - rewrite (generate_coembed_found self fold x Hx). script_shape.
  - rewrite (generate_coembed_missing self fold Hx). script_shape.
Qed.

(** The hierarchy script: the directives, the command with one directory
    per tuple, the exit line. *)
Lemma generate_hierarchy_ret self :
  let f := join (_outdir self) "hierarchyjob.sh" in
  _generate_hierarchy_command self
  = (Ret "hierarchyjob.sh",
     (OpenW f :: snd (_write_slurm_directives self f "hierarchy")
        ++ FWrite f ("cellmaps_generate_hierarchycmd.py " ++ _hierarchy_dir self ++
                     " --coembedding_dirs ")
        :: map (fun x => FWrite f (tup2 x ++ " ")) (_image_coembed_tuples self)
        ++ [FWrite f ("-vvvv" ++ nl); FWrite f ("exit $?" ++ nl)])%list).
Proof.
  intros f. unfold _generate_hierarchy_command, with_open. fold f.
  cbv [bindW emitW fwrite retW]. rewrite write_slurm_directives_ret.
  rewrite write_coembedding_dirs_ret. cbn [app fst snd]. rewrite ?app_nil_r.
  reflexivity.
Qed.

Lemma hierarchy_script self :
  writes_script (join (_outdir self) "hierarchyjob.sh") "hierarchyjob.sh"
    (_generate_hierarchy_command self).
Proof.
  rewrite generate_hierarchy_ret. split; cbn [fst snd].
  - eexists. split; [reflexivity|]. apply Forall_app. split.
    + apply directives_only_write.
    + constructor; [eexists; reflexivity|]. apply Forall_app. split.
      * apply Forall_forall. intros e He. apply in_map_iff in He as (x & <- & _).
        eexists; reflexivity.
      * repeat constructor; eexists; reflexivity.
  - intros n [= <-]. split; [reflexivity|].
    rewrite !app_comm_cons, !app_assoc.
    change [FWrite (join (_outdir self) "hierarchyjob.sh") ("-vvvv" ++ nl);
            FWrite (join (_outdir self) "hierarchyjob.sh") ("exit $?" ++ nl)]
      with ([FWrite (join (_outdir self) "hierarchyjob.sh") ("-vvvv" ++ nl)]
              ++ [FWrite (join (_outdir self) "hierarchyjob.sh") ("exit $?" ++ nl)])%list.
    rewrite !app_assoc. apply last_last.
Qed.

(** X6.  Each of the six script generators opens its own script under the
    output root once and writes to that file only; when it returns, it
    returns the name of that script, and the last line written is
    [exit $?], which hands on the exit code of the command. *)
Theorem generators_write_their_own_script self fold :
  writes_script (join (_outdir self) "imagedownloadjob.sh") "imagedownloadjob.sh"
    (_generate_download_images_command self)
  /\ writes_script (join (_outdir self) "ppidownloadjob.sh") "ppidownloadjob.sh"
       (_generate_download_ppi_command self)
  /\ writes_script (join (_outdir self) "ppiembedjob.sh") "ppiembedjob.sh"
       (_generate_embed_ppi_command self)
  /\ writes_script (join (_outdir self) ("imageembedjob" ++ str fold ++ ".sh"))
       ("imageembedjob" ++ str fold ++ ".sh")
       (_generate_embed_image_command self fold)
  /\ writes_script (join (_outdir self) ("coembeddingjob" ++ str fold ++ ".sh"))
       ("coembeddingjob" ++ str fold ++ ".sh")
       (_generate_coembed_command self fold)
  /\ writes_script (join (_outdir self) "hierarchyjob.sh") "hierarchyjob.sh"
       (_generate_hierarchy_command self).
Proof.
  split; [apply download_images_script|].
  split; [apply download_ppi_script|].
  split; [apply embed_ppi_script|].
  split; [apply embed_image_script|].
  split; [apply coembed_script | apply hierarchy_script].
Qed.

(** X16.  In every job script the directive [--output=%x.%j.out] is not
    followed by a newline: whatever the partition and the account, the next
    directive starts on the same line, directly after [.out]. *)
Theorem output_directive_shares_its_line self out job_name :
  exists rest,
    text_written out (snd (_write_slurm_directives self out job_name))
    = "#!/bin/bash" ++ nl ++ nl ++
      "#SBATCH --job-name=" ++ job_name ++ nl ++
      "#SBATCH --chdir=" ++ _outdir self ++ nl ++
      "#SBATCH --output=%x.%j.out#SBATCH --" ++ rest.
Proof.
  unfold _write_slurm_directives. cbv [bindW fwrite emitW retW].
  destruct (_slurm_partition self), (_slurm_account self);
    cbn [fst snd app text_written]; rewrite !String.eqb_refl, !append_assoc;
    cbn [append]; eexists; reflexivity.
Qed.

End Generators.

(** ** The batch-scheduler strategy: [run()] for any list of folds *)

Section BatchRun.
Import SLURMPipelineRunner.

Lemma opened_app t1 t2 : opened (t1 ++ t2) = (opened t1 ++ opened t2)%list.
Proof.
  induction t1 as [|e t1 IH]; [reflexivity|]. destruct e; simpl; rewrite ?IH; reflexivity.
Qed.

Lemma script_trace f name (c : W string) :
  writes_script f name c ->
  opened (snd c) = [f] /\ forallb is_file_event (snd c) = true.
Proof.
  intros [(body & -> & Hbody) _]. cbn [opened forallb is_file_event andb].
  induction Hbody as [|e body (text & ->) _ [IHo IHf]]; [auto|].
  cbn [opened forallb is_file_event andb]. auto.
Qed.

(** The fold loop of [run]: with every fold in range it writes the two
    scripts of each fold and collects the job names; otherwise it raises
    [IndexError]. *)
Lemma submit_folds_spec self f tuples names :
  if forallb (fun x => in_range (List.length (_image_coembed_tuples self)) (tup0 x)) tuples
  then exists tr,
      submit_folds self f tuples names
      = (Ret (names ++ coembed_job_variables tuples)%list, tr)
      /\ opened tr = map (join (_outdir self)) (flat_map fold_scripts (map tup0 tuples))
      /\ forallb is_file_event tr = true
  else fst (submit_folds self f tuples names) = Raise IndexError.
Proof.
  revert names. induction tuples as [|x rest IH]; intros names.
  - cbn. exists []. rewrite app_nil_r. auto.
  - cbn [forallb submit_folds].
    destruct (in_range (List.length (_image_coembed_tuples self)) (tup0 x)) eqn:Hx.
    + destruct (index_in_range _ _ Hx) as (y & _ & Hy). cbn [andb].
      specialize (IH (names ++ [("$" ++ embed_job_name x)%string])%list).
      assert (Hi : exists ti,
                 _generate_embed_image_command self (tup0 x)
                 = (Ret ("imageembedjob" ++ str (tup0 x) ++ ".sh"), ti)
                 /\ opened ti = [join (_outdir self) ("imageembedjob" ++ str (tup0 x) ++ ".sh")]
                 /\ forallb is_file_event ti = true).
      { pose proof (script_trace _ _ _ (embed_image_script self (tup0 x))) as Hs.
        rewrite (generate_embed_image_found self _ _ Hy) in Hs |- *. eauto. }
      assert (Hc : exists tc,
                 _generate_coembed_command self (tup0 x)
                 = (Ret ("coembeddingjob" ++ str (tup0 x) ++ ".sh"), tc)
                 /\ opened tc = [join (_outdir self) ("coembeddingjob" ++ str (tup0 x) ++ ".sh")]
                 /\ forallb is_file_event tc = true).
      { pose proof (script_trace _ _ _ (coembed_script self (tup0 x))) as Hs.
        rewrite (generate_coembed_found self _ _ Hy) in Hs |- *. eauto. }
      destruct Hi as (ti & Hi & Oi & Fi). destruct Hc as (tc & Hc & Oc & Fc).
      cbv [bindW fwrite emitW]. rewrite Hi, Hc.
      destruct (forallb _ rest).
      * destruct IH as (tr & -> & Ho & Hf). eexists. split; [|split].
        -- unfold coembed_job_variables. cbn [map]. rewrite <- app_assoc. reflexivity.
        -- rewrite !opened_app, Oi, Oc, Ho. reflexivity.
        -- rewrite !forallb_app, Fi, Fc, Hf. reflexivity.
      * destruct (submit_folds self f rest _) as [r tr]. cbn [fst] in IH. subst r.
        reflexivity.
    + cbn [andb]. rewrite (fst_bindW_ret _ _ _ _ (fwrite_ret _ _)).
      apply fst_bindW_raise.
      rewrite (generate_embed_image_missing self _ (index_not_in_range _ _ Hx)).
      reflexivity.
Qed.

Lemma last_app_one {A} (l : list A) x d : last (l ++ [x]) d = x.
Proof. apply last_last. Qed.

(** What [run] does when the inputs of the download scripts are there. *)
Lemma run_spec self :
  inputs_given (_cm4ai_image self) (_samples self) (_unique self) (_provenance self) ->
  let tuples := _image_coembed_tuples self in
  if forallb (fun x => in_range (List.length tuples) (tup0 x)) tuples
  then exists tr,
      run self = (Ret PyNone, tr)
      /\ opened tr = map (join (_outdir self)) (script_names (map tup0 tuples))
      /\ forallb is_file_event tr = true
      /\ last tr (OpenW EmptyString)
         = FWrite (slurmjobfile self)
             ("hierarchy_job=$(sbatch --dependency=afterok:" ++
              sjoin ":" ("$ppi_embed_job" :: coembed_job_variables tuples) ++
              " " ++ "hierarchyjob.sh" ++ ")" ++ nl ++ nl)
  else fst (run self) = Raise IndexError.
Proof.
  intros Hin tuples.
  destruct (generate_download_images_ret self Hin) as [t1 H1].
  destruct (generate_download_ppi_ret self Hin) as [t2 H2].
  destruct (generate_embed_ppi_ret self) as [t3 H3].
  pose proof (script_trace _ _ _ (download_images_script self)) as [O1 F1].
  pose proof (script_trace _ _ _ (download_ppi_script self)) as [O2 F2].
  pose proof (script_trace _ _ _ (embed_ppi_script self)) as [O3 F3].
  pose proof (script_trace _ _ _ (hierarchy_script self)) as [O4 F4].
  rewrite H1 in O1, F1. rewrite H2 in O2, F2. rewrite H3 in O3, F3.
  assert (H4 : exists t4, _generate_hierarchy_command self = (Ret "hierarchyjob.sh", t4))
    by (rewrite generate_hierarchy_ret; eauto).
  destruct H4 as [t4 H4]. rewrite H4 in O4, F4. cbn [fst snd] in *.
  pose proof (submit_folds_spec self (slurmjobfile self) tuples ["$ppi_embed_job"]) as Hloop.
  fold tuples in Hloop.
  destruct (forallb _ tuples).
  - destruct Hloop as (tl & Hl & Ol & Fl).
    unfold run, with_open. cbv [bindW fwrite emitW retW].
    rewrite H1, H2, H3. fold tuples. rewrite Hl, H4.
    eexists. split; [reflexivity|]. split; [|split].
    + rewrite !opened_app, O1, O2, O3, Ol, O4.
      unfold script_names. rewrite !map_app. cbn [opened app map].
      rewrite app_nil_r. reflexivity.
    + rewrite !forallb_app, F1, F2, F3, Fl, F4. reflexivity.
    + rewrite app_nil_r, !app_assoc. apply last_last.
  - unfold run, with_open.
    apply fst_bindW_raise.
    rewrite (fst_bindW_ret _ _ tt [OpenW (slurmjobfile self)] eq_refl).
    rewrite (fst_bindW_ret _ _ _ _ (fwrite_ret _ _)).
    rewrite (fst_bindW_ret _ _ _ _ (fwrite_ret _ _)).
    rewrite (fst_bindW_ret _ _ _ _ H1).
    rewrite (fst_bindW_ret _ _ _ _ (fwrite_ret _ _)).
    rewrite (fst_bindW_ret _ _ _ _ (fwrite_ret _ _)).
    rewrite (fst_bindW_ret _ _ _ _ H2).
    rewrite (fst_bindW_ret _ _ _ _ (fwrite_ret _ _)).
    rewrite (fst_bindW_ret _ _ _ _ (fwrite_ret _ _)).
    rewrite (fst_bindW_ret _ _ _ _ H3).
    rewrite (fst_bindW_ret _ _ _ _ (fwrite_ret _ _)).
    apply fst_bindW_raise. exact Hloop.
Qed.

End BatchRun.

Section BatchRunClaims.
Import SLURMPipelineRunner.

(** X7.  With the inputs of the download scripts given, [run()] of the
    batch-scheduler strategy returns [None] exactly when [fold - 1] is a
    valid index of the tuple list for every fold of the list (all of
    [[1, ..., n]], but also 0 and negative folds down to [-n + 1]);
    otherwise it raises [IndexError]. *)
Theorem run_returns_iff_folds_in_range self :
  inputs_given (_cm4ai_image self) (_samples self) (_unique self) (_provenance self) ->
  fst (run self)
  = if forallb (fun x => in_range (List.length (_image_coembed_tuples self)) (tup0 x))
         (_image_coembed_tuples self)
    then Ret PyNone else Raise IndexError.
Proof.
  intros Hin. pose proof (run_spec self Hin) as Hspec. cbv zeta in Hspec.
  destruct (forallb _ (_image_coembed_tuples self)); [|exact Hspec].
  destruct Hspec as (tr & -> & _). reflexivity.
Qed.

(** X8.  With the inputs of the download scripts given and for any list
    of folds that are all in range, [run()] opens the driver script, the
    three scripts of the downloads and of the PPI embedding, the two
    scripts of every fold in the order of the list, and the hierarchy
    script: five files plus two per fold.  It does nothing but open and
    write files.  Its last write submits the hierarchy job, with a
    dependency clause that starts with [$ppi_embed_job]. *)
Theorem run_writes_scripts_for_all_folds self :
  inputs_given (_cm4ai_image self) (_samples self) (_unique self) (_provenance self) ->
  forallb (fun x => in_range (List.length (_image_coembed_tuples self)) (tup0 x))
    (_image_coembed_tuples self) = true ->
  let tr := snd (run self) in
  opened tr = map (join (_outdir self)) (script_names (map tup0 (_image_coembed_tuples self)))
  /\ List.length (opened tr) = (5 + 2 * List.length (_image_coembed_tuples self))%nat
  /\ forallb is_file_event tr = true
  /\ exists rest,
      last tr (OpenW EmptyString)
      = FWrite (slurmjobfile self)
          ("hierarchy_job=$(sbatch --dependency=afterok:$ppi_embed_job" ++
           rest ++ " hierarchyjob.sh)" ++ nl ++ nl).
Proof.
  intros Hin Hrange tr. subst tr.
  pose proof (run_spec self Hin) as Hspec. cbv zeta in Hspec. rewrite Hrange in Hspec.
  destruct Hspec as (tr & -> & Ho & Hf & Hl). cbn [snd].
  split; [exact Ho|]. split; [|split; [exact Hf|]].
  - rewrite Ho, length_map. unfold script_names. rewrite !length_app. cbn [List.length].
    assert (Hlen : forall l : list Z,
               List.length (flat_map fold_scripts l) = (2 * List.length l)%nat).
    { induction l as [|a l IH]; [reflexivity|]. cbn [flat_map fold_scripts app List.length].
      rewrite IH. lia. }
    rewrite Hlen, length_map. lia.
  - rewrite Hl.
    destruct (coembed_job_variables (_image_coembed_tuples self)) as [|v vs].
    + exists EmptyString. reflexivity.
    + exists (":" ++ sjoin ":" (v :: vs)). cbn [sjoin]. rewrite !append_assoc. reflexivity.
Qed.

Lemma length_append (a b : string) :
  String.length (a ++ b) = (String.length a + String.length b)%nat.
Proof. induction a as [|c a IH]; simpl; congruence. Qed.

Lemma append_inj_r (a b c : string) : a ++ c = b ++ c -> a = b.
Proof.
  revert b. induction a as [|x a IH]; intros [|y b] Heq.
  - reflexivity.
  - apply (f_equal String.length) in Heq. simpl in Heq. rewrite length_append in Heq. lia.
  - apply (f_equal String.length) in Heq. simpl in Heq. rewrite length_append in Heq. lia.
  - simpl in Heq. injection Heq as -> Heq. f_equal. auto.
Qed.

(** The script names of different folds differ, and differ from the names
    of the scripts without a fold. *)
Lemma script_names_nodup folds : NoDup folds -> NoDup (script_names folds).
Proof.
  intros Hnd. unfold script_names.
  assert (Hfold : forall n f, In n (fold_scripts f) ->
            n = "imageembedjob" ++ str f ++ ".sh" \/ n = "coembeddingjob" ++ str f ++ ".sh").
  { intros n f [<-|[<-|[]]]; auto. }
  assert (Hinj : forall f g n, In n (fold_scripts f) -> In n (fold_scripts g) -> f = g).
  { intros f g n Hf Hg.
    destruct (Hfold _ _ Hf) as [->| ->]; destruct (Hfold _ _ Hg) as [Heq|Heq];
      try (simpl in Heq; discriminate);
      apply append_inj_l, append_inj_r in Heq; apply str_inj; exact Heq. }
  assert (Hfolds : NoDup (flat_map fold_scripts folds)).
  { induction Hnd as [|f rest Hnotin Hrest IH]; [constructor|].
    cbn [flat_map]. apply NoDup_app; [| exact IH |].
    - unfold fold_scripts. constructor; [|constructor; [intros []|constructor]].
      intros [Heq|[]]. simpl in Heq. discriminate.
    - intros n Hf Hin. apply in_flat_map in Hin as (g & Hg & Hn).
      rewrite (Hinj _ _ _ Hf Hn) in Hnotin. contradiction. }
  apply NoDup_app; [| apply NoDup_app; [exact Hfolds | repeat constructor; intros [] |] |].
  - repeat constructor; simpl; intuition discriminate.
  - intros n Hn [<-|[]]. apply in_flat_map in Hn as (f & _ & Hn).
    destruct (Hfold _ _ Hn) as [Heq|Heq]; simpl in Heq; discriminate.
  - intros n Hfixed Hn. apply in_app_or in Hn as [Hn|[<-|[]]].
    + apply in_flat_map in Hn as (f & _ & Hn).
      destruct (Hfold _ _ Hn) as [-> | ->]; simpl in Hfixed;
        repeat (destruct Hfixed as [Heq|Hfixed]; [simpl in Heq; discriminate|]);
        destruct Hfixed.
    + simpl in Hfixed. intuition discriminate.
Qed.

Lemma script_names_relative folds :
  Forall (fun n => startswith n sep = false) (script_names folds).
Proof.
  unfold script_names. apply Forall_app. split; [repeat constructor|].
  apply Forall_app. split; [|repeat constructor].
  apply Forall_forall. intros n Hn. apply in_flat_map in Hn as (f & _ & [<-|[<-|[]]]);
    reflexivity.
Qed.

(** X9.  When the folds of the list are all in range and different from
    each other, the files that [run()] opens are different from each
    other: no script is written over another one. *)
Theorem distinct_folds_give_distinct_scripts self :
  inputs_given (_cm4ai_image self) (_samples self) (_unique self) (_provenance self) ->
  forallb (fun x => in_range (List.length (_image_coembed_tuples self)) (tup0 x))
    (_image_coembed_tuples self) = true ->
  NoDup (map tup0 (_image_coembed_tuples self)) ->
  NoDup (opened (snd (run self))).
Proof.
  intros Hin Hrange Hnd.
  pose proof (run_spec self Hin) as Hspec. cbv zeta in Hspec. rewrite Hrange in Hspec.
  destruct Hspec as (tr & -> & Ho & _). cbn [snd]. rewrite Ho.
  apply NoDup_map_NoDup_ForallPairs; [|apply script_names_nodup; exact Hnd].
  pose proof (script_names_relative (map tup0 (_image_coembed_tuples self))) as Hrel.
  rewrite Forall_forall in Hrel.
  intros a b Ha Hb. apply join_inj; auto.
Qed.

(** X10.  When one of the inputs of the download scripts is missing,
    [run()] raises [CellmapsPipelineError], but only after it has opened
    the driver script and the image-download script and written the
    directives of the latter; no command line and no other script is
    written.  A missing table (with the sample or the unique list missing
    too) is reported before a missing provenance file. *)
Theorem missing_input_aborts_after_two_files self :
  let driver := slurmjobfile self in
  let script := join (_outdir self) "imagedownloadjob.sh" in
  let written :=
    ([OpenW driver; FWrite driver ("#! /bin/bash" ++ nl ++ nl);
      FWrite driver ("# image download no dependencies" ++ nl); OpenW script]
       ++ snd (_write_slurm_directives self script "imagedownload"))%list in
  (_cm4ai_image self = None -> _samples self = None \/ _unique self = None ->
   run self
   = (Raise (CellmapsPipelineError
               "You must provide cm4ai_table parameter or samples and unque parameters."),
      written))
  /\ (_cm4ai_image self <> None \/ (_samples self <> None /\ _unique self <> None) ->
      _provenance self = None ->
      run self
      = (Raise (CellmapsPipelineError "You must provide provenance parameter"), written)).
Proof.
  intros driver script written. subst written driver script. split.
  - intros Htable Hlists.
    unfold run, with_open, _generate_download_images_command, with_open.
    cbv [bindW fwrite emitW retW]. rewrite write_slurm_directives_ret.
    unfold input_arg, raiseW. rewrite Htable.
    destruct Hlists as [-> | ->]; [|destruct (_samples self)];
      cbn [app fst snd]; rewrite ?app_nil_r; reflexivity.
  - intros Hinputs Hprov.
    unfold run, with_open, _generate_download_images_command, with_open.
    cbv [bindW fwrite emitW retW]. rewrite write_slurm_directives_ret.
    unfold input_arg, provenance_arg, raiseW, retW. rewrite Hprov.
    destruct (_cm4ai_image self); [cbn [app fst snd]; rewrite ?app_nil_r; reflexivity|].
    destruct Hinputs as [Hc|[Hs Hu]]; [congruence|].
    destruct (_samples self); [|congruence]. destruct (_unique self); [|congruence].
    cbn [app fst snd]. rewrite ?app_nil_r. reflexivity.
Qed.

End BatchRunClaims.

(** ** The batch-scheduler strategy: what its arguments are used for *)

Section BatchArguments.
Context `{constants.t} `{Host}.
Import SLURMPipelineRunner.

Variables (d : string)
          (cm4ai_apms cm4ai_image samples unique edgelist baitlist model_path
             proteinatlasxml ppi_cutoffs provenance input_data_dict
             slurm_partition slurm_account : option string)
          (fake : option bool).

(** X11.  The scripts of a fold take their directories from the tuple at
    the position that [fold - 1] denotes in the list, whatever fold that
    tuple belongs to: for a fold list where position [fold - 1] holds the
    fold [g], the image-embedding script named after [fold] passes
    [--fold fold] with the image-embedding directory of [g], and the
    co-embedding script named after [fold] uses the two directories of
    [g]. *)
Theorem fold_scripts_use_tuple_at_position (folds : list Z) (fold g : Z) :
  in_range (List.length folds) fold = true ->
  nth_error folds (position (List.length folds) fold) = Some g ->
  exists self,
    __init__ (Some d) cm4ai_apms cm4ai_image samples unique edgelist baitlist
      model_path proteinatlasxml ppi_cutoffs fake provenance (Some folds)
      input_data_dict slurm_partition slurm_account = Ret self
    /\ let fi := join (abspath d) ("imageembedjob" ++ str fold ++ ".sh") in
       let fc := join (abspath d) ("coembeddingjob" ++ str fold ++ ".sh") in
       _generate_embed_image_command self fold
       = (Ret ("imageembedjob" ++ str fold ++ ".sh"),
          (OpenW fi :: snd (_write_slurm_directives self fi ("imageembed" ++ str fold))
             ++ [FWrite fi ("cellmaps_image_embeddingcmd.py " ++
                            PipelineRunner.image_embed_dir (abspath d) g ++
                            " --fold " ++ str fold ++ " --inputdir " ++
                            _image_dir self ++ " " ++
                            (if is_True fake then "--fake_embedder" else EmptyString)
                            ++ " -vvvv" ++ nl);
                 FWrite fi ("exit $?" ++ nl)])%list)
       /\ _generate_coembed_command self fold
          = (Ret ("coembeddingjob" ++ str fold ++ ".sh"),
             (OpenW fc :: snd (_write_slurm_directives self fc ("coembedding" ++ str fold))
                ++ [FWrite fc ("cellmaps_coembeddingcmd.py " ++
                               PipelineRunner.co_embed_dir (abspath d) g ++
                               " --ppi_embeddingdir " ++ _ppi_embed_dir self ++
                               " --image_embeddingdir " ++
                               PipelineRunner.image_embed_dir (abspath d) g ++ " " ++
                               (if is_True fake then "--fake_embedding" else EmptyString)
                               ++ " -vvvv" ++ nl);
                    FWrite fc ("exit $?" ++ nl)])%list).
Proof.
  intros Hrange Hg. eexists. split; [reflexivity|].
  intros fi fc.
  set (mk := fun fold_val : Z =>
               (fold_val, PipelineRunner.image_embed_dir (abspath d) fold_val,
                 PipelineRunner.co_embed_dir (abspath d) fold_val)).
  assert (Hidx : index (map mk folds) (fold - 1) = Ret (mk g)).
  { rewrite <- (length_map mk) in Hrange, Hg.
    destruct (index_in_range (map mk folds) fold Hrange) as (x & Hx & ->).
    rewrite nth_error_map, Hg in Hx. injection Hx as <-. reflexivity. }
  split.
  - match goal with
    | |- _generate_embed_image_command ?s _ = _ =>
        exact (generate_embed_image_found s fold _ Hidx)
    end.
  - match goal with
    | |- _generate_coembed_command ?s _ = _ =>
        exact (generate_coembed_found s fold _ Hidx)
    end.
Qed.

(** Runners that agree on what the generators read write the same
    scripts. *)
Lemma run_ext s1 s2 :
  _outdir s1 = _outdir s2 -> _cm4ai_image s1 = _cm4ai_image s2 ->
  _samples s1 = _samples s2 -> _unique s1 = _unique s2 -> _fake s1 = _fake s2 ->
  _provenance s1 = _provenance s2 -> _slurm_partition s1 = _slurm_partition s2 ->
  _slurm_account s1 = _slurm_account s2 -> _image_dir s1 = _image_dir s2 ->
  _ppi_dir s1 = _ppi_dir s2 -> _ppi_embed_dir s1 = _ppi_embed_dir s2 ->
  _image_coembed_tuples s1 = _image_coembed_tuples s2 ->
  _hierarchy_dir s1 = _hierarchy_dir s2 ->
  run s1 = run s2.
Proof.
  destruct s1, s2. cbn. intros; subst.
  match goal with
  | |- run ?a = run ?b =>
      assert (Hi : forall fold, _generate_embed_image_command a fold
                                = _generate_embed_image_command b fold)
        by reflexivity;
      assert (Hc : forall fold, _generate_coembed_command a fold
                                = _generate_coembed_command b fold)
        by reflexivity;
      assert (Hloop : forall f tuples names,
                 submit_folds a f tuples names = submit_folds b f tuples names)
  end.
  { intros f tuples. induction tuples as [|x rest IH]; intros names; [reflexivity|].
    cbn [submit_folds]. rewrite Hi, Hc, IH. reflexivity. }
  unfold run, with_open. cbn beta. cbn [_image_coembed_tuples]. rewrite Hloop.
  reflexivity.
Qed.

(** X12.  The arguments [cm4ai_apms], [edgelist], [baitlist],
    [model_path], [proteinatlasxml], [ppi_cutoffs] and [input_data_dict]
    of the batch-scheduler runner have no influence on what its [run()]
    writes or returns: no generated script passes them on. *)
Theorem unused_arguments_do_not_reach_scripts (outdir : option string)
  (fold : option (list Z))
  (cm4ai_apms' edgelist' baitlist' model_path' proteinatlasxml' ppi_cutoffs'
     input_data_dict' : option string) :
  bindO (__init__ outdir cm4ai_apms cm4ai_image samples unique edgelist baitlist
           model_path proteinatlasxml ppi_cutoffs fake provenance fold
           input_data_dict slurm_partition slurm_account)
    (fun self => Ret (run self))
  = bindO (__init__ outdir cm4ai_apms' cm4ai_image samples unique edgelist' baitlist'
             model_path' proteinatlasxml' ppi_cutoffs' fake provenance fold
             input_data_dict' slurm_partition slurm_account)
      (fun self => Ret (run self)).
Proof.
  destruct outdir as [o|]; [|reflexivity]. destruct fold as [folds|]; [|reflexivity].
  cbn [__init__ PipelineRunner.__init__ PipelineRunner._get_image_coembed_tuples bindO].
  f_equal. apply run_ext; reflexivity.
Qed.

End BatchArguments.

(** ** The driver around a strategy *)

Section DriverRun.
Context `{Host}.

(** X13.  [CellmapsPipeline.run] on a constructed driver: the output root
    is created, with mode 0o755, exactly when it is not yet a directory;
    the start marker is written next, once, before the runner is called;
    the runner starts on the file system that this leaves, and the finish
    marker is written on the file system the runner leaves. *)
Theorem start_marker_precedes_the_runner (now : Z) (d : string)
  (runner : M event pyvalue) (input_data_dict : option string)
  (self : CellmapsPipeline.t) (fs : FS) :
  CellmapsPipeline.__init__ now (Some d) runner input_data_dict = Ret self ->
  let root := abspath d in
  let prepared := if isdir root fs then fs else makedirs root 493 fs in
  let started := write_task_start_json root now input_data_dict pipeline_version
                   prepared in
  let '(r, rtr, fs2) := runner started in
  CellmapsPipeline.run self fs
  = (r,
     ((if isdir root fs then [] else [Makedirs root 493])
        ++ WriteStart root now input_data_dict pipeline_version
        :: map Strategy rtr
        ++ [WriteFinish root now (CellmapsPipeline.exit_status r)])%list,
     write_task_finish_json root now (CellmapsPipeline.exit_status r) fs2).
Proof.
  intros Hinit. injection Hinit as <-. intros root prepared started.
  destruct (runner started) as [[r rtr] fs2] eqn:Hrun.
  subst started prepared root.
  cbv [CellmapsPipeline.run CellmapsPipeline._outdir CellmapsPipeline._start_time
         CellmapsPipeline._runner CellmapsPipeline._input_data_dict
         bindM os_path_isdir try_finally lift_strategy retM
         CellmapsPipeline.os_makedirs CellmapsPipeline.logutils_write_task_start_json
         CellmapsPipeline.logutils_write_task_finish_json].
  destruct (isdir (abspath d) fs); rewrite Hrun; reflexivity.
Qed.

(** X14.  The driver around the batch-scheduler runner: when the inputs of
    the download scripts are given, [run()] returns [None] and records
    [None] as the status of the finish marker if every fold indexes the
    fold list, and otherwise raises [IndexError] and records 99; either
    way the finish marker is written once. *)
Theorem batch_run_records_none_or_99 (write_files : list event -> FS -> FS)
  (now : Z) (outdir : option string) (runner : SLURMPipelineRunner.t)
  (input_data_dict : option string) (self : CellmapsPipeline.t) (fs : FS) :
  CellmapsPipeline.__init__ now outdir (batch_runner write_files runner)
    input_data_dict = Ret self ->
  inputs_given (SLURMPipelineRunner._cm4ai_image runner)
    (SLURMPipelineRunner._samples runner) (SLURMPipelineRunner._unique runner)
    (SLURMPipelineRunner._provenance runner) ->
  let tuples := SLURMPipelineRunner._image_coembed_tuples runner in
  let ok := forallb (fun x => in_range (List.length tuples) (tup0 x)) tuples in
  let '(r, tr, _) := CellmapsPipeline.run self fs in
  r = (if ok then Ret PyNone else Raise IndexError)
  /\ finish_markers tr = [if ok then PyNone else PyInt 99].
Proof.
  intros Hinit Hin tuples ok.
  destruct outdir as [d|]; [|discriminate]. injection Hinit as <-.
  destruct (run_trace (abspath d) now (batch_runner write_files runner)
              input_data_dict fs)
    as (fs1 & r & rtr & fs2 & pre & fs3 & Hrun & -> & Hpre).
  rewrite !finish_markers_app, finish_markers_strategy, Hpre. cbn [app finish_markers].
  assert (Hr : r = if ok then Ret PyNone else Raise IndexError).
  { unfold batch_runner in Hrun. pose proof (run_spec runner Hin) as Hspec.
    cbn zeta in Hspec. fold tuples in Hspec. fold ok in Hspec.
    destruct (SLURMPipelineRunner.run runner) as [r0 tr0].
    injection Hrun as <- _ _.
    destruct ok.
    - destruct Hspec as (tr1 & Heq & _). congruence.
    - exact Hspec. }
  split; [exact Hr|]. rewrite Hr. destruct ok; reflexivity.
Qed.

End DriverRun.

(** ** The further properties at the example configuration *)

(** X2 on an empty output root with folds 1 and 2: eight workers are
    invoked, nothing is skipped. *)
Lemma success_resolves_every_stage_witness :
  Example.on_programmatic (Example.host Example.all_succeed) (Some [1; 2])
    (fun self =>
       exists tr fs1,
         @ProgrammaticPipelineRunner.run (Example.host Example.all_succeed) self []
         = (Ret 0, tr, fs1)
         /\ (List.length (invoked tr) + skips tr)%nat = 8%nat).
Proof.
  build_runner.
  match goal with
  | |- context [@ProgrammaticPipelineRunner.run ?H ?s ?fs] =>
      destruct (@ProgrammaticPipelineRunner.run H s fs) as [[res tr] fs1] eqn:Hrun;
      assert (Hres : res = Ret 0)
        by (vm_compute in Hrun; injection Hrun as <- _ _; reflexivity);
      subst res;
      exists tr, fs1; split;
      [reflexivity | exact (@success_resolves_every_stage H s fs 0 tr fs1 Hrun)]
  end.
Defined.

(** X3 at a run where the PPI embedding raises. *)
Lemma worker_exception_propagates_witness :
  Example.on_programmatic (Example.host Example.ppi_embed_raises) (Some [1])
    (fun self =>
       exists res tr fs1,
         @ProgrammaticPipelineRunner.run (Example.host Example.ppi_embed_raises) self []
         = (res, tr, fs1)
         /\ In (Invoke (CellMapsPPIEmbedder "/out/2.ppi_embedding" "/out/1.ppi_download")
                  (Raise (OtherError "edge list not found"))) tr
         /\ res = Raise (OtherError "edge list not found")).
Proof.
  build_runner.
  match goal with
  | |- context [@ProgrammaticPipelineRunner.run ?H ?s ?fs] =>
      destruct (@ProgrammaticPipelineRunner.run H s fs) as [[res tr] fs1] eqn:Hrun;
      pose proof (@worker_exception_propagates H s fs res tr fs1
                    (CellMapsPPIEmbedder "/out/2.ppi_embedding" "/out/1.ppi_download")
                    (OtherError "edge list not found") Hrun) as Hraise
  end.
  exists res, tr, fs1. split; [reflexivity|].
  assert (Hin : In (Invoke (CellMapsPPIEmbedder "/out/2.ppi_embedding" "/out/1.ppi_download")
                      (Raise (OtherError "edge list not found"))) tr).
  { vm_compute in Hrun. injection Hrun as <- <- <-. simpl. auto. }
  split; [exact Hin | exact (Hraise Hin)].
Defined.

(** X15 on a host where the sample list cannot be read. *)
Lemma generator_exception_precedes_every_stage_witness :
  Example.on_programmatic Example.unreadable_samples (Some [1])
    (fun self =>
       fst (@ProgrammaticPipelineRunner.run Example.unreadable_samples self [])
       = (Raise (OtherError "samples not readable"), [])).
Proof.
  build_runner.
  match goal with
  | |- context [@ProgrammaticPipelineRunner.run ?H ?s ?fs] =>
      exact (@generator_exception_precedes_every_stage H s fs
               (OtherError "samples not readable") eq_refl eq_refl)
  end.
Defined.

(** X4 at a run with folds 1 and 2 where the image embedder of fold 2
    returns 3. *)
Lemma image_embed_failure_is_type_error_witness :
  Example.on_programmatic (Example.host Example.image_embed2_fails) (Some [1; 2])
    (fun self =>
       exists res tr fs1,
         @ProgrammaticPipelineRunner.run (Example.host Example.image_embed2_fails) self []
         = (res, tr, fs1)
         /\ In (Invoke (CellmapsImageEmbedder "/out/2.image_embedding_fold2"
                          "/out/1.image_download" 2 true) (Ret 3)) tr
         /\ res = Raise TypeError).
Proof.
  build_runner.
  match goal with
  | |- context [@ProgrammaticPipelineRunner.run ?H ?s ?fs] =>
      destruct (@ProgrammaticPipelineRunner.run H s fs) as [[res tr] fs1] eqn:Hrun;
      pose proof (@image_embed_failure_is_type_error H s fs res tr fs1
                    (CellmapsImageEmbedder "/out/2.image_embedding_fold2"
                       "/out/1.image_download" 2 true) 3 Hrun) as Hraise
  end.
  exists res, tr, fs1. split; [reflexivity|].
  assert (Hin : In (Invoke (CellmapsImageEmbedder "/out/2.image_embedding_fold2"
                              "/out/1.image_download" 2 true) (Ret 3)) tr).
  { vm_compute in Hrun. injection Hrun as <- <- <-. simpl. auto 8. }
  split; [exact Hin | apply (Hraise Hin); [lia | reflexivity]].
Defined.

(** X5 at a run with folds 1 and 2 where the co-embedding of fold 1
    returns 5: one error log follows, and it holds the code. *)
Lemma failure_ends_the_trace_witness :
  Example.on_programmatic (Example.host Example.coembed1_fails) (Some [1; 2])
    (fun self =>
       skipn 7 (snd (fst (@ProgrammaticPipelineRunner.run
                            (Example.host Example.coembed1_fails) self [])))
       = [LogError ("Coembedding /out/3.coembedding_fold1using /out/2.image_embedding_fold1" ++
                    " had non zero exit code of: 5")]).
Proof.
  build_runner.
  match goal with
  | |- context [@ProgrammaticPipelineRunner.run ?H ?s ?fs] =>
      pose proof (@failure_ends_the_trace H s fs) as Hstop;
      destruct (@ProgrammaticPipelineRunner.run H s fs) as [[res tr] fs1] eqn:Hrun
  end.
  cbn [fst snd] in *.
  rewrite (Hstop (firstn 6 tr)
             (CellmapsCoEmbedder "/out/3.coembedding_fold1" "/out/2.image_embedding_fold1"
                "/out/2.ppi_embedding" true) 5 (skipn 7 tr));
    [reflexivity | | lia].
  vm_compute in Hrun. injection Hrun as <- <- <-. reflexivity.
Defined.

(** X7 at the example configuration: the folds [[1, 2, 3]] and [[0, -1]]
    are in range, the fold list [[1, 5]] is not. *)
Lemma run_returns_iff_folds_in_range_witness :
  Example.on_slurm (Example.host Example.all_succeed) (Some [1; 2; 3])
    (fun self => fst (SLURMPipelineRunner.run self) = Ret PyNone)
  /\ Example.on_slurm (Example.host Example.all_succeed) (Some [0; -1])
       (fun self => fst (SLURMPipelineRunner.run self) = Ret PyNone)
  /\ Example.on_slurm (Example.host Example.all_succeed) (Some [1; 5])
       (fun self => fst (SLURMPipelineRunner.run self) = Raise IndexError).
Proof.
  assert (Hgiven : inputs_given (Some "table.tsv") None None (Some "prov.json"))
    by (split; [discriminate | left; discriminate]).
  split; [|split]; build_runner;
    match goal with
    | |- fst (SLURMPipelineRunner.run ?s) = _ =>
        exact (run_returns_iff_folds_in_range s Hgiven)
    end.
Defined.

(** X8 at the example configuration with folds 1, 2 and 3. *)
Lemma run_writes_scripts_for_all_folds_witness :
  Example.on_slurm (Example.host Example.all_succeed) (Some [1; 2; 3])
    (fun self =>
       opened (snd (SLURMPipelineRunner.run self))
       = ["/out/slurm_cellmaps_job.sh"; "/out/imagedownloadjob.sh";
          "/out/ppidownloadjob.sh"; "/out/ppiembedjob.sh";
          "/out/imageembedjob1.sh"; "/out/coembeddingjob1.sh";
          "/out/imageembedjob2.sh"; "/out/coembeddingjob2.sh";
          "/out/imageembedjob3.sh"; "/out/coembeddingjob3.sh";
          "/out/hierarchyjob.sh"]
       /\ forallb is_file_event (snd (SLURMPipelineRunner.run self)) = true).
Proof.
  assert (Hgiven : inputs_given (Some "table.tsv") None None (Some "prov.json"))
    by (split; [discriminate | left; discriminate]).
  build_runner.
  match goal with
  | |- context [SLURMPipelineRunner.run ?s] =>
      pose proof (run_writes_scripts_for_all_folds s Hgiven eq_refl) as Hw
  end.
  cbv zeta in Hw. destruct Hw as (Ho & _ & Hf & _).
  split; [rewrite Ho; reflexivity | exact Hf].
Defined.

(** X9 at the example configuration with the folds [[3, 1, 2]]. *)
Lemma distinct_folds_give_distinct_scripts_witness :
  Example.on_slurm (Example.host Example.all_succeed) (Some [3; 1; 2])
    (fun self => NoDup (opened (snd (SLURMPipelineRunner.run self)))).
Proof.
  assert (Hgiven : inputs_given (Some "table.tsv") None None (Some "prov.json"))
    by (split; [discriminate | left; discriminate]).
  assert (Hnd : NoDup [3; 1; 2]).
  { repeat constructor; simpl; intuition discriminate. }
  build_runner.
  match goal with
  | |- NoDup (opened (snd (SLURMPipelineRunner.run ?s))) =>
      exact (distinct_folds_give_distinct_scripts s Hgiven eq_refl Hnd)
  end.
Defined.

(** X10 at two calls: samples without the unique list, and a table without
    the provenance file. *)
Lemma missing_input_aborts_after_two_files_witness :
  match @SLURMPipelineRunner.__init__ Example.names (Example.host Example.all_succeed)
          (Some "/out") None None (Some "samples.csv") None None None None None None
          None (Some "prov.json") (Some [1]) None None None with
  | Ret self =>
      fst (SLURMPipelineRunner.run self)
      = Raise (CellmapsPipelineError
                 "You must provide cm4ai_table parameter or samples and unque parameters.")
      /\ opened (snd (SLURMPipelineRunner.run self))
         = ["/out/slurm_cellmaps_job.sh"; "/out/imagedownloadjob.sh"]
  | Raise _ => False
  end
  /\ match @SLURMPipelineRunner.__init__ Example.names (Example.host Example.all_succeed)
             (Some "/out") None (Some "table.tsv") None None None None None None None
             None None (Some [1]) None None None with
     | Ret self =>
         fst (SLURMPipelineRunner.run self)
         = Raise (CellmapsPipelineError "You must provide provenance parameter")
         /\ opened (snd (SLURMPipelineRunner.run self))
            = ["/out/slurm_cellmaps_job.sh"; "/out/imagedownloadjob.sh"]
     | Raise _ => False
     end.
Proof.
  assert (Htable : Some "table.tsv" <> @None string) by discriminate.
  split.
  - match goal with
    | |- match ?init with _ => _ end =>
        let s := eval vm_compute in init in change init with s
    end.
    cbv beta iota.
    match goal with
    | |- context [SLURMPipelineRunner.run ?s] =>
        destruct (missing_input_aborts_after_two_files s) as [Hw _];
        rewrite (Hw eq_refl (or_intror eq_refl))
    end.
    split; [reflexivity | vm_compute; reflexivity].
  - match goal with
    | |- match ?init with _ => _ end =>
        let s := eval vm_compute in init in change init with s
    end.
    cbv beta iota.
    match goal with
    | |- context [SLURMPipelineRunner.run ?s] =>
        destruct (missing_input_aborts_after_two_files s) as [_ Hw];
        rewrite (Hw (or_introl Htable) eq_refl)
    end.
    split; [reflexivity | vm_compute; reflexivity].
Defined.

(** X11 for the fold list [[2, 1]]: the scripts named after fold 2 pass
    [--fold 2] but work on the directories of fold 1. *)
Lemma fold_scripts_use_tuple_at_position_witness :
  Example.on_slurm (Example.host Example.all_succeed) (Some [2; 1])
    (fun self =>
       In (FWrite "/out/imageembedjob2.sh"
             ("cellmaps_image_embeddingcmd.py /out/2.image_embedding_fold1 --fold 2" ++
              " --inputdir /out/1.image_download  -vvvv" ++ nl))
         (snd (SLURMPipelineRunner._generate_embed_image_command self 2))
       /\ In (FWrite "/out/coembeddingjob2.sh"
                ("cellmaps_coembeddingcmd.py /out/3.coembedding_fold1" ++
                 " --ppi_embeddingdir /out/2.ppi_embedding" ++
                 " --image_embeddingdir /out/2.image_embedding_fold1  -vvvv" ++ nl))
            (snd (SLURMPipelineRunner._generate_coembed_command self 2))).
Proof.
  destruct (@fold_scripts_use_tuple_at_position Example.names
              (Example.host Example.all_succeed) "/out" None (Some "table.tsv") None None
              None None None None None (Some "prov.json") None None None None
              [2; 1] 2 1 eq_refl eq_refl) as (self & Hself & Hscripts).
  cbv zeta in Hscripts. destruct Hscripts as [Hi Hc].
  unfold Example.on_slurm, Example.slurm. rewrite Hself, Hi, Hc. cbn [snd].
  vm_compute in Hself. injection Hself as <-.
  split; (right; apply in_or_app; right; left; vm_compute; reflexivity).
Defined.

(** X13 at the example driver, once on an empty file system and once with
    the output root in place. *)
Lemma start_marker_precedes_the_runner_witness :
  let H := Example.host Example.ppi_download_fails in
  let self := Example.driver H 1700000000 (Some [1]) in
  firstn 2 (snd (fst (CellmapsPipeline.run self [])))
  = [Makedirs "/out" 493; WriteStart "/out" 1700000000 None "0.0.1"]
  /\ firstn 2 (snd (fst (CellmapsPipeline.run self ["/out"])))
     = [WriteStart "/out" 1700000000 None "0.0.1";
        Strategy (Warn "FAKE IMAGES ARE BEING DOWNLOADED!!!!!")].
Proof.
  intros H self.
  pose proof (@start_marker_precedes_the_runner H 1700000000 "/out"
                (Example.in_process_runner H (Some [1])) None self [] eq_refl) as H1.
  pose proof (@start_marker_precedes_the_runner H 1700000000 "/out"
                (Example.in_process_runner H (Some [1])) None self ["/out"] eq_refl) as H2.
  cbv zeta in H1, H2.
  destruct (Example.in_process_runner H (Some [1]) _) as [[r1 rtr1] fs1] eqn:R1 in H1.
  destruct (Example.in_process_runner H (Some [1]) _) as [[r2 rtr2] fs2] eqn:R2 in H2.
  rewrite H1, H2. cbn [fst snd].
  split; [reflexivity|].
  vm_compute in R2. injection R2 as _ <- _. reflexivity.
Defined.

(** X14 at the example configuration: folds 1 and 2 give [None], the fold
    list [[3]] gives [IndexError] and 99. *)
Lemma batch_run_records_none_or_99_witness :
  let H := Example.host Example.all_succeed in
  let write_files := fun (tr : list event) (fs : @FS H) => (opened tr ++ fs)%list in
  Example.on_slurm H (Some [1; 2])
    (fun runner =>
       exists self,
         @CellmapsPipeline.__init__ H 1700000000 (Some "/out")
           (@batch_runner H write_files runner) None = Ret self
         /\ fst (fst (CellmapsPipeline.run self [])) = Ret PyNone
         /\ finish_markers (snd (fst (CellmapsPipeline.run self []))) = [PyNone])
  /\ Example.on_slurm H (Some [3])
       (fun runner =>
          exists self,
            @CellmapsPipeline.__init__ H 1700000000 (Some "/out")
              (@batch_runner H write_files runner) None = Ret self
            /\ fst (fst (CellmapsPipeline.run self [])) = Raise IndexError
            /\ finish_markers (snd (fst (CellmapsPipeline.run self []))) = [PyInt 99]).
Proof.
  intros H write_files.
  assert (Hgiven : inputs_given (Some "table.tsv") None None (Some "prov.json"))
    by (split; [discriminate | left; discriminate]).
  split; build_runner;
    match goal with
    | |- exists self, CellmapsPipeline.__init__ ?now ?o (batch_runner ?wf ?s) ?d = Ret self /\ _ =>
        eexists; split; [reflexivity|];
        pose proof (@batch_run_records_none_or_99 H wf now o s d _ (@nil string)
                      eq_refl Hgiven) as Hw;
        cbv zeta in Hw;
        destruct (CellmapsPipeline.run _ _) as [[r tr] fs3];
        destruct Hw as [Hr Hm]; split; [exact Hr | exact Hm]
    end.
Defined.
